(** * RMG rollback netplay core

    A shallow embedding of the rollback netplay glue of RMG
    (Source/RMG-Core/Netplay.cpp, RollbackNetplay.cpp, Emulation.cpp):
    the snapshot buffer pool, the snapshot envelope with its save and load
    operations, the controller input record and its button mapping, and the
    session object wrapped around GGPO.

    Conventions.
    - Fixed-width integers are [Z] values with the wrap-around written out
      ([u32], [size_t] is 64 bits wide, [int] is 32 bits wide).  Signed
      arithmetic that would overflow is undefined in C++ and is modelled as
      [None].
    - Bytes are [Byte.byte]; structures that the source reads or writes
      through a pointer cast are laid out little-endian, as on the hosts the
      program is built for.
    - Pointers are addresses in [Z]; [0] is [nullptr].
    - zlib, GGPO, the allocator and the mupen64plus core are external to the
      repository.  Their answers are arguments of the functions that call
      them; the calls that matter are recorded in the state. *)

From Stdlib Require Import String.
From Stdlib Require DecimalString.
From Stdlib Require Import ZArith List Bool Lia.
From Stdlib Require Import Strings.Byte.
From Stdlib Require Import Sorting.Permutation.
Import ListNotations.
Local Open Scope Z_scope.

(* ------------------------------------------------------------------ *)
(** ** Machine integers and bytes *)

Module C.

Definition u8 (z : Z) : Z := z mod 2 ^ 8.
Definition u16 (z : Z) : Z := z mod 2 ^ 16.
Definition u32 (z : Z) : Z := z mod 2 ^ 32.
Definition size_t (z : Z) : Z := z mod 2 ^ 64.

Definition fits32 (x : Z) : Prop := 0 <= x < 2 ^ 32.

Definition INT_MIN : Z := - 2 ^ 31.
Definition INT_MAX : Z := 2 ^ 31 - 1.

(** Conversion of an unsigned 32-bit value to [int]. *)
Definition to_int (z : Z) : Z :=
  let w := u32 z in if w <? 2 ^ 31 then w else w - 2 ^ 32.

(** Conversion of an unsigned 8-bit value to [int8_t]. *)
Definition to_int8 (z : Z) : Z :=
  let w := u8 z in if w <? 2 ^ 7 then w else w - 2 ^ 8.

(** [int] arithmetic: a result outside the range is undefined behaviour. *)
Definition in_int (z : Z) : bool := (INT_MIN <=? z) && (z <=? INT_MAX).
Definition int_add (a b : Z) : option Z :=
  if in_int (a + b) then Some (a + b) else None.

Definition byte_val (b : byte) : Z := Z.of_N (Byte.to_N b).

Definition byte_of (z : Z) : byte :=
  match Byte.of_N (Z.to_N (u8 z)) with
  | Some b => b
  | None => x00
  end.

(** Little-endian layout of a 16-bit and of a 32-bit field. *)
Definition le16 (z : Z) : list byte :=
  [byte_of z; byte_of (Z.shiftr z 8)].

Definition le32 (z : Z) : list byte :=
  [byte_of z; byte_of (Z.shiftr z 8); byte_of (Z.shiftr z 16);
   byte_of (Z.shiftr z 24)].

(** Reading a field at a byte offset.  Bytes past the end of the list read
    as zero; every caller checks the length first. *)
Definition byte_at (mem : list byte) (off : nat) : Z :=
  byte_val (nth off mem x00).

Fixpoint bytes_eqb (a b : list byte) : bool :=
  match a, b with
  | [], [] => true
  | x :: a', y :: b' => Byte.eqb x y && bytes_eqb a' b'
  | _, _ => false
  end.

(** A check of the [n] values from [v] upward, for properties of small
    words. *)
Fixpoint all_from (n : nat) (v : Z) (f : Z -> bool) : bool :=
  match n with
  | O => true
  | S k => f v && all_from k (v + 1) f
  end.

Definition all_below (bound : Z) (f : Z -> bool) : bool :=
  all_from (Z.to_nat bound) 0 f.

Definition rd16 (mem : list byte) (off : nat) : Z :=
  byte_at mem off + 2 ^ 8 * byte_at mem (off + 1).

Definition rd32 (mem : list byte) (off : nat) : Z :=
  byte_at mem off + 2 ^ 8 * byte_at mem (off + 1)
  + 2 ^ 16 * byte_at mem (off + 2) + 2 ^ 24 * byte_at mem (off + 3).

End C.

(* ------------------------------------------------------------------ *)
(** ** zlib

    [crc32] is the checksum [crc32(0L, data, size)] computes (CRC-32 of
    IEEE 802.3, reflected polynomial [0xEDB88320]).  The compressor and the
    decompressor are not modelled: a [Codec] gives, for an input, the whole
    stream [deflate]/[inflate] would produce with unlimited output space, or
    [None] when the stream cannot be set up or the input is rejected. *)

Module Zlib.

Definition crc_bit (crc : Z) : Z :=
  if Z.testbit crc 0
  then Z.lxor (Z.shiftr crc 1) 0xEDB88320
  else Z.shiftr crc 1.

Definition crc_byte (crc : Z) (b : byte) : Z :=
  let c := Z.lxor crc (C.byte_val b) in
  crc_bit (crc_bit (crc_bit (crc_bit (crc_bit (crc_bit (crc_bit (crc_bit c))))))).

Definition crc32_update (crc : Z) (data : list byte) : Z :=
  Z.lxor (fold_left crc_byte data (Z.lxor crc 0xFFFFFFFF)) 0xFFFFFFFF.

Definition crc32 (data : list byte) : Z := crc32_update 0 data.

Definition adler_step (s : Z * Z) (b : byte) : Z * Z :=
  let a := (fst s + C.byte_val b) mod 65521 in
  (a, (snd s + a) mod 65521).

Definition adler32 (data : list byte) : Z :=
  let s := fold_left adler_step data (1, 0) in
  Z.lor (Z.shiftl (snd s) 16) (fst s).

Record Codec := {
  deflate : Z -> list byte -> option (list byte);
  inflate : list byte -> option (list byte)
}.

(** A codec to run the model on concrete data: the zlib stream that holds
    the input in a single stored block (inputs below 64 KiB). *)
Definition be32 (z : Z) : list byte :=
  [C.byte_of (Z.shiftr z 24); C.byte_of (Z.shiftr z 16);
   C.byte_of (Z.shiftr z 8); C.byte_of z].

Definition stored_deflate (level : Z) (src : list byte) : option (list byte) :=
  let n := Z.of_nat (length src) in
  if n <? 65536
  then Some ([C.byte_of 0x78; C.byte_of 0x01; C.byte_of 0x01]
             ++ C.le16 n ++ C.le16 (Z.lxor n 0xFFFF)
             ++ src ++ be32 (adler32 src))
  else None.

Definition stored_inflate (src : list byte) : option (list byte) :=
  let n := C.rd16 src 3 in
  let body := firstn (Z.to_nat n) (skipn 7 src) in
  if (Nat.eqb (length src) (Z.to_nat n + 11))
     && (C.byte_at src 0 =? 0x78) && (C.byte_at src 1 =? 0x01)
     && (C.byte_at src 2 =? 0x01)
     && (C.rd16 src 5 =? Z.lxor n 0xFFFF)
     && C.bytes_eqb (skipn (7 + Z.to_nat n) src) (be32 (adler32 body))
  then Some body
  else None.

End Zlib.

(* ------------------------------------------------------------------ *)
(** ** The snapshot buffer pool (Netplay.cpp, class StateBufferPool) *)

Module Pool.

Definition ptr := Z.
Definition nullptr : ptr := 0.

(** The two vectors keep their order: [push_back] appends, [back] and
    [pop_back] work on the last element. *)
Record StateBufferPool := {
  m_freeBuffers : list ptr;
  m_usedBuffers : list ptr;
  m_bufferSize : Z;
  m_maxBuffers : Z
}.

Definition DEFAULT_BUFFER_SIZE : Z := 8 * 1024 * 1024.
Definition DEFAULT_MAX_BUFFERS : Z := 4.

(** The constructor pushes whatever [malloc] returned on the free list. *)
Definition new_StateBufferPool (malloc : ptr) (bufferSize maxBuffers : Z) : StateBufferPool :=
  {| m_freeBuffers := [malloc];
     m_usedBuffers := [];
     m_bufferSize := bufferSize;
     m_maxBuffers := maxBuffers |}.

(** [getBuffer]; [malloc] is the pointer the allocator returns if it is
    asked ([nullptr] when the allocation fails). *)
Definition getBuffer (malloc : ptr) (p : StateBufferPool) : ptr * StateBufferPool :=
  match m_freeBuffers p with
  | _ :: _ =>
      let buffer := last (m_freeBuffers p) nullptr in
      (buffer,
       {| m_freeBuffers := removelast (m_freeBuffers p);
          m_usedBuffers := m_usedBuffers p ++ [buffer];
          m_bufferSize := m_bufferSize p;
          m_maxBuffers := m_maxBuffers p |})
  | [] =>
      if Z.of_nat (length (m_usedBuffers p)) <? m_maxBuffers p
      then
        if malloc =? nullptr
        then (nullptr, p)
        else (malloc,
              {| m_freeBuffers := m_freeBuffers p;
                 m_usedBuffers := m_usedBuffers p ++ [malloc];
                 m_bufferSize := m_bufferSize p;
                 m_maxBuffers := m_maxBuffers p |})
      else (nullptr, p)
  end.

(** [std::find] followed by [erase]: the first occurrence goes. *)
Fixpoint find (buffer : ptr) (l : list ptr) : bool :=
  match l with
  | [] => false
  | x :: l' => (x =? buffer) || find buffer l'
  end.

Fixpoint erase (buffer : ptr) (l : list ptr) : list ptr :=
  match l with
  | [] => []
  | x :: l' => if x =? buffer then l' else x :: erase buffer l'
  end.

Definition releaseBuffer (buffer : ptr) (p : StateBufferPool) : StateBufferPool :=
  if buffer =? nullptr then p
  else if find buffer (m_usedBuffers p)
  then {| m_freeBuffers := m_freeBuffers p ++ [buffer];
          m_usedBuffers := erase buffer (m_usedBuffers p);
          m_bufferSize := m_bufferSize p;
          m_maxBuffers := m_maxBuffers p |}
  else p.

Definition getBufferSize (p : StateBufferPool) : Z := m_bufferSize p.

(** No null pointer sits on the free list.  This holds from construction
    on whenever the constructor's allocation succeeded. *)
Definition free_nonnull (p : StateBufferPool) : Prop :=
  ~ In nullptr (m_freeBuffers p).

End Pool.

(* ------------------------------------------------------------------ *)
(** ** The session object (RollbackNetplay.cpp, class RollbackNetplayImpl)

    GGPO is a library outside the repository.  What a GGPO call returns is
    given by a [GGPO] record (session start-up) or by an argument of the
    method that makes the call. *)

Module Rollback.

Definition ptr := Z.
Definition nullptr : ptr := 0.

Definition ROLLBACK_MAX_PREDICTION_FRAMES : Z := 8.
Definition ROLLBACK_INPUT_BYTES : Z := 32.

Definition GGPOErrorCode := Z.
Definition GGPO_OK : GGPOErrorCode := 0.

(** [GGPOEvent]: the event code, and for a time-sync event the
    [u.timesync.frames_ahead] member of the union. *)
Inductive GGPOEvent :=
| GGPO_EVENTCODE_CONNECTED_TO_PEER
| GGPO_EVENTCODE_SYNCHRONIZING_WITH_PEER
| GGPO_EVENTCODE_SYNCHRONIZED_WITH_PEER
| GGPO_EVENTCODE_RUNNING
| GGPO_EVENTCODE_DISCONNECTED_FROM_PEER
| GGPO_EVENTCODE_TIMESYNC (frames_ahead : Z)
| GGPO_EVENTCODE_CONNECTION_INTERRUPTED
| GGPO_EVENTCODE_CONNECTION_RESUMED.

(** The two members of [GGPONetworkStats] the session reads, when
    [ggpo_get_network_stats] answers [GGPO_OK]. *)
Record NetworkStats := {
  network_ping : Z;
  timesync_remote_frames_behind : Z
}.

(** [avgRollbackFrames] is a [float] in the source.  It is kept as the
    pair (dividend, divisor) of the division that produced it. *)
Record RollbackMetrics := {
  rollbackFrames : Z;
  totalRollbacks : Z;
  predictedFrames : Z;
  maxRollbackFrames : Z;
  avgRollbackFrames : Z * Z;
  pingMs : Z;
  remoteFrameAdvantage : Z
}.

Definition Reset : RollbackMetrics :=
  {| rollbackFrames := 0;
     totalRollbacks := 0;
     predictedFrames := 0;
     maxRollbackFrames := 0;
     avgRollbackFrames := (0, 1);
     pingMs := 0;
     remoteFrameAdvantage := 0 |}.

(** The four callback pointers are either null or point to the functions
    [SetCallbacks] received: [true] stands for "set". *)
Record RollbackNetplayImpl := {
  ggpoSession : ptr;
  localPlayer : Z;
  maxPlayers : Z;
  initialized : bool;
  currentFrame : Z;
  localPlayerHandle : Z;
  remotePlayerHandles : list (Z * Z);
  saveStateFn : bool;
  loadStateFn : bool;
  freeStateFn : bool;
  advanceFrameFn : bool;
  currentInputSequence : Z;
  lastSavedFrameInputSequence : Z;
  rollbackJustOccurred : bool;
  metrics : RollbackMetrics
}.

(** The constructor.  The player handles are not initialised by it. *)
Definition new_RollbackNetplayImpl : RollbackNetplayImpl :=
  {| ggpoSession := nullptr;
     localPlayer := 0;
     maxPlayers := 0;
     initialized := false;
     currentFrame := 0;
     localPlayerHandle := 0;
     remotePlayerHandles := [];
     saveStateFn := false;
     loadStateFn := false;
     freeStateFn := false;
     advanceFrameFn := false;
     currentInputSequence := 0;
     lastSavedFrameInputSequence := 0;
     rollbackJustOccurred := false;
     metrics := Reset |}.

Definition set_session (v : ptr) (s : RollbackNetplayImpl) :=
  {| ggpoSession := v; localPlayer := localPlayer s; maxPlayers := maxPlayers s;
     initialized := initialized s; currentFrame := currentFrame s;
     localPlayerHandle := localPlayerHandle s;
     remotePlayerHandles := remotePlayerHandles s;
     saveStateFn := saveStateFn s; loadStateFn := loadStateFn s;
     freeStateFn := freeStateFn s; advanceFrameFn := advanceFrameFn s;
     currentInputSequence := currentInputSequence s;
     lastSavedFrameInputSequence := lastSavedFrameInputSequence s;
     rollbackJustOccurred := rollbackJustOccurred s; metrics := metrics s |}.

Definition set_players (player numPlayers : Z) (s : RollbackNetplayImpl) :=
  {| ggpoSession := ggpoSession s; localPlayer := player; maxPlayers := numPlayers;
     initialized := initialized s; currentFrame := currentFrame s;
     localPlayerHandle := localPlayerHandle s;
     remotePlayerHandles := remotePlayerHandles s;
     saveStateFn := saveStateFn s; loadStateFn := loadStateFn s;
     freeStateFn := freeStateFn s; advanceFrameFn := advanceFrameFn s;
     currentInputSequence := currentInputSequence s;
     lastSavedFrameInputSequence := lastSavedFrameInputSequence s;
     rollbackJustOccurred := rollbackJustOccurred s; metrics := metrics s |}.

Definition set_running (init : bool) (frame : Z) (s : RollbackNetplayImpl) :=
  {| ggpoSession := ggpoSession s; localPlayer := localPlayer s;
     maxPlayers := maxPlayers s;
     initialized := init; currentFrame := frame;
     localPlayerHandle := localPlayerHandle s;
     remotePlayerHandles := remotePlayerHandles s;
     saveStateFn := saveStateFn s; loadStateFn := loadStateFn s;
     freeStateFn := freeStateFn s; advanceFrameFn := advanceFrameFn s;
     currentInputSequence := currentInputSequence s;
     lastSavedFrameInputSequence := lastSavedFrameInputSequence s;
     rollbackJustOccurred := rollbackJustOccurred s; metrics := metrics s |}.

Definition set_local_handle (h : Z) (s : RollbackNetplayImpl) :=
  {| ggpoSession := ggpoSession s; localPlayer := localPlayer s;
     maxPlayers := maxPlayers s;
     initialized := initialized s; currentFrame := currentFrame s;
     localPlayerHandle := h;
     remotePlayerHandles := remotePlayerHandles s;
     saveStateFn := saveStateFn s; loadStateFn := loadStateFn s;
     freeStateFn := freeStateFn s; advanceFrameFn := advanceFrameFn s;
     currentInputSequence := currentInputSequence s;
     lastSavedFrameInputSequence := lastSavedFrameInputSequence s;
     rollbackJustOccurred := rollbackJustOccurred s; metrics := metrics s |}.

Definition set_remote_handle (i h : Z) (s : RollbackNetplayImpl) :=
  {| ggpoSession := ggpoSession s; localPlayer := localPlayer s;
     maxPlayers := maxPlayers s;
     initialized := initialized s; currentFrame := currentFrame s;
     localPlayerHandle := localPlayerHandle s;
     remotePlayerHandles := (i, h) :: remotePlayerHandles s;
     saveStateFn := saveStateFn s; loadStateFn := loadStateFn s;
     freeStateFn := freeStateFn s; advanceFrameFn := advanceFrameFn s;
     currentInputSequence := currentInputSequence s;
     lastSavedFrameInputSequence := lastSavedFrameInputSequence s;
     rollbackJustOccurred := rollbackJustOccurred s; metrics := metrics s |}.

Definition set_sequence (cur saved : Z) (s : RollbackNetplayImpl) :=
  {| ggpoSession := ggpoSession s; localPlayer := localPlayer s;
     maxPlayers := maxPlayers s;
     initialized := initialized s; currentFrame := currentFrame s;
     localPlayerHandle := localPlayerHandle s;
     remotePlayerHandles := remotePlayerHandles s;
     saveStateFn := saveStateFn s; loadStateFn := loadStateFn s;
     freeStateFn := freeStateFn s; advanceFrameFn := advanceFrameFn s;
     currentInputSequence := cur;
     lastSavedFrameInputSequence := saved;
     rollbackJustOccurred := rollbackJustOccurred s; metrics := metrics s |}.

Definition set_metrics (flag : bool) (m : RollbackMetrics) (s : RollbackNetplayImpl) :=
  {| ggpoSession := ggpoSession s; localPlayer := localPlayer s;
     maxPlayers := maxPlayers s;
     initialized := initialized s; currentFrame := currentFrame s;
     localPlayerHandle := localPlayerHandle s;
     remotePlayerHandles := remotePlayerHandles s;
     saveStateFn := saveStateFn s; loadStateFn := loadStateFn s;
     freeStateFn := freeStateFn s; advanceFrameFn := advanceFrameFn s;
     currentInputSequence := currentInputSequence s;
     lastSavedFrameInputSequence := lastSavedFrameInputSequence s;
     rollbackJustOccurred := flag; metrics := m |}.

Definition SetCallbacks (saveState loadState freeState advanceFrame : bool)
    (s : RollbackNetplayImpl) :=
  {| ggpoSession := ggpoSession s; localPlayer := localPlayer s;
     maxPlayers := maxPlayers s;
     initialized := initialized s; currentFrame := currentFrame s;
     localPlayerHandle := localPlayerHandle s;
     remotePlayerHandles := remotePlayerHandles s;
     saveStateFn := saveState; loadStateFn := loadState;
     freeStateFn := freeState; advanceFrameFn := advanceFrame;
     currentInputSequence := currentInputSequence s;
     lastSavedFrameInputSequence := lastSavedFrameInputSequence s;
     rollbackJustOccurred := rollbackJustOccurred s; metrics := metrics s |}.

(** Answers of the GGPO calls [Initialize] makes. *)
Record GGPO := {
  (* num_players, input_size, localport -> result, the session written *)
  ggpo_start_session : Z -> Z -> Z -> GGPOErrorCode * ptr;
  (* session, player_num, local? -> result, the handle written *)
  ggpo_add_player : ptr -> Z -> bool -> GGPOErrorCode * Z;
  (* session, handle, frame_delay -> result *)
  ggpo_set_frame_delay : ptr -> Z -> Z -> GGPOErrorCode
}.

Definition to_string (z : Z) : string :=
  DecimalString.NilZero.string_of_int (Z.to_int z).

(** The loop "Add players" of [Initialize], from index [i] for [n] more
    rounds; it stops at the first player GGPO refuses and returns that
    index. *)
Fixpoint add_players (g : GGPO) (n : nat) (i : Z) (s : RollbackNetplayImpl)
  : option Z * RollbackNetplayImpl :=
  match n with
  | O => (None, s)
  | S n' =>
      let is_local := (i + 1 =? localPlayer s) in
      let '(result, handle) := ggpo_add_player g (ggpoSession s) (i + 1) is_local in
      let s' := if is_local then set_local_handle handle s
                else set_remote_handle i handle s in
      if result =? GGPO_OK then add_players g n' (i + 1) s' else (Some i, s')
  end.

(** [Initialize] on the object at address [this]; [instancePtr] is the
    static instance pointer of the class.  The result is the returned
    flag, the object, the static pointer and the messages handed to
    [CoreSetError]. *)
Definition Initialize (g : GGPO) (this : ptr) (s : RollbackNetplayImpl)
    (instancePtr : ptr) (port player numPlayers frameDelay : Z)
  : bool * RollbackNetplayImpl * ptr * list string :=
  if initialized s then (true, s, instancePtr, [])
  else if negb (instancePtr =? nullptr)
  then (false, s, instancePtr,
        ["RollbackNetplay: Another instance is already active"%string])
  else
    let s := set_players player numPlayers s in
    let '(result, session) :=
      ggpo_start_session g (maxPlayers s) ROLLBACK_INPUT_BYTES port in
    let s := set_session session s in
    if negb (result =? GGPO_OK)
    then (false, s, nullptr,
          ["RollbackNetplay: Failed to start GGPO session"%string])
    else
      match add_players g (Z.to_nat (maxPlayers s)) 0 s with
      | (Some i, s) =>
          (false, set_session nullptr s, nullptr,
           [("RollbackNetplay: Failed to add player " ++ to_string (i + 1))%string])
      | (None, s) =>
          if negb (ggpo_set_frame_delay g (ggpoSession s) (localPlayerHandle s)
                     frameDelay =? GGPO_OK)
          then (false, set_session nullptr s, nullptr,
                ["RollbackNetplay: Failed to set frame delay"%string])
          else (true, set_running true 0 s, this, [])
      end.

Definition Shutdown (this : ptr) (s : RollbackNetplayImpl) (instancePtr : ptr)
  : RollbackNetplayImpl * ptr :=
  if initialized s && negb (ggpoSession s =? nullptr)
  then (set_running false 0 (set_session nullptr s),
        if instancePtr =? this then nullptr else instancePtr)
  else (s, instancePtr).

Definition IsInitialized (s : RollbackNetplayImpl) : bool := initialized s.

(** [AddLocalInput]; [submit] is what [ggpo_add_local_input] answers when
    it is reached, given the session object as it is at that moment (GGPO
    reaches the object through its callbacks).  What those callbacks do to
    the object is not part of this function; none of them writes
    [currentInputSequence]. *)
Definition AddLocalInput (submit : RollbackNetplayImpl -> GGPOErrorCode)
    (s : RollbackNetplayImpl) : bool * RollbackNetplayImpl :=
  if negb (initialized s) || (ggpoSession s =? nullptr)
  then (false, s)
  else
    let s := set_sequence (C.u32 (currentInputSequence s + 1))
               (lastSavedFrameInputSequence s) s in
    let result := submit s in
    (result =? GGPO_OK, s).

Definition GetSynchronizedInputs (sync : GGPOErrorCode) (s : RollbackNetplayImpl)
  : bool :=
  if negb (initialized s) || (ggpoSession s =? nullptr)
  then false
  else sync =? GGPO_OK.

Definition GetCurrentInputSequence (s : RollbackNetplayImpl) : Z :=
  currentInputSequence s.

Definition GetMetrics (s : RollbackNetplayImpl) : RollbackMetrics := metrics s.

Definition RollbackJustOccurred (s : RollbackNetplayImpl) : bool * RollbackNetplayImpl :=
  (rollbackJustOccurred s, set_metrics false (metrics s) s).

(** [UpdateMetrics]; [stats] is the answer of [ggpo_get_network_stats]
    when it is [GGPO_OK]. *)
Definition UpdateMetrics (stats : option NetworkStats) (event : GGPOEvent)
    (m : RollbackMetrics) : RollbackMetrics :=
  let m :=
    match event with
    | GGPO_EVENTCODE_CONNECTION_INTERRUPTED => m
    | GGPO_EVENTCODE_CONNECTION_RESUMED => m
    | GGPO_EVENTCODE_CONNECTED_TO_PEER => Reset
    | GGPO_EVENTCODE_DISCONNECTED_FROM_PEER => Reset
    | GGPO_EVENTCODE_TIMESYNC frames_ahead =>
        {| rollbackFrames := rollbackFrames m;
           totalRollbacks := totalRollbacks m;
           predictedFrames := predictedFrames m;
           maxRollbackFrames := maxRollbackFrames m;
           avgRollbackFrames := avgRollbackFrames m;
           pingMs := pingMs m;
           remoteFrameAdvantage := frames_ahead |}
    | _ => m
    end in
  match stats with
  | Some st =>
      {| rollbackFrames := rollbackFrames m;
         totalRollbacks := totalRollbacks m;
         predictedFrames := timesync_remote_frames_behind st;
         maxRollbackFrames := maxRollbackFrames m;
         avgRollbackFrames := avgRollbackFrames m;
         pingMs := network_ping st;
         remoteFrameAdvantage := remoteFrameAdvantage m |}
  | None => m
  end.

(** The body of [OnEvent_Callback] once the instance is known.  The two
    additions are on [int]; [None] is the overflow the language leaves
    undefined. *)
Definition OnEvent (stats : option NetworkStats) (event : GGPOEvent)
    (s : RollbackNetplayImpl) : option RollbackNetplayImpl :=
  let m := UpdateMetrics stats event (metrics s) in
  match event with
  | GGPO_EVENTCODE_TIMESYNC frames_ahead =>
      if 0 <? frames_ahead
      then
        let rollbackFrames' := frames_ahead in
        if 0 <? rollbackFrames'
        then
          match C.int_add (rollbackFrames m) rollbackFrames',
                C.int_add (totalRollbacks m) 1 with
          | Some sum, Some count =>
              let top := if maxRollbackFrames m <? rollbackFrames'
                         then rollbackFrames' else maxRollbackFrames m in
              Some (set_metrics true
                      {| rollbackFrames := sum;
                         totalRollbacks := count;
                         predictedFrames := predictedFrames m;
                         maxRollbackFrames := top;
                         avgRollbackFrames := (sum, count);
                         pingMs := pingMs m;
                         remoteFrameAdvantage := remoteFrameAdvantage m |} s)
          | _, _ => None
          end
        else Some (set_metrics (rollbackJustOccurred s) m s)
      else Some (set_metrics (rollbackJustOccurred s) m s)
  | _ => Some (set_metrics (rollbackJustOccurred s) m s)
  end.

(** [OnEvent_Callback]: [instance] is what [GetInstance()] points to. *)
Definition OnEvent_Callback (stats : option NetworkStats) (event : GGPOEvent)
    (instance : option RollbackNetplayImpl)
  : option (bool * option RollbackNetplayImpl) :=
  match instance with
  | None => Some (true, None)
  | Some s =>
      match OnEvent stats event s with
      | Some s' => Some (true, Some s')
      | None => None
      end
  end.

(** A run of the session over the events GGPO delivers, each with the
    answer of the statistics probe made while it is handled. *)
Fixpoint process_events (evs : list (GGPOEvent * option NetworkStats))
    (s : RollbackNetplayImpl) : option RollbackNetplayImpl :=
  match evs with
  | [] => Some s
  | (event, stats) :: evs' =>
      match OnEvent_Callback stats event (Some s) with
      | Some (_, Some s') => process_events evs' s'
      | _ => None
      end
  end.

Definition resets_metrics (event : GGPOEvent) : bool :=
  match event with
  | GGPO_EVENTCODE_CONNECTED_TO_PEER => true
  | GGPO_EVENTCODE_DISCONNECTED_FROM_PEER => true
  | _ => false
  end.

End Rollback.

(* ------------------------------------------------------------------ *)
(** ** Snapshot store and session control (Netplay.cpp) *)

Module Netplay.

Import Pool.

Definition M64CORE_RANDOM_SEED : Z := 13.
Definition ROLLBACK_STATE_MAGIC : Z := 0x52424B53.
Definition ROLLBACK_STATE_VERSION : Z := 1.

(** [struct RollbackStateHeader]: nine 32-bit fields, 36 bytes. *)
Record RollbackStateHeader := {
  magic : Z;
  version : Z;
  frame : Z;
  uncompressedSize : Z;
  compressedSize : Z;
  randState : Z;
  inputSequence : Z;
  reserved : Z * Z
}.

Definition sizeof_RollbackStateHeader : Z := 36.

(** Bytes of the reserve kept between the header and the saved state. *)
Definition RESERVE : Z := 1024.

(** The header as it lies in memory, and as it is read back through the
    pointer cast. *)
Definition header_bytes (h : RollbackStateHeader) : list byte :=
  C.le32 (magic h) ++ C.le32 (version h) ++ C.le32 (frame h)
  ++ C.le32 (uncompressedSize h) ++ C.le32 (compressedSize h)
  ++ C.le32 (randState h) ++ C.le32 (inputSequence h)
  ++ C.le32 (fst (reserved h)) ++ C.le32 (snd (reserved h)).

Definition header_at (mem : list byte) : RollbackStateHeader :=
  {| magic := C.rd32 mem 0;
     version := C.rd32 mem 4;
     frame := C.rd32 mem 8;
     uncompressedSize := C.rd32 mem 12;
     compressedSize := C.rd32 mem 16;
     randState := C.rd32 mem 20;
     inputSequence := C.rd32 mem 24;
     reserved := (C.rd32 mem 28, C.rd32 mem 32) |}.

(** [struct StateMetrics].  The two accumulated durations are wall-clock
    measurements taken by [ScopedTimer]; they are left out, and so is the
    text [logMetrics] prints. *)
Record StateMetrics := {
  saveCount : Z;
  loadCount : Z;
  totalUncompressedSize : Z;
  totalCompressedSize : Z
}.

Definition reset : StateMetrics :=
  {| saveCount := 0; loadCount := 0;
     totalUncompressedSize := 0; totalCompressedSize := 0 |}.

(** Commands sent to the mupen64plus core through [DoCommand]. *)
Inductive CoreCommand :=
| M64CMD_STATE_SAVE (room : Z)
| M64CMD_STATE_LOAD (size : Z) (data : list byte)
| M64CMD_CORE_STATE_QUERY (param : Z).

(** What the world outside answers during one call.
    [state_save room] is the answer to [M64CMD_STATE_SAVE]: [None] for an
    error, otherwise the contents of the [room] bytes at the destination
    after the call (what the core wrote, followed by what the recycled
    buffer held before). *)
Record Host := {
  malloc : ptr;
  new_object : ptr;
  state_save : Z -> option (list byte);
  state_load : Z -> list byte -> bool;
  rng_query : option Z;
  Netplay_RollbackFrameDelay : Z;
  ggpo : Rollback.GGPO
}.

(** The statics of Netplay.cpp, [g_currentInputSequence] of Emulation.cpp,
    the static instance pointer of RollbackNetplayImpl, the messages given
    to [CoreSetError] (oldest first) and the commands the core received
    (oldest first).  [l_RollbackNetplay] holds the address of the
    implementation object together with the object. *)
Record World := {
  l_HasInitNetplay : bool;
  l_HasInitRollbackNetplay : bool;
  l_RollbackNetplay : option (ptr * Rollback.RollbackNetplayImpl);
  l_RollbackLocalPlayer : Z;
  l_RollbackMaxPlayers : Z;
  instancePtr : ptr;
  g_currentInputSequence : Z;
  g_stateMetrics : StateMetrics;
  g_stateBufferPool : StateBufferPool;
  fallbackRng : Z;
  errors : list string;
  coreCommands : list CoreCommand
}.

Definition initial_World (pool_malloc : ptr) : World :=
  {| l_HasInitNetplay := false;
     l_HasInitRollbackNetplay := false;
     l_RollbackNetplay := None;
     l_RollbackLocalPlayer := 0;
     l_RollbackMaxPlayers := 0;
     instancePtr := nullptr;
     g_currentInputSequence := 0;
     g_stateMetrics := reset;
     g_stateBufferPool := new_StateBufferPool pool_malloc DEFAULT_BUFFER_SIZE DEFAULT_MAX_BUFFERS;
     fallbackRng := 0;
     errors := [];
     coreCommands := [] |}.

(** Modelled from the spec: [CoreSetError] is declared in Error.hpp, which
    is not among the sources.  Error messages are plain strings handed to
    an error sink; the sink is the list [errors]. *)
Definition CoreSetError (msg : string) (w : World) : World :=
  {| l_HasInitNetplay := l_HasInitNetplay w;
     l_HasInitRollbackNetplay := l_HasInitRollbackNetplay w;
     l_RollbackNetplay := l_RollbackNetplay w;
     l_RollbackLocalPlayer := l_RollbackLocalPlayer w;
     l_RollbackMaxPlayers := l_RollbackMaxPlayers w;
     instancePtr := instancePtr w;
     g_currentInputSequence := g_currentInputSequence w;
     g_stateMetrics := g_stateMetrics w;
     g_stateBufferPool := g_stateBufferPool w;
     fallbackRng := fallbackRng w;
     errors := errors w ++ [msg];
     coreCommands := coreCommands w |}.

Definition DoCommand (c : CoreCommand) (w : World) : World :=
  {| l_HasInitNetplay := l_HasInitNetplay w;
     l_HasInitRollbackNetplay := l_HasInitRollbackNetplay w;
     l_RollbackNetplay := l_RollbackNetplay w;
     l_RollbackLocalPlayer := l_RollbackLocalPlayer w;
     l_RollbackMaxPlayers := l_RollbackMaxPlayers w;
     instancePtr := instancePtr w;
     g_currentInputSequence := g_currentInputSequence w;
     g_stateMetrics := g_stateMetrics w;
     g_stateBufferPool := g_stateBufferPool w;
     fallbackRng := fallbackRng w;
     errors := errors w;
     coreCommands := coreCommands w ++ [c] |}.

Definition set_pool (p : StateBufferPool) (w : World) : World :=
  {| l_HasInitNetplay := l_HasInitNetplay w;
     l_HasInitRollbackNetplay := l_HasInitRollbackNetplay w;
     l_RollbackNetplay := l_RollbackNetplay w;
     l_RollbackLocalPlayer := l_RollbackLocalPlayer w;
     l_RollbackMaxPlayers := l_RollbackMaxPlayers w;
     instancePtr := instancePtr w;
     g_currentInputSequence := g_currentInputSequence w;
     g_stateMetrics := g_stateMetrics w;
     g_stateBufferPool := p;
     fallbackRng := fallbackRng w;
     errors := errors w;
     coreCommands := coreCommands w |}.

Definition set_stateMetrics (m : StateMetrics) (w : World) : World :=
  {| l_HasInitNetplay := l_HasInitNetplay w;
     l_HasInitRollbackNetplay := l_HasInitRollbackNetplay w;
     l_RollbackNetplay := l_RollbackNetplay w;
     l_RollbackLocalPlayer := l_RollbackLocalPlayer w;
     l_RollbackMaxPlayers := l_RollbackMaxPlayers w;
     instancePtr := instancePtr w;
     g_currentInputSequence := g_currentInputSequence w;
     g_stateMetrics := m;
     g_stateBufferPool := g_stateBufferPool w;
     fallbackRng := fallbackRng w;
     errors := errors w;
     coreCommands := coreCommands w |}.

Definition set_inputSequence (v : Z) (w : World) : World :=
  {| l_HasInitNetplay := l_HasInitNetplay w;
     l_HasInitRollbackNetplay := l_HasInitRollbackNetplay w;
     l_RollbackNetplay := l_RollbackNetplay w;
     l_RollbackLocalPlayer := l_RollbackLocalPlayer w;
     l_RollbackMaxPlayers := l_RollbackMaxPlayers w;
     instancePtr := instancePtr w;
     g_currentInputSequence := v;
     g_stateMetrics := g_stateMetrics w;
     g_stateBufferPool := g_stateBufferPool w;
     fallbackRng := fallbackRng w;
     errors := errors w;
     coreCommands := coreCommands w |}.

Definition set_fallbackRng (v : Z) (w : World) : World :=
  {| l_HasInitNetplay := l_HasInitNetplay w;
     l_HasInitRollbackNetplay := l_HasInitRollbackNetplay w;
     l_RollbackNetplay := l_RollbackNetplay w;
     l_RollbackLocalPlayer := l_RollbackLocalPlayer w;
     l_RollbackMaxPlayers := l_RollbackMaxPlayers w;
     instancePtr := instancePtr w;
     g_currentInputSequence := g_currentInputSequence w;
     g_stateMetrics := g_stateMetrics w;
     g_stateBufferPool := g_stateBufferPool w;
     fallbackRng := v;
     errors := errors w;
     coreCommands := coreCommands w |}.

(** The session statics together. *)
Definition set_session (hasInit : bool)
    (obj : option (ptr * Rollback.RollbackNetplayImpl)) (inst : ptr)
    (w : World) : World :=
  {| l_HasInitNetplay := l_HasInitNetplay w;
     l_HasInitRollbackNetplay := hasInit;
     l_RollbackNetplay := obj;
     l_RollbackLocalPlayer := l_RollbackLocalPlayer w;
     l_RollbackMaxPlayers := l_RollbackMaxPlayers w;
     instancePtr := inst;
     g_currentInputSequence := g_currentInputSequence w;
     g_stateMetrics := g_stateMetrics w;
     g_stateBufferPool := g_stateBufferPool w;
     fallbackRng := fallbackRng w;
     errors := errors w;
     coreCommands := coreCommands w |}.

Definition set_playerInfo (player maxPlayers : Z) (w : World) : World :=
  {| l_HasInitNetplay := l_HasInitNetplay w;
     l_HasInitRollbackNetplay := l_HasInitRollbackNetplay w;
     l_RollbackNetplay := l_RollbackNetplay w;
     l_RollbackLocalPlayer := player;
     l_RollbackMaxPlayers := maxPlayers;
     instancePtr := instancePtr w;
     g_currentInputSequence := g_currentInputSequence w;
     g_stateMetrics := g_stateMetrics w;
     g_stateBufferPool := g_stateBufferPool w;
     fallbackRng := fallbackRng w;
     errors := errors w;
     coreCommands := coreCommands w |}.

Definition CalculateChecksum (data : list byte) : Z := Zlib.crc32 data.

Definition COMPRESSION_LEVEL : Z := 1.

(** [CompressData]: [deflate] with [Z_FINISH] ends the stream only when
    all of it fits in the [dstLen] bytes of output space; the result is
    the compressed bytes, whose count the source stores in [*dstLen]. *)
Definition CompressData (z : Zlib.Codec) (src : list byte) (dstLen : Z)
  : option (list byte) :=
  match Zlib.deflate z COMPRESSION_LEVEL src with
  | None => None
  | Some out => if Z.of_nat (length out) <=? dstLen then Some out else None
  end.

(** [DecompressData], likewise for [inflate]. *)
Definition DecompressData (z : Zlib.Codec) (src : list byte) (dstLen : Z)
  : option (list byte) :=
  match Zlib.inflate z src with
  | None => None
  | Some out => if Z.of_nat (length out) <=? dstLen then Some out else None
  end.

Definition GetEmulatorRngState (h : Host) (w : World) : Z * World :=
  let w := DoCommand (M64CMD_CORE_STATE_QUERY M64CORE_RANDOM_SEED) w in
  match rng_query h with
  | Some rngState => (C.u32 rngState, w)
  | None =>
      let fallback := C.u32 (fallbackRng w + 1) in
      (fallback, set_fallbackRng fallback w)
  end.

Definition FreeEmulatorState (buffer : ptr) (w : World) : World :=
  set_pool (releaseBuffer buffer (g_stateBufferPool w)) w.

Definition AdvanceEmulatorFrame : bool := true.

(** The loop "Find out how big the state actually is": [i] runs from
    [maxUncompressedSize] down to 1 and stops at the first [i] with a
    non-zero byte at [i-1]; [size] is the value kept when none is found. *)
Fixpoint scan_size (tempBuffer : list byte) (i : nat) (size : Z) : Z :=
  match i with
  | O => size
  | S j =>
      if negb (C.byte_at tempBuffer j =? 0)
      then Z.of_nat (S j)
      else scan_size tempBuffer j size
  end.

Definition actualUncompressedSize (tempBuffer : list byte)
    (maxUncompressedSize : Z) : Z :=
  scan_size tempBuffer (Z.to_nat maxUncompressedSize) maxUncompressedSize.

(** The bytes handed to the compressor and to the checksum: both calls
    take [tempBuffer] with the scanned size, narrowed to 32 bits. *)
Definition payload (tempBuffer : list byte) (maxUncompressedSize : Z) : list byte :=
  firstn (Z.to_nat (C.u32 (actualUncompressedSize tempBuffer maxUncompressedSize)))
    tempBuffer.

Definition maxUncompressedSize_of (p : StateBufferPool) : Z :=
  C.size_t (getBufferSize p - sizeof_RollbackStateHeader - RESERVE).

Definition count_save (m : StateMetrics) : StateMetrics :=
  let m := {| saveCount := C.u32 (saveCount m + 1);
              loadCount := loadCount m;
              totalUncompressedSize := totalUncompressedSize m;
              totalCompressedSize := totalCompressedSize m |} in
  if saveCount m mod 100 =? 0 then reset else m.

Definition count_load (m : StateMetrics) : StateMetrics :=
  {| saveCount := saveCount m;
     loadCount := C.u32 (loadCount m + 1);
     totalUncompressedSize := totalUncompressedSize m;
     totalCompressedSize := totalCompressedSize m |}.

Definition add_sizes (uncompressed compressed : Z) (m : StateMetrics) : StateMetrics :=
  {| saveCount := saveCount m;
     loadCount := loadCount m;
     totalUncompressedSize := C.size_t (totalUncompressedSize m + uncompressed);
     totalCompressedSize := C.size_t (totalCompressedSize m + compressed) |}.

(** What a successful save hands back: the three out-parameters, and the
    [len] bytes found at [buffer]. *)
Record SaveResult := {
  buffer : ptr;
  len : Z;
  checksum : Z;
  envelope : list byte
}.

Definition SaveEmulatorState (z : Zlib.Codec) (h : Host) (frame : Z) (w : World)
  : option SaveResult * World :=
  let w := set_stateMetrics (count_save (g_stateMetrics w)) w in
  let '(stateBuffer, pool) := getBuffer (malloc h) (g_stateBufferPool w) in
  let w := set_pool pool w in
  if stateBuffer =? nullptr
  then (None, CoreSetError "Failed to obtain state buffer from pool" w)
  else
    let maxUncompressedSize := maxUncompressedSize_of pool in
    let w := DoCommand (M64CMD_STATE_SAVE maxUncompressedSize) w in
    match state_save h maxUncompressedSize with
    | None =>
        (None, CoreSetError "Failed to save emulator state"
                 (set_pool (releaseBuffer stateBuffer pool) w))
    | Some tempBuffer =>
        let actual := actualUncompressedSize tempBuffer maxUncompressedSize in
        let w := set_stateMetrics (add_sizes actual 0 (g_stateMetrics w)) w in
        match CompressData z (payload tempBuffer maxUncompressedSize) RESERVE with
        | None =>
            (None, CoreSetError "Failed to compress state data"
                     (set_pool (releaseBuffer stateBuffer pool) w))
        | Some compressed =>
            let compressedSize' := Z.of_nat (length compressed) in
            let w := set_stateMetrics
                       (add_sizes 0 compressedSize' (g_stateMetrics w)) w in
            let '(rng, w) := GetEmulatorRngState h w in
            let header :=
              {| magic := ROLLBACK_STATE_MAGIC;
                 version := ROLLBACK_STATE_VERSION;
                 frame := C.u32 frame;
                 uncompressedSize := C.u32 actual;
                 compressedSize := C.u32 compressedSize';
                 randState := rng;
                 inputSequence := g_currentInputSequence w;
                 reserved := (0, 0) |} in
            (Some {| buffer := stateBuffer;
                     len := C.to_int (sizeof_RollbackStateHeader + compressedSize');
                     checksum :=
                       C.to_int (CalculateChecksum
                                   (payload tempBuffer maxUncompressedSize));
                     envelope := header_bytes header ++ compressed |},
             w)
        end
    end.

(** [LoadEmulatorState buffer len]; [mem] is what lies at [buffer]. *)
Definition LoadEmulatorState (z : Zlib.Codec) (h : Host)
    (buffer : ptr) (mem : list byte) (len : Z) (w : World) : bool * World :=
  let w := set_stateMetrics (count_load (g_stateMetrics w)) w in
  if (buffer =? nullptr) || (C.size_t len <=? sizeof_RollbackStateHeader)
  then (false, CoreSetError "Invalid state buffer or size" w)
  else
    let header := header_at mem in
    if negb (magic header =? ROLLBACK_STATE_MAGIC)
    then (false, CoreSetError "Invalid state format (wrong magic number)" w)
    else if negb (version header =? ROLLBACK_STATE_VERSION)
    then (false, CoreSetError "Unsupported state version" w)
    else if C.size_t len <? C.size_t (compressedSize header + sizeof_RollbackStateHeader)
    then (false, CoreSetError "State buffer is smaller than expected" w)
    else
      let '(uncompressedBuffer, pool) :=
        getBuffer (malloc h) (g_stateBufferPool w) in
      let w := set_pool pool w in
      if uncompressedBuffer =? nullptr
      then (false,
            CoreSetError "Failed to obtain buffer from pool for decompression" w)
      else
        let src := firstn (Z.to_nat (compressedSize header))
                     (skipn (Z.to_nat sizeof_RollbackStateHeader) mem) in
        match DecompressData z src (uncompressedSize header) with
        | None =>
            (false, CoreSetError "Failed to decompress state data"
                      (set_pool (releaseBuffer uncompressedBuffer pool) w))
        | Some data =>
            let w := DoCommand (M64CMD_STATE_LOAD (uncompressedSize header) data) w in
            if negb (state_load h (uncompressedSize header) data)
            then (false, CoreSetError "Failed to load emulator state"
                           (set_pool (releaseBuffer uncompressedBuffer pool) w))
            else
              let w := set_inputSequence (inputSequence header) w in
              (true, set_pool (releaseBuffer uncompressedBuffer pool) w)
        end.

(** [delete l_RollbackNetplay]: the destructor of the wrapper and then the
    destructor of the implementation object each call [Shutdown]. *)
Definition delete_RollbackNetplay (this : ptr) (s : Rollback.RollbackNetplayImpl)
    (inst : ptr) : ptr :=
  let '(s, inst) := Rollback.Shutdown this s inst in
  snd (Rollback.Shutdown this s inst).

Definition CoreInitRollbackNetplay (h : Host) (port player maxPlayers : Z)
    (w : World) : bool * World :=
  if l_HasInitNetplay w
  then (false,
        CoreSetError
          "Cannot initialize rollback netplay when standard netplay is active" w)
  else if l_HasInitRollbackNetplay w
  then (true, w)
  else if (player <? 1) || (4 <? player) || (maxPlayers <? 2) || (4 <? maxPlayers)
  then (false,
        CoreSetError "Invalid player number or max players for rollback netplay" w)
  else
    let w := set_playerInfo player maxPlayers w in
    let '(this, s) :=
      match l_RollbackNetplay w with
      | Some obj => obj
      | None => (new_object h, Rollback.new_RollbackNetplayImpl)
      end in
    let s := Rollback.SetCallbacks true true true true s in
    let frameDelay := Netplay_RollbackFrameDelay h in
    let '(ok, s, inst, msgs) :=
      Rollback.Initialize (ggpo h) this s (instancePtr w)
        port player maxPlayers frameDelay in
    let w := fold_left (fun w msg => CoreSetError msg w) msgs w in
    if negb ok
    then (false,
          set_session (l_HasInitRollbackNetplay w) None
            (delete_RollbackNetplay this s inst)
            (CoreSetError "Failed to initialize rollback netplay" w))
    else (true, set_session true (Some (this, s)) inst w).

Definition CoreHasInitRollbackNetplay (w : World) : bool :=
  l_HasInitRollbackNetplay w.

Definition CoreShutdownRollbackNetplay (w : World) : bool * World :=
  match l_RollbackNetplay w with
  | Some (this, s) =>
      if negb (l_HasInitRollbackNetplay w) then (true, w)
      else
        let '(s, inst) := Rollback.Shutdown this s (instancePtr w) in
        (true, set_session false None (delete_RollbackNetplay this s inst) w)
  | None => (true, w)
  end.

(** [CoreRollbackNetplayAddLocalInput]; [submit] is the answer of
    [ggpo_add_local_input] if the call gets that far. *)
Definition CoreRollbackNetplayAddLocalInput
    (submit : Rollback.RollbackNetplayImpl -> Rollback.GGPOErrorCode)
    (w : World) : bool * World :=
  match l_RollbackNetplay w with
  | Some (this, s) =>
      if negb (l_HasInitRollbackNetplay w) then (false, w)
      else
        let '(r, s) := Rollback.AddLocalInput submit s in
        (r, set_session (l_HasInitRollbackNetplay w) (Some (this, s))
              (instancePtr w) w)
  | None => (false, w)
  end.

(** [CoreGetNetplayPlayerIndex] in a build with [NETPLAY] defined. *)
Definition CoreGetNetplayPlayerIndex (w : World) : Z :=
  if 0 <? l_RollbackLocalPlayer w then l_RollbackLocalPlayer w - 1 else 0.

End Netplay.

(* ------------------------------------------------------------------ *)
(** ** Controller input (Emulation.cpp) *)

Module Emulation.

Definition CONTROLLER_COUNT : Z := 4.
Definition ROLLBACK_INPUT_BYTES : Z := 32.

(** [struct ControllerInput], 8 bytes: buttons, stick_x, stick_y,
    trigger_r, trigger_l, reserved[2]. *)
Record ControllerInput := {
  buttons : Z;
  stick_x : Z;
  stick_y : Z;
  trigger_r : Z;
  trigger_l : Z;
  reserved : Z * Z
}.

Definition sizeof_ControllerInput : nat := 8.

Definition BTN_A : Z := Z.shiftl 1 0.
Definition BTN_B : Z := Z.shiftl 1 1.
Definition BTN_Z : Z := Z.shiftl 1 2.
Definition BTN_START : Z := Z.shiftl 1 3.
Definition BTN_DPAD_UP : Z := Z.shiftl 1 4.
Definition BTN_DPAD_DOWN : Z := Z.shiftl 1 5.
Definition BTN_DPAD_LEFT : Z := Z.shiftl 1 6.
Definition BTN_DPAD_RIGHT : Z := Z.shiftl 1 7.
Definition BTN_SHOULDER_L : Z := Z.shiftl 1 8.
Definition BTN_SHOULDER_R : Z := Z.shiftl 1 9.
Definition BTN_C_UP : Z := Z.shiftl 1 10.
Definition BTN_C_DOWN : Z := Z.shiftl 1 11.
Definition BTN_C_LEFT : Z := Z.shiftl 1 12.
Definition BTN_C_RIGHT : Z := Z.shiftl 1 13.

(** The 14 bits either button word defines. *)
Definition DEFINED_BITS : Z := 0x3FFF.

(** The emulator's native button bitmap as section 6 of the specification
    lists it, each mask with the button of the record it stands for. *)
Definition native_button_table : list (Z * Z) :=
  [(0x0001, BTN_DPAD_RIGHT); (0x0002, BTN_DPAD_LEFT); (0x0004, BTN_DPAD_DOWN);
   (0x0008, BTN_DPAD_UP); (0x0010, BTN_START); (0x0020, BTN_Z);
   (0x0040, BTN_B); (0x0080, BTN_A); (0x0100, BTN_SHOULDER_R);
   (0x0200, BTN_SHOULDER_L); (0x0400, BTN_C_RIGHT); (0x0800, BTN_C_LEFT);
   (0x1000, BTN_C_DOWN); (0x2000, BTN_C_UP)].

(** [memset(&input, 0, sizeof(input))]. *)
Definition zero_input : ControllerInput :=
  {| buttons := 0; stick_x := 0; stick_y := 0;
     trigger_r := 0; trigger_l := 0; reserved := (0, 0) |}.

Definition ControllerInput_bytes (i : ControllerInput) : list byte :=
  C.le16 (buttons i)
  ++ [C.byte_of (stick_x i); C.byte_of (stick_y i);
      C.byte_of (trigger_r i); C.byte_of (trigger_l i);
      C.byte_of (fst (reserved i)); C.byte_of (snd (reserved i))].

Definition ControllerInput_at (mem : list byte) (off : nat) : ControllerInput :=
  {| buttons := C.rd16 mem off;
     stick_x := C.to_int8 (C.byte_at mem (off + 2));
     stick_y := C.to_int8 (C.byte_at mem (off + 3));
     trigger_r := C.byte_at mem (off + 4);
     trigger_l := C.byte_at mem (off + 5);
     reserved := (C.byte_at mem (off + 6), C.byte_at mem (off + 7)) |}.

(** [memcpy(&dst[off], src, n)] and the [n] bytes at an offset. *)
Definition memcpy (dst : list byte) (off : nat) (src : list byte) : list byte :=
  firstn off dst ++ src ++ skipn (off + length src) dst.

Definition bytes_at (mem : list byte) (off n : nat) : list byte :=
  map (fun k => nth (off + k) mem x00) (seq 0 n).

(** The function table [m64p::Input].  A member is [None]/[false] when the
    pointer is null, as all four are in the definition [Input = {0}].
    [GetStatus] answers the returned flag and the status it stored,
    [ReadController] the flag and the buttons and axes it stored. *)
Record Input_api := {
  GetStatus : option (Z -> bool * Z);
  ReadController : option (Z -> bool * (Z * Z * Z));
  SetButtonState : bool;
  SetAxisValue : bool
}.

(** Writes to the emulator's virtual controllers. *)
Inductive InputCall :=
| Call_SetButtonState (ControllerNum buttons : Z)
| Call_SetAxisValue (ControllerNum axis value : Z).

(** [if (word & mask) acc |= bit] on a 16-bit and on a 32-bit
    accumulator. *)
Definition or16_if (word mask acc bit : Z) : Z :=
  if Z.land word mask =? 0 then acc else C.u16 (Z.lor acc bit).

Definition or32_if (word mask acc bit : Z) : Z :=
  if Z.land word mask =? 0 then acc else C.u32 (Z.lor acc bit).

(** "Map the core's button states to our format". *)
Definition encode_buttons (buttons : Z) : Z :=
  let b := 0 in
  let b := or16_if buttons 0x0001 b BTN_DPAD_RIGHT in
  let b := or16_if buttons 0x0002 b BTN_DPAD_LEFT in
  let b := or16_if buttons 0x0004 b BTN_DPAD_DOWN in
  let b := or16_if buttons 0x0008 b BTN_DPAD_UP in
  let b := or16_if buttons 0x0010 b BTN_START in
  let b := or16_if buttons 0x0020 b BTN_Z in
  let b := or16_if buttons 0x0040 b BTN_B in
  let b := or16_if buttons 0x0080 b BTN_A in
  let b := or16_if buttons 0x0100 b BTN_SHOULDER_R in
  let b := or16_if buttons 0x0200 b BTN_SHOULDER_L in
  let b := or16_if buttons 0x0400 b BTN_C_RIGHT in
  let b := or16_if buttons 0x0800 b BTN_C_LEFT in
  let b := or16_if buttons 0x1000 b BTN_C_DOWN in
  let b := or16_if buttons 0x2000 b BTN_C_UP in
  b.

(** "Map our buttons to the core's format". *)
Definition decode_buttons (input_buttons : Z) : Z :=
  let b := 0 in
  let b := or32_if input_buttons BTN_DPAD_RIGHT b 0x0001 in
  let b := or32_if input_buttons BTN_DPAD_LEFT b 0x0002 in
  let b := or32_if input_buttons BTN_DPAD_DOWN b 0x0004 in
  let b := or32_if input_buttons BTN_DPAD_UP b 0x0008 in
  let b := or32_if input_buttons BTN_START b 0x0010 in
  let b := or32_if input_buttons BTN_Z b 0x0020 in
  let b := or32_if input_buttons BTN_B b 0x0040 in
  let b := or32_if input_buttons BTN_A b 0x0080 in
  let b := or32_if input_buttons BTN_SHOULDER_R b 0x0100 in
  let b := or32_if input_buttons BTN_SHOULDER_L b 0x0200 in
  let b := or32_if input_buttons BTN_C_RIGHT b 0x0400 in
  let b := or32_if input_buttons BTN_C_LEFT b 0x0800 in
  let b := or32_if input_buttons BTN_C_DOWN b 0x1000 in
  let b := or32_if input_buttons BTN_C_UP b 0x2000 in
  b.

(** The structure [GetControllerInputs] fills for controller
    [playerIndex + 1] before it packs it. *)
Definition local_input (api : Input_api) (playerIndex : Z) : ControllerInput :=
  match GetStatus api with
  | None => zero_input
  | Some status =>
      let '(ok, controllerConnected) := status (playerIndex + 1) in
      if ok && negb (controllerConnected =? 0)
      then
        match ReadController api with
        | None => zero_input
        | Some read =>
            let '(ok, (buttons, x_axis, y_axis)) := read (playerIndex + 1) in
            if ok
            then {| buttons := encode_buttons buttons;
                    stick_x := x_axis;
                    stick_y := y_axis;
                    trigger_r := if Z.land buttons 0x0100 =? 0 then 0 else 255;
                    trigger_l := if Z.land buttons 0x0200 =? 0 then 0 else 255;
                    reserved := (0, 0) |}
            else zero_input
        end
      else zero_input
  end.

(** [GetControllerInputs inputData]; [None] is a null pointer. *)
Definition GetControllerInputs (api : Input_api) (w : Netplay.World)
    (inputData : option (list byte)) : option (list byte) :=
  match inputData with
  | None => None
  | Some data =>
      let playerIndex := Netplay.CoreGetNetplayPlayerIndex w in
      let input := local_input api playerIndex in
      Some (memcpy data (Z.to_nat (playerIndex * ROLLBACK_INPUT_BYTES))
              (ControllerInput_bytes input))
  end.

(** [ApplyControllerInputs inputData playerIndex]: the writes made to the
    emulator, in order, and [g_lastInputs] afterwards. *)
Definition ApplyControllerInputs (api : Input_api)
    (inputData : option (list byte)) (playerIndex : Z) (g_lastInputs : list byte)
  : list InputCall * list byte :=
  match inputData with
  | None => ([], g_lastInputs)
  | Some data =>
      if (playerIndex <? 0) || (4 <=? playerIndex)
      then ([], g_lastInputs)
      else
        let off := Z.to_nat (playerIndex * ROLLBACK_INPUT_BYTES) in
        let input := ControllerInput_at data off in
        let buttons := decode_buttons (buttons input) in
        ((if SetButtonState api
          then [Call_SetButtonState (playerIndex + 1) buttons] else [])
         ++ (if SetAxisValue api
             then [Call_SetAxisValue (playerIndex + 1) 0 (stick_x input);
                   Call_SetAxisValue (playerIndex + 1) 1 (stick_y input)]
             else []),
         memcpy g_lastInputs off (bytes_at data off sizeof_ControllerInput))
  end.

(** A write that carries a trigger value: the table has no call for the
    triggers, and the stick only uses axes 0 and 1. *)
Definition writes_trigger (c : InputCall) : bool :=
  match c with
  | Call_SetButtonState _ _ => false
  | Call_SetAxisValue _ axis _ => negb ((axis =? 0) || (axis =? 1))
  end.

End Emulation.

(* ------------------------------------------------------------------ *)
(** ** Concrete data to run the model on *)

Module Sample.

Import Pool Netplay.

Definition bytes (l : list Z) : list byte := map C.byte_of l.

Definition codec : Zlib.Codec :=
  {| Zlib.deflate := Zlib.stored_deflate;
     Zlib.inflate := Zlib.stored_inflate |}.

(** A GGPO that accepts everything; player [n] gets handle [n]. *)
Definition ggpo_ok : Rollback.GGPO :=
  {| Rollback.ggpo_start_session := fun _ _ _ => (Rollback.GGPO_OK, 0x7000);
     Rollback.ggpo_add_player := fun _ n _ => (Rollback.GGPO_OK, n);
     Rollback.ggpo_set_frame_delay := fun _ _ _ => Rollback.GGPO_OK |}.

Definition host_saving (saved : list byte) : Host :=
  {| malloc := 0x2000;
     new_object := 0x5000;
     state_save := fun _ => Some saved;
     state_load := fun _ _ => true;
     rng_query := None;
     Netplay_RollbackFrameDelay := 1;
     ggpo := ggpo_ok |}.

(** The default pool of at most four buffers after its pre-allocated
    buffer was handed out. *)
Definition pool_held : StateBufferPool :=
  snd (getBuffer 0
         (new_StateBufferPool 0x1000 DEFAULT_BUFFER_SIZE DEFAULT_MAX_BUFFERS)).

(** A pool whose buffers leave 16 bytes for the state, and a save into it:
    ten bytes of state and six zero bytes behind them. *)
Definition world16 : World :=
  set_pool (new_StateBufferPool 0x1000 (36 + 1024 + 16) 4) (initial_World 0x1000).

Definition saved16 : list byte :=
  bytes [0x4D; 0x36; 0x34; 0x50; 1; 2; 3; 0; 0; 9; 0; 0; 0; 0; 0; 0].

Definition save16 : option SaveResult * World :=
  SaveEmulatorState codec (host_saving saved16) 7 world16.

Definition result16 : SaveResult :=
  match fst save16 with
  | Some r => r
  | None => {| buffer := 0; len := 0; checksum := 0; envelope := [] |}
  end.

(** A pool whose buffers leave 1100 bytes for the state, all of them
    non-zero: the stored stream of such a state has 1111 bytes. *)
Definition world1100 : World :=
  set_pool (new_StateBufferPool 0x1000 (36 + 1024 + 1100) 4) (initial_World 0x1000).

Definition saved1100 : list byte := repeat (C.byte_of 0x55) 1100.

(** The statics after a first successful [CoreInitRollbackNetplay] for
    player 1 of 2, and the session object they hold. *)
Definition world_running : World :=
  snd (CoreInitRollbackNetplay (host_saving saved16) 7000 1 2
         (initial_World 0x1000)).

Definition session_running : ptr * Rollback.RollbackNetplayImpl :=
  match l_RollbackNetplay world_running with
  | Some obj => obj
  | None => (0, Rollback.new_RollbackNetplayImpl)
  end.

(** Three events without a reset, and the session after them. *)
Definition events3 : list (Rollback.GGPOEvent * option Rollback.NetworkStats) :=
  [(Rollback.GGPO_EVENTCODE_TIMESYNC 3, None);
   (Rollback.GGPO_EVENTCODE_CONNECTION_INTERRUPTED,
    Some {| Rollback.network_ping := 40;
            Rollback.timesync_remote_frames_behind := 2 |});
   (Rollback.GGPO_EVENTCODE_TIMESYNC 2, None)].

Definition after_events3 : Rollback.RollbackNetplayImpl :=
  match Rollback.process_events events3 Rollback.new_RollbackNetplayImpl with
  | Some s => s
  | None => Rollback.new_RollbackNetplayImpl
  end.

(** A controller table with every function present; controller 1 is
    connected and holds both shoulder buttons. *)
Definition api_full : Emulation.Input_api :=
  {| Emulation.GetStatus := Some (fun _ => (true, 1));
     Emulation.ReadController := Some (fun _ => (true, (0x0300, 5, -3)));
     Emulation.SetButtonState := true;
     Emulation.SetAxisValue := true |}.

(** The input buffer of four players after [GetControllerInputs] packed
    the record of player 1 into it. *)
Definition inputs_shoulders : list byte :=
  Emulation.memcpy (repeat x00 128) 0
    (Emulation.ControllerInput_bytes (Emulation.local_input api_full 0)).

(** Forty zero bytes: no magic. *)
Definition zeros40 : list byte := repeat x00 40.

End Sample.

(* ------------------------------------------------------------------ *)
(** ** Runs of the buffer pool *)

Module PoolRun.

Import Pool.

(** The two operations a user of the pool can make; [op_get] carries the
    pointer the allocator would return. *)
Inductive PoolOp :=
| op_get (malloc : ptr)
| op_release (buffer : ptr).

Definition step (p : StateBufferPool) (o : PoolOp) : StateBufferPool :=
  match o with
  | op_get malloc => snd (getBuffer malloc p)
  | op_release buffer => releaseBuffer buffer p
  end.

Definition run (ops : list PoolOp) (p : StateBufferPool) : StateBufferPool :=
  fold_left step ops p.

(** Buffers the pool holds, free or in use. *)
Definition resident (p : StateBufferPool) : Z :=
  Z.of_nat (length (m_freeBuffers p) + length (m_usedBuffers p)).

(** Every buffer of the pool occurs once. *)
Definition distinct (p : StateBufferPool) : Prop :=
  NoDup (m_freeBuffers p ++ m_usedBuffers p).

(** The allocator's answer is a failure or a pointer the pool does not
    hold yet. *)
Definition fresh (malloc : ptr) (p : StateBufferPool) : Prop :=
  malloc = nullptr
  \/ ~ In malloc (m_freeBuffers p ++ m_usedBuffers p).

(** [fresh] along a run. *)
Fixpoint fresh_run (ops : list PoolOp) (p : StateBufferPool) : Prop :=
  match ops with
  | [] => True
  | o :: ops' =>
      match o with
      | op_get malloc => fresh malloc p
      | op_release _ => True
      end
      /\ fresh_run ops' (step p o)
  end.

End PoolRun.

(* ------------------------------------------------------------------ *)
(** ** Consistency of the rollback metrics *)

Module SessionInv.

Import Rollback.

(** What the three rollback counters and the average say about each
    other: every rollback counted went back at least one frame and at most
    [maxRollbackFrames] frames, and the average is the quotient of the two
    totals once there was a rollback. *)
Definition consistent (m : RollbackMetrics) : Prop :=
  0 <= totalRollbacks m <= rollbackFrames m
  /\ 0 <= maxRollbackFrames m <= rollbackFrames m
  /\ rollbackFrames m <= maxRollbackFrames m * totalRollbacks m
  /\ avgRollbackFrames m
     = (if totalRollbacks m =? 0 then (0, 1)
        else (rollbackFrames m, totalRollbacks m)).

(** The event that sets [rollbackJustOccurred]. *)
Definition signals_rollback (event : GGPOEvent) : bool :=
  match event with
  | GGPO_EVENTCODE_TIMESYNC frames_ahead => 0 <? frames_ahead
  | _ => false
  end.

End SessionInv.

(* ------------------------------------------------------------------ *)
(** ** The GGPO callbacks and the remaining entry points *)

Module Session.

Import Pool Netplay.

(** [GetInstance()] followed: [Some None] for the null pointer,
    [Some (Some (this, s))] when it points to the object the statics hold,
    and [None] when it points elsewhere, to an object that is gone. *)
Definition GetInstance (w : World)
  : option (option (ptr * Rollback.RollbackNetplayImpl)) :=
  if instancePtr w =? nullptr then Some None
  else
    match l_RollbackNetplay w with
    | Some (this, s) =>
        if instancePtr w =? this then Some (Some (this, s)) else None
    | None => None
    end.

(** A write through the instance pointer. *)
Definition put_instance (this : ptr) (s : Rollback.RollbackNetplayImpl)
    (w : World) : World :=
  set_session (l_HasInitRollbackNetplay w) (Some (this, s)) (instancePtr w) w.

Definition BeginGame_Callback : bool := true.

(** The callbacks registered by [CoreInitRollbackNetplay] are
    [SaveEmulatorState], [LoadEmulatorState], [FreeEmulatorState] and
    [AdvanceEmulatorFrame]; a callback pointer that is set is one of
    them. *)
Definition SaveGameState_Callback (z : Zlib.Codec) (h : Host) (frame : Z)
    (w : World) : option (option SaveResult * World) :=
  match GetInstance w with
  | None => None
  | Some None => Some (None, w)
  | Some (Some (this, s)) =>
      if negb (Rollback.saveStateFn s) then Some (None, w)
      else
        let s := Rollback.set_sequence (Rollback.currentInputSequence s)
                   (Rollback.currentInputSequence s) s in
        Some (SaveEmulatorState z h frame (put_instance this s w))
  end.

Definition LoadGameState_Callback (z : Zlib.Codec) (h : Host)
    (buffer : ptr) (mem : list byte) (len : Z) (w : World)
  : option (bool * World) :=
  match GetInstance w with
  | None => None
  | Some None => Some (false, w)
  | Some (Some (this, s)) =>
      if negb (Rollback.loadStateFn s) then Some (false, w)
      else Some (LoadEmulatorState z h buffer mem len w)
  end.

Definition FreeBuffer_Callback (buffer : ptr) (w : World) : option World :=
  match GetInstance w with
  | None => None
  | Some None => Some w
  | Some (Some (this, s)) =>
      if Rollback.freeStateFn s then Some (FreeEmulatorState buffer w)
      else Some w
  end.

(** [currentFrame] is an [int]: the increment has no defined result at
    [INT_MAX]. *)
Definition AdvanceFrame_Callback (w : World) : option (bool * World) :=
  match GetInstance w with
  | None => None
  | Some None => Some (false, w)
  | Some (Some (this, s)) =>
      if negb (Rollback.advanceFrameFn s) then Some (false, w)
      else
        match C.int_add (Rollback.currentFrame s) 1 with
        | None => None
        | Some f =>
            let s := Rollback.set_running (Rollback.initialized s) f s in
            Some (AdvanceEmulatorFrame, put_instance this s w)
        end
  end.

Definition OnEvent_Callback (stats : option Rollback.NetworkStats)
    (event : Rollback.GGPOEvent) (w : World) : option (bool * World) :=
  match GetInstance w with
  | None => None
  | Some None => Some (true, w)
  | Some (Some (this, s)) =>
      match Rollback.OnEvent_Callback stats event (Some s) with
      | Some (r, Some s') => Some (r, put_instance this s' w)
      | Some (r, None) => Some (r, w)
      | None => None
      end
  end.

(** One call GGPO makes into the program: the member of
    [GGPOSessionCallbacks] and its arguments ([mem] is what lies at
    [buffer]; [stats] is what [ggpo_get_network_stats] answers while the
    event is handled). *)
Inductive GGPOCallback :=
| begin_game
| save_game_state (frame : Z)
| load_game_state (buffer : ptr) (mem : list byte) (len : Z)
| free_buffer (buffer : ptr)
| advance_frame
| on_event (event : Rollback.GGPOEvent) (stats : option Rollback.NetworkStats).

Definition run_callback (z : Zlib.Codec) (h : Host) (c : GGPOCallback)
    (w : World) : option World :=
  match c with
  | begin_game => Some w
  | save_game_state frame => option_map snd (SaveGameState_Callback z h frame w)
  | load_game_state buffer mem len =>
      option_map snd (LoadGameState_Callback z h buffer mem len w)
  | free_buffer buffer => FreeBuffer_Callback buffer w
  | advance_frame => option_map snd (AdvanceFrame_Callback w)
  | on_event event stats => option_map snd (OnEvent_Callback stats event w)
  end.

(** The callbacks GGPO makes during one of its calls, in order. *)
Fixpoint run_callbacks (z : Zlib.Codec) (h : Host) (cs : list GGPOCallback)
    (w : World) : option World :=
  match cs with
  | [] => Some w
  | c :: cs' =>
      match run_callback z h c w with
      | Some w' => run_callbacks z h cs' w'
      | None => None
      end
  end.

Definition is_load (c : GGPOCallback) : bool :=
  match c with
  | load_game_state _ _ _ => true
  | _ => false
  end.

(** [RollbackNetplayImpl::AdvanceFrame]; [advance] is the answer of
    [ggpo_advance_frame]. *)
Definition AdvanceFrame (advance : Rollback.GGPOErrorCode)
    (s : Rollback.RollbackNetplayImpl) : bool :=
  if negb (Rollback.initialized s) || (Rollback.ggpoSession s =? nullptr)
  then false
  else if negb (advance =? Rollback.GGPO_OK) then false
  else true.

Definition CoreRollbackNetplayAdvanceFrame (advance : Rollback.GGPOErrorCode)
    (w : World) : bool :=
  match l_RollbackNetplay w with
  | Some (this, s) =>
      if negb (l_HasInitRollbackNetplay w) then false
      else AdvanceFrame advance s
  | None => false
  end.

Definition CoreRollbackNetplayGetSynchronizedInputs
    (sync : Rollback.GGPOErrorCode) (w : World) : bool :=
  match l_RollbackNetplay w with
  | Some (this, s) =>
      if negb (l_HasInitRollbackNetplay w) then false
      else Rollback.GetSynchronizedInputs sync s
  | None => false
  end.

(** The out-parameters of [CoreRollbackNetplayGetMetrics] that are not
    null are written; the result is the returned flag and the metrics
    copied. *)
Definition CoreRollbackNetplayGetMetrics (w : World)
  : bool * option Rollback.RollbackMetrics :=
  match l_RollbackNetplay w with
  | Some (this, s) =>
      if negb (l_HasInitRollbackNetplay w) then (false, None)
      else (true, Some (Rollback.GetMetrics s))
  | None => (false, None)
  end.

Definition CoreRollbackNetplayHasRollbacks (w : World) : bool :=
  match l_RollbackNetplay w with
  | Some (this, s) =>
      if negb (l_HasInitRollbackNetplay w) then false
      else 0 <? Rollback.totalRollbacks (Rollback.GetMetrics s)
  | None => false
  end.

Definition CoreRollbackNetplayJustOccurred (w : World) : bool * World :=
  match l_RollbackNetplay w with
  | Some (this, s) =>
      if negb (l_HasInitRollbackNetplay w) then (false, w)
      else
        let '(r, s) := Rollback.RollbackJustOccurred s in
        (r, set_session (l_HasInitRollbackNetplay w) (Some (this, s))
              (instancePtr w) w)
  | None => (false, w)
  end.

(** The loop of [CoreRollbackNetplayApplyInputs] from index [i] for [n]
    more rounds.  [playerInput] is [&inputs[i * ROLLBACK_INPUT_BYTES]], and
    [ApplyControllerInputs] reads eight bytes at
    [playerInput[i * ROLLBACK_INPUT_BYTES]] when [i] is below 4; [None]
    when that lies outside the array [inputs]. *)
Fixpoint apply_each (api : Emulation.Input_api) (inputs : list byte)
    (n : nat) (i : Z) (calls : list Emulation.InputCall)
    (g_lastInputs : list byte)
  : option (list Emulation.InputCall * list byte) :=
  match n with
  | O => Some (calls, g_lastInputs)
  | S n' =>
      let off := i * Emulation.ROLLBACK_INPUT_BYTES in
      if Z.of_nat (length inputs) <? off then None
      else
        let playerInput := skipn (Z.to_nat off) inputs in
        if (i <? 4)
           && (Z.of_nat (length playerInput)
               <? off + Z.of_nat Emulation.sizeof_ControllerInput)
        then None
        else
          let '(cs, g_lastInputs) :=
            Emulation.ApplyControllerInputs api (Some playerInput) i
              g_lastInputs in
          apply_each api inputs n' (i + 1) (calls ++ cs) g_lastInputs
  end.

(** [CoreRollbackNetplayApplyInputs]; [synced] is the local array
    [inputs] as [ggpo_synchronize_input] leaves it.  The result is the
    returned flag, the writes to the emulator and [g_lastInputs]. *)
Definition CoreRollbackNetplayApplyInputs (api : Emulation.Input_api)
    (sync : Rollback.GGPOErrorCode) (synced : list byte) (w : World)
    (g_lastInputs : list byte)
  : option (bool * list Emulation.InputCall * list byte) :=
  match l_RollbackNetplay w with
  | Some (this, s) =>
      if negb (l_HasInitRollbackNetplay w) then Some (false, [], g_lastInputs)
      else if negb (Rollback.GetSynchronizedInputs sync s)
      then Some (false, [], g_lastInputs)
      else
        match apply_each api synced (Z.to_nat (l_RollbackMaxPlayers w)) 0 []
                g_lastInputs with
        | Some (calls, last) => Some (true, calls, last)
        | None => None
        end
  | None => Some (false, [], g_lastInputs)
  end.

(** What no callback changes: the flags, the player numbers, the static
    instance pointer, and of the session object its address and every
    member but the frame counter, the sequence of the last saved frame,
    the rollback flag and the metrics. *)
Definition same_session (w w' : World) : Prop :=
  l_HasInitNetplay w' = l_HasInitNetplay w
  /\ l_HasInitRollbackNetplay w' = l_HasInitRollbackNetplay w
  /\ l_RollbackLocalPlayer w' = l_RollbackLocalPlayer w
  /\ l_RollbackMaxPlayers w' = l_RollbackMaxPlayers w
  /\ instancePtr w' = instancePtr w
  /\ match l_RollbackNetplay w, l_RollbackNetplay w' with
     | Some (this, s), Some (this', s') =>
         this' = this
         /\ Rollback.ggpoSession s' = Rollback.ggpoSession s
         /\ Rollback.initialized s' = Rollback.initialized s
         /\ Rollback.localPlayer s' = Rollback.localPlayer s
         /\ Rollback.maxPlayers s' = Rollback.maxPlayers s
         /\ Rollback.localPlayerHandle s' = Rollback.localPlayerHandle s
         /\ Rollback.currentInputSequence s' = Rollback.currentInputSequence s
         /\ Rollback.saveStateFn s' = Rollback.saveStateFn s
         /\ Rollback.loadStateFn s' = Rollback.loadStateFn s
         /\ Rollback.freeStateFn s' = Rollback.freeStateFn s
         /\ Rollback.advanceFrameFn s' = Rollback.advanceFrameFn s
     | None, None => True
     | _, _ => False
     end.

End Session.

(* ------------------------------------------------------------------ *)
(** ** The frame callback (Emulation.cpp) *)

Module Frame.

Import Pool Netplay Session.

(** What GGPO answers during one frame.  Each call answers its result and
    the callbacks it made before it returned; [ggpo_add_local_input] is
    given the session object and the [ROLLBACK_INPUT_BYTES] bytes it reads
    at the pointer, [ggpo_synchronize_input] the size of the array and
    answers the bytes it stored there. *)
Record FrameGGPO := {
  ggpo_add_local_input :
    Rollback.RollbackNetplayImpl -> list byte
    -> Rollback.GGPOErrorCode * list GGPOCallback;
  ggpo_advance_frame : Rollback.GGPOErrorCode * list GGPOCallback;
  ggpo_synchronize_input :
    Z -> Rollback.GGPOErrorCode * list byte * list GGPOCallback
}.

(** The test every entry point makes, followed by the object's own: the
    call reaches GGPO. *)
Definition session_live (w : World) : bool :=
  match l_RollbackNetplay w with
  | Some (_, s) =>
      l_HasInitRollbackNetplay w && Rollback.initialized s
      && negb (Rollback.ggpoSession s =? nullptr)
  | None => false
  end.

(** The session object the statics hold. *)
Definition session_of (w : World) : Rollback.RollbackNetplayImpl :=
  match l_RollbackNetplay w with
  | Some (_, s) => s
  | None => Rollback.new_RollbackNetplayImpl
  end.

(** The bytes [ggpo_add_local_input] reads at [inputData]. *)
Definition submitted (inputData : list byte) : list byte :=
  firstn (Z.to_nat Emulation.ROLLBACK_INPUT_BYTES) inputData.

(** The loop "Apply inputs to all virtual controllers". *)
Fixpoint apply_all (api : Emulation.Input_api) (allInputs : list byte)
    (n : nat) (i : Z) (calls : list Emulation.InputCall)
    (g_lastInputs : list byte) : list Emulation.InputCall * list byte :=
  match n with
  | O => (calls, g_lastInputs)
  | S n' =>
      let '(cs, g_lastInputs) :=
        Emulation.ApplyControllerInputs api (Some allInputs) i g_lastInputs in
      apply_all api allInputs n' (i + 1) (calls ++ cs) g_lastInputs
  end.

(** [EmulationFrameCallback].  [inputData0] and [allInputs0] are the two
    local arrays as they are found on the stack, not initialised.  The
    result is the statics, [g_lastInputs] and the writes to the emulator;
    [None] when a callback made on the way has no defined result. *)
Definition EmulationFrameCallback (api : Emulation.Input_api)
    (z : Zlib.Codec) (h : Host) (g : FrameGGPO)
    (inputData0 allInputs0 : list byte)
    (w : World) (g_lastInputs : list byte)
  : option (World * list byte * list Emulation.InputCall) :=
  if negb (CoreHasInitRollbackNetplay w) then Some (w, g_lastInputs, [])
  else
    match Emulation.GetControllerInputs api w (Some inputData0) with
    | None => None
    | Some inputData =>
        let w := set_inputSequence (C.u32 (g_currentInputSequence w + 1)) w in
        (* CoreRollbackNetplayAddLocalInput(inputData) *)
        let live := session_live w in
        let '(_, w) :=
          CoreRollbackNetplayAddLocalInput
            (fun s => fst (ggpo_add_local_input g s (submitted inputData))) w in
        let made :=
          if live
          then snd (ggpo_add_local_input g (session_of w) (submitted inputData))
          else [] in
        match run_callbacks z h made w with
        | None => None
        | Some w =>
            let g_lastInputs :=
              Emulation.memcpy g_lastInputs 0 (submitted inputData) in
            (* CoreRollbackNetplayAdvanceFrame() *)
            let made :=
              if session_live w then snd (ggpo_advance_frame g) else [] in
            match run_callbacks z h made w with
            | None => None
            | Some w =>
                (* CoreRollbackNetplayGetSynchronizedInputs(allInputs) *)
                let size := Rollback.maxPlayers (session_of w)
                            * Rollback.ROLLBACK_INPUT_BYTES in
                let '(sync, stored, made) := ggpo_synchronize_input g size in
                if session_live w
                then
                  match run_callbacks z h made w with
                  | None => None
                  | Some w' =>
                      let allInputs :=
                        Emulation.memcpy allInputs0 0
                          (firstn (Z.to_nat size) stored) in
                      if CoreRollbackNetplayGetSynchronizedInputs sync w
                      then
                        let '(calls, g_lastInputs) :=
                          apply_all api allInputs 4 0 [] g_lastInputs in
                        Some (w', g_lastInputs, calls)
                      else Some (w', g_lastInputs, [])
                  end
                else Some (w, g_lastInputs, [])
            end
        end
    end.

End Frame.

(* ------------------------------------------------------------------ *)
(** ** Standard netplay (Netplay.cpp, built with NETPLAY) *)

Module Standard.

Import Pool Netplay.

(** The netplay commands sent to the core.  [CoreInitNetplay] passes the
    address of [id] with [M64CMD_NETPLAY_CONTROL_PLAYER]. *)
Inductive NetplayCommand :=
| M64CMD_NETPLAY_GET_VERSION (version : Z)
| M64CMD_NETPLAY_INIT (port : Z) (address : string)
| M64CMD_NETPLAY_CONTROL_PLAYER (player id : Z)
| M64CMD_NETPLAY_CLOSE.

(** What the core answers to each command: [None] for [M64ERR_SUCCESS],
    otherwise the text [ErrorMessage] gives for the error. *)
Record NetplayCore := {
  get_version : option string;
  netplay_init : option string;
  control_player : option string;
  netplay_close : option string
}.

Definition set_HasInitNetplay (v : bool) (w : World) : World :=
  {| l_HasInitNetplay := v;
     l_HasInitRollbackNetplay := l_HasInitRollbackNetplay w;
     l_RollbackNetplay := l_RollbackNetplay w;
     l_RollbackLocalPlayer := l_RollbackLocalPlayer w;
     l_RollbackMaxPlayers := l_RollbackMaxPlayers w;
     instancePtr := instancePtr w;
     g_currentInputSequence := g_currentInputSequence w;
     g_stateMetrics := g_stateMetrics w;
     g_stateBufferPool := g_stateBufferPool w;
     fallbackRng := fallbackRng w;
     errors := errors w;
     coreCommands := coreCommands w |}.

(** One round of the loop "initialize random ID": [draw] is what [rand]
    (or [rand_s]) gave. *)
Definition id_of (draw player : Z) : Z :=
  let id := C.u32 draw in
  let id := Z.land id (C.u32 (Z.lnot 0x7)) in
  C.u32 (Z.lor id (C.u32 player)).

(** The loop over the numbers the generator gives one after the other;
    [None] when every one of them led to 0. *)
Fixpoint random_id (draws : list Z) (player : Z) : option Z :=
  match draws with
  | [] => None
  | draw :: draws' =>
      if id_of draw player =? 0 then random_id draws' player
      else Some (id_of draw player)
  end.

Definition CoreShutdownNetplay (core : NetplayCore) (w : World)
  : bool * World * list NetplayCommand :=
  match netplay_close core with
  | Some msg =>
      (false,
       CoreSetError
         ("CoreShutdownNetplay m64p::Core.DoCommand(M64CMD_NETPLAY_CLOSE) Failed: "
          ++ msg) w,
       [M64CMD_NETPLAY_CLOSE])
  | None => (true, set_HasInitNetplay false w, [M64CMD_NETPLAY_CLOSE])
  end.

(** [CoreInitNetplay]; [None] while the generator has not given an [id]
    other than 0. *)
Definition CoreInitNetplay (core : NetplayCore) (draws : list Z)
    (address : string) (port player : Z) (w : World)
  : option (bool * World * list NetplayCommand) :=
  match random_id draws player with
  | None => None
  | Some id =>
      let sent := [M64CMD_NETPLAY_GET_VERSION 0x010001] in
      match get_version core with
      | Some msg =>
          Some (false,
                CoreSetError
                  ("CoreInitNetplay m64p::Core.DoCommand(M64CMD_NETPLAY_GET_VERSION) Failed: "
                   ++ msg) w,
                sent)
      | None =>
          let sent := sent ++ [M64CMD_NETPLAY_INIT port address] in
          match netplay_init core with
          | Some msg =>
              Some (false,
                    CoreSetError
                      ("CoreInitNetplay m64p::Core.DoCommand(M64CMD_NETPLAY_INIT) Failed: "
                       ++ msg) w,
                    sent)
          | None =>
              let sent := sent ++ [M64CMD_NETPLAY_CONTROL_PLAYER player id] in
              match control_player core with
              | Some msg =>
                  let w :=
                    CoreSetError
                      ("CoreInitNetplay m64p::Core.DoCommand(M64CMD_NETPLAY_CONTROL_PLAYER) Failed: "
                       ++ msg) w in
                  let '(_, w, closed) := CoreShutdownNetplay core w in
                  Some (false, w, sent ++ closed)
              | None => Some (true, set_HasInitNetplay true w, sent)
              end
          end
      end
  end.

Definition CoreHasInitNetplay (w : World) : bool := l_HasInitNetplay w.

End Standard.

(* ------------------------------------------------------------------ *)
(** ** Facts about bytes and fields *)

Module CFacts.

Import C.

Lemma byte_val_range (b : byte) : 0 <= byte_val b < 256.
Proof.
  unfold byte_val. pose proof (Byte.to_N_bounded b) as H.
  split; [apply N2Z.is_nonneg | ].
  apply N2Z.inj_le in H. change (Z.of_N 255) with 255 in H. lia.
Qed.

Lemma byte_val_byte_of (z : Z) : byte_val (byte_of z) = z mod 256.
Proof.
  unfold byte_of, byte_val, u8. change (2 ^ 8) with 256.
  assert (Hr : 0 <= z mod 256 < 256) by (apply Z.mod_pos_bound; lia).
  destruct (Byte.of_N (Z.to_N (z mod 256))) as [b | ] eqn:E.
  - apply Byte.to_of_N in E. rewrite E. rewrite Z2N.id; lia.
  - apply Byte.of_N_None_iff in E.
    apply N2Z.inj_lt in E. rewrite Z2N.id in E by lia.
    change (Z.of_N 255) with 255 in E. lia.
Qed.

Lemma byte_of_val (b : byte) : byte_of (byte_val b) = b.
Proof.
  unfold byte_of, byte_val, u8. change (2 ^ 8) with 256.
  pose proof (byte_val_range b) as Hr. unfold byte_val in Hr.
  rewrite Z.mod_small by exact Hr.
  rewrite N2Z.id, Byte.of_to_N. reflexivity.
Qed.

Lemma byte_at_range (mem : list byte) (off : nat) : 0 <= byte_at mem off < 256.
Proof. apply byte_val_range. Qed.

Lemma rd32_range (mem : list byte) (off : nat) : 0 <= rd32 mem off < 2 ^ 32.
Proof.
  unfold rd32.
  pose proof (byte_at_range mem off).
  pose proof (byte_at_range mem (off + 1)).
  pose proof (byte_at_range mem (off + 2)).
  pose proof (byte_at_range mem (off + 3)).
  change (2 ^ 8) with 256. change (2 ^ 16) with 65536.
  change (2 ^ 24) with 16777216. change (2 ^ 32) with 4294967296. lia.
Qed.

(** The four bytes of [le32 z] read back as a 32-bit field give [u32 z]. *)
Lemma le32_value (z : Z) :
  byte_val (byte_of z) + 2 ^ 8 * byte_val (byte_of (Z.shiftr z 8))
  + 2 ^ 16 * byte_val (byte_of (Z.shiftr z 16))
  + 2 ^ 24 * byte_val (byte_of (Z.shiftr z 24)) = u32 z.
Proof.
  rewrite !byte_val_byte_of, !Z.shiftr_div_pow2 by lia. unfold u32.
  change (2 ^ 8) with 256. change (2 ^ 16) with 65536.
  change (2 ^ 24) with 16777216. change (2 ^ 32) with 4294967296.
  Z.div_mod_to_equations. lia.
Qed.

Lemma u32_small (z : Z) : 0 <= z < 2 ^ 32 -> u32 z = z.
Proof. intros H. unfold u32. apply Z.mod_small. exact H. Qed.

Lemma u32_idem (z : Z) : u32 (u32 z) = u32 z.
Proof. unfold u32. apply Z.mod_mod. lia. Qed.

Lemma to_int_u32 (z : Z) : 0 <= z < 2 ^ 32 -> u32 (to_int z) = z.
Proof.
  intros H. unfold to_int. rewrite (u32_small z H).
  destruct (z <? 2 ^ 31) eqn:E.
  - apply u32_small. exact H.
  - unfold u32. change (2 ^ 32) with 4294967296 in *.
    apply Z.ltb_ge in E. change (2 ^ 31) with 2147483648 in E.
    Z.div_mod_to_equations. lia.
Qed.

End CFacts.

(* ------------------------------------------------------------------ *)
(** ** The checksum stays within 32 bits *)

Module ZlibFacts.

Import C Zlib.

Lemma lxor_fits32 (a b : Z) : fits32 a -> fits32 b -> fits32 (Z.lxor a b).
Proof.
  unfold fits32. intros Ha Hb.
  assert (Hn : 0 <= Z.lxor a b) by (apply Z.lxor_nonneg; lia).
  split; [exact Hn | ].
  destruct (Z.eq_dec (Z.lxor a b) 0) as [E | E]; [rewrite E; lia | ].
  apply Z.log2_lt_pow2; [lia | ].
  pose proof (Z.log2_lxor a b (proj1 Ha) (proj1 Hb)) as HL.
  assert (La : Z.log2 a < 32).
  { destruct (Z.eq_dec a 0) as [-> | Na]; [simpl; lia | ].
    apply Z.log2_lt_pow2; lia. }
  assert (Lb : Z.log2 b < 32).
  { destruct (Z.eq_dec b 0) as [-> | Nb]; [simpl; lia | ].
    apply Z.log2_lt_pow2; lia. }
  lia.
Qed.

Lemma crc_bit_fits32 (c : Z) : fits32 c -> fits32 (crc_bit c).
Proof.
  intros Hc. unfold crc_bit.
  assert (Hs : fits32 (Z.shiftr c 1)).
  { unfold fits32 in *. rewrite Z.shiftr_div_pow2 by lia.
    change (2 ^ 1) with 2. change (2 ^ 32) with 4294967296 in *.
    Z.div_mod_to_equations. lia. }
  destruct (Z.testbit c 0); [ | exact Hs].
  apply lxor_fits32; [exact Hs | ]. unfold fits32. lia.
Qed.

Lemma crc_byte_fits32 (c : Z) (b : byte) : fits32 c -> fits32 (crc_byte c b).
Proof.
  intros Hc. unfold crc_byte.
  do 8 apply crc_bit_fits32.
  apply lxor_fits32; [exact Hc | ].
  pose proof (CFacts.byte_val_range b). unfold fits32. lia.
Qed.

Lemma fold_crc_fits32 (data : list byte) (c : Z) :
  fits32 c -> fits32 (fold_left crc_byte data c).
Proof.
  revert c. induction data as [ | b data IH]; intros c Hc; simpl.
  - exact Hc.
  - apply IH. apply crc_byte_fits32. exact Hc.
Qed.

Lemma crc32_range (data : list byte) : 0 <= crc32 data < 2 ^ 32.
Proof.
  unfold crc32, crc32_update.
  apply lxor_fits32; [ | unfold fits32; lia].
  apply fold_crc_fits32. apply lxor_fits32; unfold fits32; lia.
Qed.

End ZlibFacts.

(* ------------------------------------------------------------------ *)
(** ** The buffer pool *)

Module PoolFacts.

Import Pool.

Lemma last_In (l : list ptr) (d : ptr) : l <> [] -> In (last l d) l.
Proof.
  induction l as [ | x l IH]; intros Hne; [congruence | ].
  destruct l as [ | y l'].
  - left. reflexivity.
  - right. apply IH. discriminate.
Qed.

Lemma find_app_last (b : ptr) (l : list ptr) : find b (l ++ [b]) = true.
Proof.
  induction l as [ | x l IH]; simpl.
  - rewrite Z.eqb_refl. reflexivity.
  - rewrite IH. apply orb_true_r.
Qed.

Lemma find_In (b : ptr) (l : list ptr) : find b l = true <-> In b l.
Proof.
  induction l as [ | x l IH]; simpl.
  - split; [discriminate | tauto].
  - rewrite orb_true_iff, Z.eqb_eq, IH. tauto.
Qed.

Lemma erase_app_last (b : ptr) (l : list ptr) :
  ~ In b l -> erase b (l ++ [b]) = l.
Proof.
  induction l as [ | x l IH]; simpl; intros Hn.
  - rewrite Z.eqb_refl. reflexivity.
  - destruct (x =? b) eqn:E.
    + apply Z.eqb_eq in E. tauto.
    + rewrite IH by tauto. reflexivity.
Qed.

Lemma length_erase (b : ptr) (l : list ptr) :
  find b l = true -> S (length (erase b l)) = length l.
Proof.
  induction l as [ | x l IH]; simpl; [discriminate | ].
  destruct (x =? b); simpl; intros H; [reflexivity | ].
  rewrite IH by exact H. reflexivity.
Qed.

(** A buffer obtained from the pool is on the used list. *)
Lemma getBuffer_used (malloc : ptr) (p : StateBufferPool) :
  fst (getBuffer malloc p) <> nullptr ->
  m_usedBuffers (snd (getBuffer malloc p))
  = m_usedBuffers p ++ [fst (getBuffer malloc p)].
Proof.
  unfold getBuffer. destruct (m_freeBuffers p) as [ | x l].
  - destruct (Z.of_nat (length (m_usedBuffers p)) <? m_maxBuffers p);
      [ | simpl; congruence].
    destruct (malloc =? nullptr); simpl; [congruence | reflexivity].
  - simpl. reflexivity.
Qed.

Lemma getBuffer_size (malloc : ptr) (p : StateBufferPool) :
  m_bufferSize (snd (getBuffer malloc p)) = m_bufferSize p
  /\ m_maxBuffers (snd (getBuffer malloc p)) = m_maxBuffers p.
Proof.
  unfold getBuffer. destruct (m_freeBuffers p).
  - destruct (Z.of_nat (length (m_usedBuffers p)) <? m_maxBuffers p);
      [destruct (malloc =? nullptr) | ]; split; reflexivity.
  - split; reflexivity.
Qed.

(** Releasing the buffer just obtained puts it on the free list and takes
    one entry off the used list. *)
Lemma release_after_get (malloc : ptr) (p : StateBufferPool) :
  let b := fst (getBuffer malloc p) in
  let p' := releaseBuffer b (snd (getBuffer malloc p)) in
  b <> nullptr ->
  In b (m_freeBuffers p')
  /\ length (m_usedBuffers p') = length (m_usedBuffers p)
  /\ m_bufferSize p' = m_bufferSize p
  /\ m_maxBuffers p' = m_maxBuffers p.
Proof.
  intros b p' Hb. subst p'. unfold releaseBuffer.
  pose proof (getBuffer_used malloc p Hb) as Hu. fold b in Hu.
  destruct (b =? nullptr) eqn:E; [apply Z.eqb_eq in E; congruence | ].
  rewrite Hu, find_app_last. simpl.
  split; [apply in_or_app; right; left; reflexivity | ].
  split.
  - pose proof (length_erase b (m_usedBuffers p ++ [b]) (find_app_last b _)) as HL.
    rewrite length_app in HL. simpl in HL. lia.
  - apply getBuffer_size.
Qed.

Lemma In_removelast (x : ptr) (l : list ptr) : In x (removelast l) -> In x l.
Proof.
  induction l as [ | a l IH]; simpl; [tauto | ].
  destruct l as [ | b l']; simpl in *; tauto.
Qed.

(** [free_nonnull] is an invariant of the pool: it holds after a
    construction whose allocation succeeded and both operations keep it. *)
Lemma free_nonnull_invariant (malloc buffer b0 size maxb : ptr) (p : StateBufferPool) :
  (b0 <> nullptr -> free_nonnull (new_StateBufferPool b0 size maxb))
  /\ (free_nonnull p -> free_nonnull (snd (getBuffer malloc p)))
  /\ (free_nonnull p -> free_nonnull (releaseBuffer buffer p)).
Proof.
  unfold free_nonnull. split; [ | split].
  - intros Hb [H | []]. congruence.
  - intros Hp. unfold getBuffer.
    destruct (m_freeBuffers p) as [ | x l] eqn:Ef.
    + destruct (Z.of_nat (length (m_usedBuffers p)) <? m_maxBuffers p);
        [destruct (malloc =? nullptr) | ]; cbn; rewrite ?Ef; tauto.
    + cbn [snd m_freeBuffers]. intros H. apply Hp. apply In_removelast. exact H.
  - intros Hp. unfold releaseBuffer.
    destruct (buffer =? nullptr) eqn:Eb; [exact Hp | ].
    destruct (find buffer (m_usedBuffers p)); [ | exact Hp].
    cbn [m_freeBuffers]. intros H. apply in_app_or in H as [H | [H | []]].
    + apply Hp, H.
    + apply Z.eqb_neq in Eb. congruence.
Qed.

(** C7, as corrected.  With a pool of at most one buffer whose
    pre-allocated buffer [b0] exists: the first [getBuffer] returns [b0], a
    second one made while [b0] is held returns [nullptr] at once and leaves
    the pool as it was, and after [releaseBuffer b0] the next [getBuffer]
    returns [b0] again.  In general, for a pool with no null pointer on its
    free list, [getBuffer] returns [nullptr] exactly when the free list is
    empty and either the used list has reached [m_maxBuffers] or the
    allocation of a new buffer fails. *)
Theorem getBuffer_exhaustion
    (b0 size m1 m2 m3 malloc : ptr) (p : StateBufferPool)
    (Hb0 : b0 <> nullptr) (Hp : free_nonnull p) :
  (let p0 := new_StateBufferPool b0 size 1 in
   let r1 := getBuffer m1 p0 in
   let r2 := getBuffer m2 (snd r1) in
   let r3 := getBuffer m3 (releaseBuffer b0 (snd r2)) in
   fst r1 = b0 /\ fst r2 = nullptr /\ snd r2 = snd r1 /\ fst r3 = b0)
  /\ (fst (getBuffer malloc p) = nullptr <->
      m_freeBuffers p = []
      /\ (m_maxBuffers p <= Z.of_nat (length (m_usedBuffers p))
          \/ malloc = nullptr)).
Proof.
  split.
  - unfold new_StateBufferPool, getBuffer, releaseBuffer; simpl.
    destruct (b0 =? nullptr) eqn:E; [apply Z.eqb_eq in E; congruence | ].
    simpl. rewrite Z.eqb_refl. simpl. repeat split; reflexivity.
  - unfold getBuffer. destruct (m_freeBuffers p) as [ | x l] eqn:Ef.
    + destruct (Z.of_nat (length (m_usedBuffers p)) <? m_maxBuffers p) eqn:El.
      * apply Z.ltb_lt in El.
        destruct (malloc =? nullptr) eqn:Em; simpl.
        -- apply Z.eqb_eq in Em. tauto.
        -- apply Z.eqb_neq in Em. split; [congruence | ].
           intros [_ [H | H]]; [lia | congruence].
      * apply Z.ltb_ge in El. simpl. tauto.
    + cbn [fst]. split; [ | intros [H _]; discriminate].
      intros H. exfalso. apply Hp. rewrite Ef, <- H.
      apply last_In. discriminate.
Qed.

(** C7, counterexample to the claim as stated.  A pool of at most four
    buffers whose only buffer is held: when the allocator fails, [getBuffer]
    returns [nullptr] with an empty free list and one buffer in use. *)
Lemma getBuffer_exhaustion_cex :
  let p1 := Sample.pool_held in
  fst (getBuffer nullptr p1) = nullptr
  /\ m_freeBuffers p1 = []
  /\ Z.of_nat (length (m_usedBuffers p1)) < m_maxBuffers p1
  /\ ~ (fst (getBuffer nullptr p1) = nullptr <->
        m_freeBuffers p1 = []
        /\ m_maxBuffers p1 <= Z.of_nat (length (m_usedBuffers p1))).
Proof.
  cbv zeta. repeat split; try reflexivity.
  intros [H _]. specialize (H eq_refl). destruct H as [_ H].
  vm_compute in H. apply H. reflexivity.
Qed.

(** C7, witness: a pool of one, and the pool of four whose only buffer is
    held while the allocator fails. *)
Lemma getBuffer_exhaustion_witness :
  (let p0 := new_StateBufferPool 0x1000 DEFAULT_BUFFER_SIZE 1 in
   let r1 := getBuffer 0x2000 p0 in
   let r2 := getBuffer 0x2000 (snd r1) in
   let r3 := getBuffer 0x2000 (releaseBuffer 0x1000 (snd r2)) in
   fst r1 = 0x1000 /\ fst r2 = nullptr /\ snd r2 = snd r1 /\ fst r3 = 0x1000)
  /\ (fst (getBuffer nullptr Sample.pool_held) = nullptr <->
      m_freeBuffers Sample.pool_held = []
      /\ (m_maxBuffers Sample.pool_held
          <= Z.of_nat (length (m_usedBuffers Sample.pool_held))
          \/ nullptr = nullptr)).
Proof.
  apply (getBuffer_exhaustion 0x1000 DEFAULT_BUFFER_SIZE 0x2000 0x2000 0x2000
           nullptr Sample.pool_held).
  - unfold nullptr. lia.
  - unfold free_nonnull. simpl. tauto.
Defined.

End PoolFacts.

(* ------------------------------------------------------------------ *)
(** ** The snapshot store *)

Module StoreFacts.

Import Pool Netplay.

(** The size scan: with only zero bytes below [n] the initial value stays;
    otherwise the result is one more than the index of the last non-zero
    byte below [n]. *)
Lemma scan_size_zero (temp : list byte) (n : nat) (size : Z) :
  (forall j, (j < n)%nat -> C.byte_at temp j = 0) ->
  scan_size temp n size = size.
Proof.
  induction n as [ | n IH]; intros Hz; simpl; [reflexivity | ].
  rewrite (Hz n) by lia. simpl. apply IH. intros j Hj. apply Hz. lia.
Qed.

Lemma scan_size_last (temp : list byte) (n i : nat) (size : Z) :
  (i < n)%nat ->
  C.byte_at temp i <> 0 ->
  (forall j, (i < j < n)%nat -> C.byte_at temp j = 0) ->
  scan_size temp n size = Z.of_nat (S i).
Proof.
  induction n as [ | n IH]; intros Hi Hnz Hz; [lia | ].
  cbn [scan_size].
  destruct (Nat.eq_dec i n) as [-> | Hne].
  - apply Z.eqb_neq in Hnz. rewrite Hnz. reflexivity.
  - rewrite (Hz n) by lia. cbn [Z.eqb negb].
    apply IH; [lia | exact Hnz | ]. intros j Hj. apply Hz. lia.
Qed.

Lemma scan_size_bounds (temp : list byte) (n : nat) (size : Z) :
  scan_size temp n size = size
  \/ 1 <= scan_size temp n size <= Z.of_nat n.
Proof.
  induction n as [ | n IH]; simpl scan_size; [left; reflexivity | ].
  destruct (negb (C.byte_at temp n =? 0)).
  - right. lia.
  - destruct IH as [IH | IH]; [left; exact IH | right; lia].
Qed.

(** The header read back from an envelope. *)
Lemma header_at_envelope (hd : RollbackStateHeader) (rest : list byte) :
  header_at (header_bytes hd ++ rest)
  = {| magic := C.u32 (magic hd);
       version := C.u32 (version hd);
       frame := C.u32 (frame hd);
       uncompressedSize := C.u32 (uncompressedSize hd);
       compressedSize := C.u32 (compressedSize hd);
       randState := C.u32 (randState hd);
       inputSequence := C.u32 (inputSequence hd);
       reserved := (C.u32 (fst (reserved hd)), C.u32 (snd (reserved hd))) |}.
Proof.
  unfold header_at, header_bytes, C.rd32, C.byte_at, C.le32.
  cbn [app nth Nat.add].
  rewrite !CFacts.le32_value. reflexivity.
Qed.

Lemma skipn_header_envelope (hd : RollbackStateHeader) (rest : list byte) :
  skipn 36 (header_bytes hd ++ rest) = rest.
Proof. reflexivity. Qed.

Lemma pool_after_metrics (m : StateMetrics) (w : World) :
  g_stateBufferPool (set_stateMetrics m w) = g_stateBufferPool w.
Proof. reflexivity. Qed.

Lemma maxUncompressedSize_after_get (malloc : ptr) (p : StateBufferPool) :
  maxUncompressedSize_of (snd (getBuffer malloc p)) = maxUncompressedSize_of p.
Proof.
  unfold maxUncompressedSize_of, getBufferSize.
  rewrite (proj1 (PoolFacts.getBuffer_size malloc p)). reflexivity.
Qed.

(** What a successful save went through. *)
Lemma SaveEmulatorState_success
    (z : Zlib.Codec) (h : Host) (fr : Z) (w : World) (r : SaveResult) (w' : World) :
  SaveEmulatorState z h fr w = (Some r, w') ->
  let max := maxUncompressedSize_of (g_stateBufferPool w) in
  exists temp compressed rng seq,
    state_save h max = Some temp
    /\ Zlib.deflate z COMPRESSION_LEVEL (payload temp max) = Some compressed
    /\ Z.of_nat (length compressed) <= RESERVE
    /\ fst (getBuffer (malloc h) (g_stateBufferPool w)) <> nullptr
    /\ buffer r = fst (getBuffer (malloc h) (g_stateBufferPool w))
    /\ len r = C.to_int (sizeof_RollbackStateHeader + Z.of_nat (length compressed))
    /\ checksum r = C.to_int (CalculateChecksum (payload temp max))
    /\ envelope r
       = header_bytes
           {| magic := ROLLBACK_STATE_MAGIC;
              version := ROLLBACK_STATE_VERSION;
              frame := C.u32 fr;
              uncompressedSize := C.u32 (actualUncompressedSize temp max);
              compressedSize := C.u32 (Z.of_nat (length compressed));
              randState := rng;
              inputSequence := seq;
              reserved := (0, 0) |}
         ++ compressed.
Proof.
  intros Hs max. unfold SaveEmulatorState in Hs.
  rewrite pool_after_metrics in Hs.
  destruct (getBuffer (malloc h) (g_stateBufferPool w)) as [b pool] eqn:Eg.
  assert (Hmax : maxUncompressedSize_of pool = max).
  { change pool with (snd (b, pool)). rewrite <- Eg.
    apply maxUncompressedSize_after_get. }
  rewrite Hmax in Hs.
  destruct (b =? nullptr) eqn:Eb; [discriminate | ].
  destruct (state_save h max) as [temp | ] eqn:Et; [ | discriminate].
  unfold CompressData in Hs.
  destruct (Zlib.deflate z COMPRESSION_LEVEL (payload temp max))
    as [out | ] eqn:Ed; [ | discriminate].
  destruct (Z.of_nat (length out) <=? RESERVE) eqn:El; [ | discriminate].
  match type of Hs with
  | (let '(_, _) := ?g in _) = _ => destruct g as [rng w1] eqn:Er
  end.
  injection Hs as Hr Hw. subst r.
  exists temp, out, rng, (g_currentInputSequence w1).
  apply Z.leb_le in El. apply Z.eqb_neq in Eb.
  cbn [fst buffer len checksum envelope].
  repeat split; try reflexivity; assumption.
Qed.

Lemma actual_size_range (temp : list byte) (max : Z) :
  0 <= max -> 0 <= actualUncompressedSize temp max <= max.
Proof.
  intros Hm. unfold actualUncompressedSize.
  destruct (scan_size_bounds temp (Z.to_nat max) max) as [E | E]; [lia | ].
  rewrite Z2Nat.id in E by exact Hm. lia.
Qed.

Lemma maxUncompressedSize_small (p : StateBufferPool) :
  sizeof_RollbackStateHeader + RESERVE <= m_bufferSize p < 2 ^ 32 ->
  maxUncompressedSize_of p = m_bufferSize p - sizeof_RollbackStateHeader - RESERVE
  /\ 0 <= maxUncompressedSize_of p < 2 ^ 32.
Proof.
  unfold maxUncompressedSize_of, getBufferSize, C.size_t,
    sizeof_RollbackStateHeader, RESERVE.
  intros H. change (2 ^ 32) with 4294967296 in *.
  rewrite Z.mod_small by (change (2 ^ 64) with 18446744073709551616; lia).
  lia.
Qed.

(** C8.  After a successful save, the [uncompressedSize] field of the
    envelope is the result of the backward scan over the region the
    emulator saved into: the full [maxUncompressedSize] when every byte of
    the region is zero, and otherwise the 1-based position of its last
    non-zero byte. *)
Theorem uncompressedSize_is_backward_scan
    (z : Zlib.Codec) (h : Host) (fr : Z) (w : World)
    (r : SaveResult) (w' : World) (temp : list byte)
    (Hsave : SaveEmulatorState z h fr w = (Some r, w'))
    (Hsize : sizeof_RollbackStateHeader + RESERVE
             <= m_bufferSize (g_stateBufferPool w) < 2 ^ 32)
    (Htemp : state_save h (maxUncompressedSize_of (g_stateBufferPool w))
             = Some temp) :
  let max := maxUncompressedSize_of (g_stateBufferPool w) in
  let recorded := uncompressedSize (header_at (envelope r)) in
  recorded = actualUncompressedSize temp max
  /\ ((forall j, 0 <= j < max -> C.byte_at temp (Z.to_nat j) = 0) ->
      recorded = max)
  /\ (forall i, 0 <= i < max ->
      C.byte_at temp (Z.to_nat i) <> 0 ->
      (forall j, i < j < max -> C.byte_at temp (Z.to_nat j) = 0) ->
      recorded = i + 1).
Proof.
  intros max recorded. subst max recorded.
  destruct (SaveEmulatorState_success z h fr w r w' Hsave)
    as (temp' & compressed & rng & sq & Ht & _ & _ & _ & _ & _ & _ & He).
  cbv zeta in Ht, He. rewrite Htemp in Ht. injection Ht as <-.
  destruct (maxUncompressedSize_small _ Hsize) as [_ Hmax].
  set (max := maxUncompressedSize_of (g_stateBufferPool w)) in *.
  set (recorded := uncompressedSize (header_at (envelope r))).
  pose proof (actual_size_range temp max (proj1 Hmax)) as Ha.
  assert (Hrec : recorded = actualUncompressedSize temp max).
  { assert (Hr : 0 <= actualUncompressedSize temp max < 2 ^ 32) by lia.
    unfold recorded. rewrite He, header_at_envelope.
    cbn [uncompressedSize]. rewrite !(CFacts.u32_small _ Hr). reflexivity. }
  split; [exact Hrec | ]. rewrite Hrec. unfold actualUncompressedSize. split.
  - intros Hz. apply scan_size_zero. intros j Hj.
    rewrite <- (Nat2Z.id j). apply Hz. lia.
  - intros i Hi Hnz Hz.
    rewrite (scan_size_last temp (Z.to_nat max) (Z.to_nat i) max).
    + rewrite Nat2Z.inj_succ, Z2Nat.id; lia.
    + lia.
    + exact Hnz.
    + intros j Hj. rewrite <- (Nat2Z.id j). apply Hz. lia.
Qed.

Lemma nth_last (st : list byte) (d : byte) :
  st <> [] -> nth (length st - 1) st d = last st d.
Proof.
  induction st as [ | a st IH]; intros Hne; [congruence | ].
  destruct st as [ | b st']; [reflexivity | ].
  change (last (a :: b :: st') d) with (last (b :: st') d).
  rewrite <- IH by discriminate.
  cbn [length]. rewrite !Nat.sub_succ, !Nat.sub_0_r. reflexivity.
Qed.

Lemma payload_of_written_state (st : list byte) (k : nat) (max : Z) :
  st <> [] -> last st x00 <> x00 ->
  Z.of_nat (length (st ++ repeat x00 k)) = max -> max < 2 ^ 32 ->
  payload (st ++ repeat x00 k) max = st.
Proof.
  intros Hne Hlast Hlen Hmax.
  assert (Hl : (0 < length st)%nat) by (destruct st; [congruence | simpl; lia]).
  rewrite length_app, repeat_length in Hlen.
  unfold payload, actualUncompressedSize.
  rewrite (scan_size_last _ (Z.to_nat max) (length st - 1) max).
  - replace (S (length st - 1)) with (length st) by lia.
    rewrite CFacts.u32_small by lia. rewrite Nat2Z.id.
    rewrite firstn_app, Nat.sub_diag, firstn_all. simpl. apply app_nil_r.
  - lia.
  - unfold C.byte_at. rewrite app_nth1 by lia.
    replace (nth (length st - 1) st x00) with (last st x00).
    + intros E. apply Hlast. rewrite <- (CFacts.byte_of_val (last st x00)), E.
      reflexivity.
    + symmetry. apply nth_last. exact Hne.
  - intros j Hj. unfold C.byte_at. rewrite app_nth2 by lia.
    rewrite nth_repeat_lt by lia. reflexivity.
Qed.

(** C3.  After a successful save the checksum out-parameter is the CRC-32
    of the uncompressed payload: the first [uncompressedSize] bytes of the
    region the emulator saved into, which are the bytes handed to the
    compressor (the envelope carries their DEFLATE stream after the
    header).  The [int] holds the 32-bit pattern of the CRC.  When the
    emulator wrote a state ending in a non-zero byte into a region that is
    zero behind it, the payload is that state. *)
Theorem checksum_is_crc32_of_uncompressed_payload
    (z : Zlib.Codec) (h : Host) (fr : Z) (w : World)
    (r : SaveResult) (w' : World) (temp : list byte)
    (Hsave : SaveEmulatorState z h fr w = (Some r, w'))
    (Htemp : state_save h (maxUncompressedSize_of (g_stateBufferPool w))
             = Some temp) :
  let max := maxUncompressedSize_of (g_stateBufferPool w) in
  let P := payload temp max in
  checksum r = C.to_int (Zlib.crc32 P)
  /\ C.u32 (checksum r) = Zlib.crc32 P
  /\ P = firstn (Z.to_nat (uncompressedSize (header_at (envelope r)))) temp
  /\ Zlib.deflate z COMPRESSION_LEVEL P = Some (skipn 36 (envelope r))
  /\ (forall st k, temp = st ++ repeat x00 k ->
      st <> [] -> last st x00 <> x00 ->
      Z.of_nat (length temp) = max -> max < 2 ^ 32 ->
      P = st /\ C.u32 (checksum r) = Zlib.crc32 st).
Proof.
  intros max P. subst max P.
  destruct (SaveEmulatorState_success z h fr w r w' Hsave)
    as (temp' & compressed & rng & sq & Ht & Hd & _ & _ & _ & _ & Hc & He).
  cbv zeta in Ht, Hd, Hc, He. rewrite Htemp in Ht. injection Ht as <-.
  set (max := maxUncompressedSize_of (g_stateBufferPool w)) in *.
  unfold CalculateChecksum in Hc.
  assert (Hu : C.u32 (checksum r) = Zlib.crc32 (payload temp max)).
  { rewrite Hc. apply CFacts.to_int_u32. apply ZlibFacts.crc32_range. }
  split; [exact Hc | ]. split; [exact Hu | ]. split; [ | split].
  - rewrite He, header_at_envelope. cbn [uncompressedSize].
    rewrite CFacts.u32_idem. reflexivity.
  - rewrite He, skipn_header_envelope. exact Hd.
  - intros st k -> Hne Hlast Hlen Hmax.
    rewrite Hu. rewrite (payload_of_written_state st k max Hne Hlast Hlen Hmax).
    split; reflexivity.
Qed.

(** C9.  The space for the compressed payload is the [RESERVE] of 1024
    bytes between the header and the saved state, whatever the size of
    the pool buffer (8 MiB by default).  When a buffer was obtained, the
    emulator saved its state and the DEFLATE stream of the payload is
    longer than 1024 bytes, the save fails with "Failed to compress state
    data" and the buffer is back on the free list of the pool. *)
Theorem save_fails_beyond_reserve
    (z : Zlib.Codec) (h : Host) (fr : Z) (w : World) (temp : list byte)
    (Hbuf : fst (getBuffer (malloc h) (g_stateBufferPool w)) <> nullptr)
    (Htemp : state_save h (maxUncompressedSize_of (g_stateBufferPool w))
             = Some temp)
    (Hbig : exists out,
        Zlib.deflate z COMPRESSION_LEVEL
          (payload temp (maxUncompressedSize_of (g_stateBufferPool w))) = Some out
        /\ 1024 < Z.of_nat (length out)) :
  let got := getBuffer (malloc h) (g_stateBufferPool w) in
  let res := SaveEmulatorState z h fr w in
  RESERVE = 1024
  /\ DEFAULT_BUFFER_SIZE = 8388608
  /\ fst res = None
  /\ last (errors (snd res)) EmptyString = "Failed to compress state data"%string
  /\ g_stateBufferPool (snd res) = releaseBuffer (fst got) (snd got)
  /\ In (fst got) (m_freeBuffers (g_stateBufferPool (snd res)))
  /\ length (m_usedBuffers (g_stateBufferPool (snd res)))
     = length (m_usedBuffers (g_stateBufferPool w)).
Proof.
  intros got res. subst res.
  destruct Hbig as (out & Hd & Hl).
  split; [reflexivity | ]. split; [reflexivity | ].
  pose proof (PoolFacts.release_after_get (malloc h) (g_stateBufferPool w) Hbuf)
    as (Hin & Hlen & _).
  unfold SaveEmulatorState. rewrite pool_after_metrics.
  subst got.
  destruct (getBuffer (malloc h) (g_stateBufferPool w)) as [b pool] eqn:Eg.
  cbn [fst snd] in *.
  assert (Hmax : maxUncompressedSize_of pool
                 = maxUncompressedSize_of (g_stateBufferPool w)).
  { change pool with (snd (b, pool)). rewrite <- Eg.
    apply maxUncompressedSize_after_get. }
  rewrite Hmax.
  apply Z.eqb_neq in Hbuf. rewrite Hbuf, Htemp.
  unfold CompressData. rewrite Hd.
  assert (El : (Z.of_nat (length out) <=? RESERVE) = false)
    by (apply Z.leb_gt; unfold RESERVE; lia).
  rewrite El. cbn [fst snd].
  split; [reflexivity | ].
  split; [unfold CoreSetError; cbn [errors]; apply last_last | ].
  split; [reflexivity | ].
  split; [exact Hin | exact Hlen].
Qed.

Lemma size_t_small (x : Z) : 0 <= x < 2 ^ 33 -> C.size_t x = x.
Proof.
  intros H. unfold C.size_t. apply Z.mod_small.
  change (2 ^ 33) with 8589934592 in H.
  change (2 ^ 64) with 18446744073709551616. lia.
Qed.

(** C2.  A buffer whose magic differs from [0x52424B53], or whose
    version differs from 1, or whose length [len] is below
    [sizeof(header) + compressedSize], is refused: the load returns
    [false], the core receives no command, and the input sequence counter,
    the buffer pool and the session statics are as before.  The only
    changes are the load counter of the performance metrics and the
    message given to [CoreSetError]. *)
Theorem load_rejects_malformed
    (z : Zlib.Codec) (h : Host) (buf : ptr) (mem : list byte) (len : Z) (w : World)
    (Hlen : 0 <= len <= C.INT_MAX)
    (Hbad : magic (header_at mem) <> 0x52424B53
            \/ version (header_at mem) <> 1
            \/ len < sizeof_RollbackStateHeader + compressedSize (header_at mem)) :
  let res := LoadEmulatorState z h buf mem len w in
  fst res = false
  /\ coreCommands (snd res) = coreCommands w
  /\ g_currentInputSequence (snd res) = g_currentInputSequence w
  /\ g_stateBufferPool (snd res) = g_stateBufferPool w
  /\ l_RollbackNetplay (snd res) = l_RollbackNetplay w
  /\ exists msg,
       snd res = CoreSetError msg (set_stateMetrics (count_load (g_stateMetrics w)) w).
Proof.
  intros res. subst res. unfold LoadEmulatorState.
  assert (Hl : C.size_t len = len).
  { apply size_t_small. unfold C.INT_MAX in Hlen.
    change (2 ^ 31) with 2147483648 in Hlen. change (2 ^ 33) with 8589934592. lia. }
  pose proof (CFacts.rd32_range mem 16) as Hcs.
  change (C.rd32 mem 16) with (compressedSize (header_at mem)) in Hcs.
  assert (Hc : C.size_t (compressedSize (header_at mem) + sizeof_RollbackStateHeader)
               = compressedSize (header_at mem) + sizeof_RollbackStateHeader).
  { apply size_t_small. unfold sizeof_RollbackStateHeader.
    change (2 ^ 32) with 4294967296 in Hcs. change (2 ^ 33) with 8589934592. lia. }
  rewrite Hl, Hc.
  destruct ((buf =? nullptr) || (len <=? sizeof_RollbackStateHeader)) eqn:E0;
    [cbn; repeat split; eauto | ].
  destruct (magic (header_at mem) =? ROLLBACK_STATE_MAGIC) eqn:E1;
    cbn [negb]; [ | cbn; repeat split; eauto].
  destruct (version (header_at mem) =? ROLLBACK_STATE_VERSION) eqn:E2;
    cbn [negb]; [ | cbn; repeat split; eauto].
  destruct (len <? compressedSize (header_at mem) + sizeof_RollbackStateHeader) eqn:E3;
    [cbn; repeat split; eauto | ].
  exfalso. apply Z.eqb_eq in E1, E2. apply Z.ltb_ge in E3.
  unfold ROLLBACK_STATE_MAGIC in E1. unfold ROLLBACK_STATE_VERSION in E2.
  destruct Hbad as [H | [H | H]]; [congruence | congruence | lia].
Qed.

(** A saved envelope loads again: when the decompressor undoes the
    compressor, a pool buffer is at hand and the core accepts the state,
    [LoadEmulatorState] on the result of a successful save hands the
    payload to the core and restores the input sequence recorded in the
    header. *)
Lemma load_of_saved
    (z : Zlib.Codec) (h h' : Host) (fr : Z) (w w1 : World) (r : SaveResult)
    (temp : list byte) :
  let max := maxUncompressedSize_of (g_stateBufferPool w) in
  let P := payload temp max in
  SaveEmulatorState z h fr w = (Some r, w1) ->
  state_save h max = Some temp ->
  skipn 36 (envelope r) <> [] ->
  Zlib.inflate z (skipn 36 (envelope r)) = Some P ->
  fst (getBuffer (malloc h') (g_stateBufferPool w1)) <> nullptr ->
  state_load h' (uncompressedSize (header_at (envelope r))) P = true ->
  let res := LoadEmulatorState z h' (buffer r) (envelope r) (len r) w1 in
  fst res = true
  /\ coreCommands (snd res)
     = coreCommands w1
       ++ [M64CMD_STATE_LOAD (uncompressedSize (header_at (envelope r))) P]
  /\ g_currentInputSequence (snd res) = inputSequence (header_at (envelope r)).
Proof.
  intros max P Hs Ht Hne Hinf Hbuf Hload res. subst res max P.
  destruct (SaveEmulatorState_success z h fr w r w1 Hs)
    as (temp' & compressed & rng & sq & Ht' & Hd & Hl & Hb & Hbr & Hlen & _ & He).
  cbv zeta in Ht', Hd, He. rewrite Ht in Ht'. injection Ht' as <-.
  set (max := maxUncompressedSize_of (g_stateBufferPool w)) in *.
  rewrite He, skipn_header_envelope in Hne, Hinf.
  assert (Hn : 0 < Z.of_nat (length compressed) <= 1024).
  { unfold RESERVE in Hl. destruct compressed; [congruence | ].
    cbn [length] in *. lia. }
  assert (Hcs : C.u32 (C.u32 (Z.of_nat (length compressed)))
                = Z.of_nat (length compressed)).
  { rewrite CFacts.u32_idem. apply CFacts.u32_small.
    change (2 ^ 32) with 4294967296. lia. }
  assert (Hlen' : len r = 36 + Z.of_nat (length compressed)).
  { rewrite Hlen. unfold C.to_int, sizeof_RollbackStateHeader.
    rewrite CFacts.u32_small by (change (2 ^ 32) with 4294967296; lia).
    destruct (36 + Z.of_nat (length compressed) <? 2 ^ 31) eqn:E;
      [reflexivity | ].
    apply Z.ltb_ge in E. change (2 ^ 31) with 2147483648 in E. lia. }
  unfold LoadEmulatorState.
  rewrite Hbr. apply Z.eqb_neq in Hb. rewrite Hb.
  rewrite Hlen', (size_t_small (36 + Z.of_nat (length compressed)))
    by (change (2 ^ 33) with 8589934592; lia).
  assert (E0 : (36 + Z.of_nat (length compressed) <=? sizeof_RollbackStateHeader)
               = false)
    by (apply Z.leb_gt; unfold sizeof_RollbackStateHeader; lia).
  rewrite E0. cbn [orb].
  rewrite He in Hload |- *. rewrite header_at_envelope in Hload |- *.
  cbn [magic version compressedSize uncompressedSize inputSequence] in Hload |- *.
  rewrite Hcs.
  change (C.u32 ROLLBACK_STATE_MAGIC =? ROLLBACK_STATE_MAGIC) with true.
  change (C.u32 ROLLBACK_STATE_VERSION =? ROLLBACK_STATE_VERSION) with true.
  cbn [negb].
  rewrite (size_t_small (Z.of_nat (length compressed) + sizeof_RollbackStateHeader))
    by (unfold sizeof_RollbackStateHeader; change (2 ^ 33) with 8589934592; lia).
  assert (E1 : (36 + Z.of_nat (length compressed)
                <? Z.of_nat (length compressed) + sizeof_RollbackStateHeader)
               = false)
    by (apply Z.ltb_ge; unfold sizeof_RollbackStateHeader; lia).
  rewrite E1. rewrite pool_after_metrics.
  destruct (getBuffer (malloc h') (g_stateBufferPool w1)) as [b pool] eqn:Eg.
  cbn [fst] in Hbuf. apply Z.eqb_neq in Hbuf. rewrite Hbuf.
  change (Z.to_nat sizeof_RollbackStateHeader) with 36%nat.
  rewrite skipn_header_envelope, Nat2Z.id, firstn_all.
  unfold DecompressData. rewrite Hinf.
  assert (E2 : (Z.of_nat (length (payload temp max))
                <=? C.u32 (C.u32 (actualUncompressedSize temp max))) = true).
  { apply Z.leb_le. rewrite CFacts.u32_idem. unfold payload.
    rewrite length_firstn.
    assert (0 <= C.u32 (actualUncompressedSize temp max))
      by (unfold C.u32; apply Z.mod_pos_bound; lia).
    lia. }
  rewrite E2, Hload. cbn [negb fst snd].
  repeat split; reflexivity.
Qed.

(** C8, witness: the ten-byte state is recorded with size 10. *)
Lemma uncompressedSize_is_backward_scan_witness :
  uncompressedSize (header_at (envelope Sample.result16)) = 10.
Proof.
  assert (Hs : SaveEmulatorState Sample.codec (Sample.host_saving Sample.saved16)
                 7 Sample.world16 = (Some Sample.result16, snd Sample.save16))
    by (vm_compute; reflexivity).
  assert (Hz : sizeof_RollbackStateHeader + RESERVE
               <= m_bufferSize (g_stateBufferPool Sample.world16) < 2 ^ 32)
    by (vm_compute; split; [discriminate | reflexivity]).
  assert (Ht : state_save (Sample.host_saving Sample.saved16)
                 (maxUncompressedSize_of (g_stateBufferPool Sample.world16))
               = Some Sample.saved16) by reflexivity.
  exact (proj1 (uncompressedSize_is_backward_scan _ _ _ _ _ _ _ Hs Hz Ht)).
Defined.

(** C3, witness: the checksum of the sample save is the CRC-32 of its ten
    payload bytes. *)
Lemma checksum_is_crc32_of_uncompressed_payload_witness :
  C.u32 (checksum Sample.result16) = Zlib.crc32 (firstn 10 Sample.saved16).
Proof.
  assert (Hs : SaveEmulatorState Sample.codec (Sample.host_saving Sample.saved16)
                 7 Sample.world16 = (Some Sample.result16, snd Sample.save16))
    by (vm_compute; reflexivity).
  assert (Ht : state_save (Sample.host_saving Sample.saved16)
                 (maxUncompressedSize_of (g_stateBufferPool Sample.world16))
               = Some Sample.saved16) by reflexivity.
  exact (proj1 (proj2
           (checksum_is_crc32_of_uncompressed_payload _ _ _ _ _ _ _ Hs Ht))).
Defined.

(** In the sample save the checksum differs from the CRC-32 of the
    compressed payload and from the CRC-32 of the whole envelope. *)
Lemma checksum_sample_is_not_of_envelope :
  C.u32 (checksum Sample.result16) = 0x2D427E81
  /\ Zlib.crc32 (skipn 36 (envelope Sample.result16)) <> 0x2D427E81
  /\ Zlib.crc32 (envelope Sample.result16) <> 0x2D427E81.
Proof. repeat split; vm_compute; congruence. Qed.

(** C9, witness: a state of 1100 non-zero bytes. *)
Lemma save_fails_beyond_reserve_witness :
  fst (SaveEmulatorState Sample.codec (Sample.host_saving Sample.saved1100)
         7 Sample.world1100) = None.
Proof.
  assert (Hb : fst (getBuffer (malloc (Sample.host_saving Sample.saved1100))
                      (g_stateBufferPool Sample.world1100)) <> nullptr)
    by (vm_compute; discriminate).
  assert (Ht : state_save (Sample.host_saving Sample.saved1100)
                 (maxUncompressedSize_of (g_stateBufferPool Sample.world1100))
               = Some Sample.saved1100) by reflexivity.
  assert (Hd : exists out,
             Zlib.deflate Sample.codec COMPRESSION_LEVEL
               (payload Sample.saved1100
                  (maxUncompressedSize_of (g_stateBufferPool Sample.world1100)))
             = Some out /\ 1024 < Z.of_nat (length out)).
  { eexists. split; [vm_compute; reflexivity | vm_compute; reflexivity]. }
  exact (proj1 (proj2 (proj2
           (save_fails_beyond_reserve Sample.codec _ 7 _ _ Hb Ht Hd)))).
Defined.

(** C2, witness: forty zero bytes are refused and no command is sent. *)
Lemma load_rejects_malformed_witness :
  fst (LoadEmulatorState Sample.codec (Sample.host_saving Sample.saved16)
         0x3000 Sample.zeros40 40 Sample.world16) = false
  /\ coreCommands
       (snd (LoadEmulatorState Sample.codec (Sample.host_saving Sample.saved16)
               0x3000 Sample.zeros40 40 Sample.world16)) = [].
Proof.
  assert (Hl : 0 <= 40 <= C.INT_MAX) by (vm_compute; split; discriminate).
  assert (Hb : magic (header_at Sample.zeros40) <> 0x52424B53
               \/ version (header_at Sample.zeros40) <> 1
               \/ 40 < sizeof_RollbackStateHeader
                       + compressedSize (header_at Sample.zeros40))
    by (left; vm_compute; discriminate).
  pose proof (load_rejects_malformed Sample.codec
                (Sample.host_saving Sample.saved16) 0x3000 Sample.zeros40 40
                Sample.world16 Hl Hb) as (H1 & H2 & _).
  split; [exact H1 | exact H2].
Defined.

End StoreFacts.

(* ------------------------------------------------------------------ *)
(** ** The session *)

Module SessionFacts.

Import Rollback.

(** C10.  On an initialised session [AddLocalInput] advances
    [currentInputSequence] by one (a [uint32_t] increment) before GGPO is
    asked: GGPO is given the object with the new value, the value is the
    same whatever GGPO answers, and the returned flag alone tells whether
    the input was accepted.  The entry point
    [CoreRollbackNetplayAddLocalInput] passes both on. *)
Theorem AddLocalInput_bumps_sequence
    (submit : RollbackNetplayImpl -> GGPOErrorCode) (s : RollbackNetplayImpl)
    (this : ptr) (w : Netplay.World)
    (Hinit : initialized s = true) (Hsess : ggpoSession s <> nullptr)
    (Hflag : Netplay.l_HasInitRollbackNetplay w = true)
    (Hobj : Netplay.l_RollbackNetplay w = Some (this, s)) :
  let res := AddLocalInput submit s in
  currentInputSequence (snd res) = C.u32 (currentInputSequence s + 1)
  /\ (0 <= currentInputSequence s < 2 ^ 32 - 1 ->
      currentInputSequence (snd res) = currentInputSequence s + 1)
  /\ fst res = (submit (snd res) =? GGPO_OK)
  /\ (forall submit',
      currentInputSequence (snd (AddLocalInput submit' s))
      = currentInputSequence (snd res))
  /\ fst (Netplay.CoreRollbackNetplayAddLocalInput submit w) = fst res
  /\ Netplay.l_RollbackNetplay (snd (Netplay.CoreRollbackNetplayAddLocalInput submit w))
     = Some (this, snd res).
Proof.
  intros res. subst res.
  assert (E : forall c, AddLocalInput c s
              = (c (set_sequence (C.u32 (currentInputSequence s + 1))
                      (lastSavedFrameInputSequence s) s) =? GGPO_OK,
                 set_sequence (C.u32 (currentInputSequence s + 1))
                   (lastSavedFrameInputSequence s) s)).
  { intros c. unfold AddLocalInput. rewrite Hinit.
    apply Z.eqb_neq in Hsess. rewrite Hsess. reflexivity. }
  rewrite E. cbn [fst snd set_sequence currentInputSequence].
  split; [reflexivity | ]. split.
  - intros Hr. apply CFacts.u32_small. change (2 ^ 32) with 4294967296 in *. lia.
  - split; [reflexivity | ]. split.
    + intros c. rewrite E. reflexivity.
    + unfold Netplay.CoreRollbackNetplayAddLocalInput.
      rewrite Hobj, Hflag, E. cbn. split; reflexivity.
Qed.

(** C10, witness: a session set up by [CoreInitRollbackNetplay]; GGPO
    refuses the input (answer 1) and the counter still goes from 0 to 1. *)
Lemma AddLocalInput_bumps_sequence_witness :
  currentInputSequence (snd Sample.session_running) = 0
  /\ fst (AddLocalInput (fun _ => 1) (snd Sample.session_running)) = false
  /\ currentInputSequence
       (snd (AddLocalInput (fun _ => 1) (snd Sample.session_running))) = 1.
Proof.
  assert (Hi : initialized (snd Sample.session_running) = true) by reflexivity.
  assert (Hs : ggpoSession (snd Sample.session_running) <> nullptr)
    by (vm_compute; discriminate).
  assert (Hf : Netplay.l_HasInitRollbackNetplay Sample.world_running = true)
    by reflexivity.
  assert (Ho : Netplay.l_RollbackNetplay Sample.world_running
               = Some (fst Sample.session_running, snd Sample.session_running))
    by reflexivity.
  pose proof (AddLocalInput_bumps_sequence (fun _ => 1) _ _ _ Hi Hs Hf Ho)
    as (H1 & _ & H3 & _).
  split; [reflexivity | ]. split; [exact H3 | exact H1].
Defined.

Lemma OnEvent_counters (stats : option NetworkStats) (event : GGPOEvent)
    (s s' : RollbackNetplayImpl) :
  resets_metrics event = false ->
  OnEvent stats event s = Some s' ->
  rollbackFrames (metrics s) <= rollbackFrames (metrics s')
  /\ totalRollbacks (metrics s) <= totalRollbacks (metrics s')
  /\ maxRollbackFrames (metrics s) <= maxRollbackFrames (metrics s').
Proof.
  intros Hr H. unfold OnEvent in H.
  destruct event as [ | | | | | fa | | ]; try discriminate Hr;
    try (injection H as <-; destruct stats; cbn; lia).
  destruct (0 <? fa) eqn:Ef;
    [ | injection H as <-; destruct stats; cbn; lia].
  apply Z.ltb_lt in Ef.
  assert (Hm : rollbackFrames (UpdateMetrics stats (GGPO_EVENTCODE_TIMESYNC fa) (metrics s))
               = rollbackFrames (metrics s)
               /\ totalRollbacks (UpdateMetrics stats (GGPO_EVENTCODE_TIMESYNC fa) (metrics s))
                  = totalRollbacks (metrics s)
               /\ maxRollbackFrames (UpdateMetrics stats (GGPO_EVENTCODE_TIMESYNC fa) (metrics s))
                  = maxRollbackFrames (metrics s))
    by (destruct stats; repeat split; reflexivity).
  destruct Hm as (Hm1 & Hm2 & Hm3).
  set (m := UpdateMetrics stats (GGPO_EVENTCODE_TIMESYNC fa) (metrics s)) in *.
  unfold C.int_add in H.
  destruct (C.in_int (rollbackFrames m + fa)); [ | discriminate].
  destruct (C.in_int (totalRollbacks m + 1)); [ | discriminate].
  injection H as <-. cbn [metrics set_metrics rollbackFrames totalRollbacks
                           maxRollbackFrames].
  rewrite Hm1, Hm2, Hm3.
  destruct (maxRollbackFrames (metrics s) <? fa) eqn:Em;
    [apply Z.ltb_lt in Em | ]; lia.
Qed.

Lemma OnEvent_reset (stats : option NetworkStats) (event : GGPOEvent)
    (s : RollbackNetplayImpl) :
  resets_metrics event = true ->
  exists s', OnEvent stats event s = Some s'
    /\ rollbackFrames (metrics s') = 0
    /\ totalRollbacks (metrics s') = 0
    /\ maxRollbackFrames (metrics s') = 0.
Proof.
  intros Hr. destruct event; try discriminate Hr;
    (eexists; split; [reflexivity | destruct stats; cbn; repeat split]).
Qed.

(** C6, as corrected.  Over any sequence of handled events that contains
    neither a connected-to-peer nor a disconnected-from-peer event (and
    whose additions stay within [int]), [rollbackFrames], [totalRollbacks]
    and [maxRollbackFrames] do not decrease.  Each of those two events sets
    the three fields to zero. *)
Theorem counters_monotone_between_resets
    (evs : list (GGPOEvent * option NetworkStats)) (s s' : RollbackNetplayImpl)
    (Hno : forallb (fun e => negb (resets_metrics (fst e))) evs = true)
    (Hrun : process_events evs s = Some s') :
  (rollbackFrames (metrics s) <= rollbackFrames (metrics s')
   /\ totalRollbacks (metrics s) <= totalRollbacks (metrics s')
   /\ maxRollbackFrames (metrics s) <= maxRollbackFrames (metrics s'))
  /\ (forall stats event s0,
      resets_metrics event = true ->
      exists s1, OnEvent stats event s0 = Some s1
        /\ rollbackFrames (metrics s1) = 0
        /\ totalRollbacks (metrics s1) = 0
        /\ maxRollbackFrames (metrics s1) = 0).
Proof.
  split; [ | intros stats event s0; apply OnEvent_reset].
  revert s Hno Hrun.
  induction evs as [ | [event stats] evs IH]; intros s Hno Hrun.
  - injection Hrun as <-. lia.
  - cbn [forallb fst] in Hno. apply andb_true_iff in Hno as [He Hno].
    apply negb_true_iff in He.
    cbn [process_events OnEvent_Callback] in Hrun.
    destruct (OnEvent stats event s) as [s1 | ] eqn:E1; [ | discriminate].
    pose proof (OnEvent_counters stats event s s1 He E1) as (A & B & D).
    pose proof (IH s1 Hno Hrun) as (A' & B' & D'). lia.
Qed.

(** C6, counterexample to the claim as stated.  A fresh session handles a
    time-sync event with [frames_ahead = 3] and then a disconnect: the
    three counters go from (3, 1, 3) back to (0, 0, 0). *)
Lemma counters_monotone_cex :
  let counters := fun s => (rollbackFrames (metrics s),
                            totalRollbacks (metrics s),
                            maxRollbackFrames (metrics s)) in
  option_map counters
    (process_events [(GGPO_EVENTCODE_TIMESYNC 3, None)] new_RollbackNetplayImpl)
  = Some (3, 1, 3)
  /\ option_map counters
       (process_events [(GGPO_EVENTCODE_TIMESYNC 3, None);
                        (GGPO_EVENTCODE_DISCONNECTED_FROM_PEER, None)]
          new_RollbackNetplayImpl)
     = Some (0, 0, 0).
Proof. split; reflexivity. Qed.

(** C6, witness: two time-sync events and a connection hiccup. *)
Lemma counters_monotone_between_resets_witness :
  rollbackFrames (metrics new_RollbackNetplayImpl)
  <= rollbackFrames (metrics Sample.after_events3)
  /\ totalRollbacks (metrics new_RollbackNetplayImpl)
     <= totalRollbacks (metrics Sample.after_events3)
  /\ maxRollbackFrames (metrics new_RollbackNetplayImpl)
     <= maxRollbackFrames (metrics Sample.after_events3).
Proof.
  assert (Hno : forallb (fun e => negb (resets_metrics (fst e))) Sample.events3
                = true) by reflexivity.
  assert (Hrun : process_events Sample.events3 new_RollbackNetplayImpl
                 = Some Sample.after_events3) by reflexivity.
  exact (proj1 (counters_monotone_between_resets _ _ _ Hno Hrun)).
Defined.

(** C1, as corrected.  While a rollback session is active (and standard
    netplay is not), [CoreInitRollbackNetplay] returns [true], reports no
    error and changes nothing; [Initialize] on an object that is already
    initialised does the same.  Only [Initialize] on an object that is not
    initialised, made while the static instance pointer is set, fails
    loudly: it returns [false] with the message "RollbackNetplay: Another
    instance is already active" and leaves the object and the pointer as
    they were. *)
Theorem initialize_while_active
    (h : Netplay.Host) (port player maxPlayers frameDelay : Z) (w : Netplay.World)
    (g : GGPO) (this inst : ptr) (s : RollbackNetplayImpl)
    (Hstd : Netplay.l_HasInitNetplay w = false)
    (Hact : Netplay.l_HasInitRollbackNetplay w = true)
    (Hinst : inst <> nullptr) :
  Netplay.CoreInitRollbackNetplay h port player maxPlayers w = (true, w)
  /\ (initialized s = true ->
      Initialize g this s inst port player maxPlayers frameDelay
      = (true, s, inst, []))
  /\ (initialized s = false ->
      Initialize g this s inst port player maxPlayers frameDelay
      = (false, s, inst,
         ["RollbackNetplay: Another instance is already active"%string])).
Proof.
  split; [ | split].
  - unfold Netplay.CoreInitRollbackNetplay. rewrite Hstd, Hact. reflexivity.
  - intros Hi. unfold Initialize. rewrite Hi. reflexivity.
  - intros Hi. unfold Initialize. rewrite Hi.
    apply Z.eqb_neq in Hinst. rewrite Hinst. reflexivity.
Qed.

(** C1, counterexample to the claim as stated.  After a first successful
    initialisation a second call returns [true]; no message has been given
    to [CoreSetError] and the statics are unchanged. *)
Lemma initialize_while_active_cex :
  Netplay.CoreHasInitRollbackNetplay Sample.world_running = true
  /\ fst (Netplay.CoreInitRollbackNetplay (Sample.host_saving Sample.saved16)
            7000 1 2 Sample.world_running) = true
  /\ Netplay.errors
       (snd (Netplay.CoreInitRollbackNetplay (Sample.host_saving Sample.saved16)
               7000 1 2 Sample.world_running)) = []
  /\ snd (Netplay.CoreInitRollbackNetplay (Sample.host_saving Sample.saved16)
            7000 1 2 Sample.world_running) = Sample.world_running.
Proof. repeat split; reflexivity. Qed.

(** C1, witness: the running session of the sample, its own object and a
    fresh second object. *)
Lemma initialize_while_active_witness :
  Netplay.CoreInitRollbackNetplay (Sample.host_saving Sample.saved16) 7001 2 2
    Sample.world_running = (true, Sample.world_running)
  /\ fst (fst (fst (Initialize Sample.ggpo_ok 0x6000 new_RollbackNetplayImpl
                      (Netplay.instancePtr Sample.world_running) 7001 2 2 1)))
     = false.
Proof.
  assert (Hstd : Netplay.l_HasInitNetplay Sample.world_running = false)
    by reflexivity.
  assert (Hact : Netplay.l_HasInitRollbackNetplay Sample.world_running = true)
    by reflexivity.
  assert (Hinst : Netplay.instancePtr Sample.world_running <> nullptr)
    by (vm_compute; discriminate).
  pose proof (initialize_while_active (Sample.host_saving Sample.saved16)
                7001 2 2 1 Sample.world_running Sample.ggpo_ok 0x6000
                (Netplay.instancePtr Sample.world_running)
                new_RollbackNetplayImpl Hstd Hact Hinst) as (H1 & _ & H3).
  split; [exact H1 | ]. rewrite (H3 eq_refl). reflexivity.
Defined.

End SessionFacts.

(* ------------------------------------------------------------------ *)
(** ** Controller input *)

Module InputFacts.

Import Emulation.

Lemma all_from_spec (n : nat) (f : Z -> bool) (v0 : Z) :
  C.all_from n v0 f = true -> forall v, v0 <= v < v0 + Z.of_nat n -> f v = true.
Proof.
  revert v0. induction n as [ | n IH]; intros v0 H v Hv; [lia | ].
  cbn [C.all_from] in H. apply andb_true_iff in H as [H1 H2].
  destruct (Z.eq_dec v v0) as [-> | Hne]; [exact H1 | ].
  apply (IH (v0 + 1)); [exact H2 | lia].
Qed.

Lemma all_below_spec (bound : Z) (f : Z -> bool) :
  C.all_below bound f = true -> forall v, 0 <= v < bound -> f v = true.
Proof.
  intros H v Hv. apply (all_from_spec (Z.to_nat bound) f 0 H). lia.
Qed.

Lemma defined_bits_range (w : Z) : 0 <= Z.land w DEFINED_BITS < 2 ^ 14.
Proof.
  change DEFINED_BITS with (Z.ones 14). rewrite Z.land_ones by lia.
  apply Z.mod_pos_bound. lia.
Qed.

Lemma land_defined (w m : Z) :
  Z.land DEFINED_BITS m = m -> Z.land (Z.land w DEFINED_BITS) m = Z.land w m.
Proof. intros H. rewrite <- Z.land_assoc, H. reflexivity. Qed.

Lemma or16_if_defined (w m acc bit : Z) :
  Z.land DEFINED_BITS m = m ->
  or16_if (Z.land w DEFINED_BITS) m acc bit = or16_if w m acc bit.
Proof. intros H. unfold or16_if. rewrite land_defined by exact H. reflexivity. Qed.

Lemma or32_if_defined (w m acc bit : Z) :
  Z.land DEFINED_BITS m = m ->
  or32_if (Z.land w DEFINED_BITS) m acc bit = or32_if w m acc bit.
Proof. intros H. unfold or32_if. rewrite land_defined by exact H. reflexivity. Qed.

(** Bits outside the 14 defined ones play no part in either direction. *)
Lemma encode_buttons_defined (w : Z) :
  encode_buttons (Z.land w DEFINED_BITS) = encode_buttons w.
Proof.
  unfold encode_buttons. rewrite !or16_if_defined by reflexivity. reflexivity.
Qed.

Lemma decode_buttons_defined (w : Z) :
  decode_buttons (Z.land w DEFINED_BITS) = decode_buttons w.
Proof.
  unfold decode_buttons. rewrite !or32_if_defined by reflexivity. reflexivity.
Qed.

Lemma decode_encode_small (v : Z) :
  0 <= v < 2 ^ 14 -> decode_buttons (encode_buttons v) = v.
Proof.
  intros Hv. apply Z.eqb_eq.
  apply (all_below_spec (2 ^ 14)
           (fun v => decode_buttons (encode_buttons v) =? v));
    [vm_compute; reflexivity | exact Hv].
Qed.

Lemma encode_decode_small (v : Z) :
  0 <= v < 2 ^ 14 -> encode_buttons (decode_buttons v) = v.
Proof.
  intros Hv. apply Z.eqb_eq.
  apply (all_below_spec (2 ^ 14)
           (fun v => encode_buttons (decode_buttons v) =? v));
    [vm_compute; reflexivity | exact Hv].
Qed.

Lemma decode_encode (w : Z) :
  decode_buttons (encode_buttons w) = Z.land w DEFINED_BITS.
Proof.
  rewrite <- encode_buttons_defined.
  apply decode_encode_small, defined_bits_range.
Qed.

Lemma encode_decode (w : Z) :
  encode_buttons (decode_buttons w) = Z.land w DEFINED_BITS.
Proof.
  rewrite <- decode_buttons_defined.
  apply encode_decode_small, defined_bits_range.
Qed.

(** C4.  The mapping of [GetControllerInputs] and the mapping of
    [ApplyControllerInputs] undo each other on the 14 defined bits, neither
    looks at any other bit of its source word, and both follow the table
    of native masks. *)
Theorem button_maps_inverse (native canon : Z) :
  decode_buttons (encode_buttons native) = Z.land native DEFINED_BITS
  /\ encode_buttons (decode_buttons canon) = Z.land canon DEFINED_BITS
  /\ encode_buttons native = encode_buttons (Z.land native DEFINED_BITS)
  /\ decode_buttons canon = decode_buttons (Z.land canon DEFINED_BITS)
  /\ Forall (fun entry => encode_buttons (fst entry) = snd entry
                          /\ decode_buttons (snd entry) = fst entry)
       native_button_table.
Proof.
  split; [ | split; [ | split; [ | split]]].
  - apply decode_encode.
  - apply encode_decode.
  - symmetry. apply encode_buttons_defined.
  - symmetry. apply decode_buttons_defined.
  - unfold native_button_table.
    repeat (apply Forall_cons; [split; reflexivity | ]). apply Forall_nil.
Qed.

Lemma shoulder_bits_small (v : Z) :
  0 <= v < 2 ^ 14 ->
  (Z.land (encode_buttons v) BTN_SHOULDER_L =? 0) = (Z.land v 0x0200 =? 0)
  /\ (Z.land (encode_buttons v) BTN_SHOULDER_R =? 0) = (Z.land v 0x0100 =? 0).
Proof.
  intros Hv.
  apply (all_below_spec (2 ^ 14)
           (fun v =>
              Bool.eqb (Z.land (encode_buttons v) BTN_SHOULDER_L =? 0)
                (Z.land v 0x0200 =? 0)
              && Bool.eqb (Z.land (encode_buttons v) BTN_SHOULDER_R =? 0)
                   (Z.land v 0x0100 =? 0)))
    in Hv; [ | vm_compute; reflexivity].
  apply andb_true_iff in Hv as [H1 H2].
  apply Bool.eqb_prop in H1, H2. split; assumption.
Qed.

Lemma shoulder_bits (w : Z) :
  (Z.land (encode_buttons w) BTN_SHOULDER_L =? 0) = (Z.land w 0x0200 =? 0)
  /\ (Z.land (encode_buttons w) BTN_SHOULDER_R =? 0) = (Z.land w 0x0100 =? 0).
Proof.
  rewrite <- encode_buttons_defined.
  rewrite <- (land_defined w 0x0200), <- (land_defined w 0x0100) by reflexivity.
  apply shoulder_bits_small, defined_bits_range.
Qed.

(** The triggers of every record [GetControllerInputs] builds follow its
    shoulder bits. *)
Lemma local_input_triggers (api : Input_api) (playerIndex : Z) :
  let input := local_input api playerIndex in
  trigger_l input = (if Z.land (buttons input) BTN_SHOULDER_L =? 0 then 0 else 255)
  /\ trigger_r input = (if Z.land (buttons input) BTN_SHOULDER_R =? 0 then 0 else 255).
Proof.
  unfold local_input.
  destruct (GetStatus api) as [status | ]; [ | split; reflexivity].
  destruct (status (playerIndex + 1)) as [ok connected].
  destruct (ok && negb (connected =? 0)); [ | split; reflexivity].
  destruct (ReadController api) as [read | ]; [ | split; reflexivity].
  destruct (read (playerIndex + 1)) as [ok' [[b x] y]].
  destruct ok'; [ | split; reflexivity].
  cbn [trigger_l trigger_r buttons].
  destruct (shoulder_bits b) as [HL HR]. rewrite HL, HR. split; reflexivity.
Qed.

(** The writes [ApplyControllerInputs] makes, spelled out. *)
Lemma ApplyControllerInputs_calls (api : Input_api) (data : list byte)
    (playerIndex : Z) (last : list byte) :
  let off := Z.to_nat (playerIndex * ROLLBACK_INPUT_BYTES) in
  fst (ApplyControllerInputs api (Some data) playerIndex last)
  = if (playerIndex <? 0) || (4 <=? playerIndex) then []
    else (if SetButtonState api
          then [Call_SetButtonState (playerIndex + 1)
                  (decode_buttons (C.rd16 data off))]
          else [])
         ++ (if SetAxisValue api
             then [Call_SetAxisValue (playerIndex + 1) 0
                     (C.to_int8 (C.byte_at data (off + 2)));
                   Call_SetAxisValue (playerIndex + 1) 1
                     (C.to_int8 (C.byte_at data (off + 3)))]
             else []).
Proof.
  unfold ApplyControllerInputs.
  destruct ((playerIndex <? 0) || (4 <=? playerIndex)); reflexivity.
Qed.

Lemma nth_memcpy (dst src : list byte) (off k : nat) :
  (off <= length dst)%nat -> (k < length src)%nat ->
  nth (off + k) (memcpy dst off src) x00 = nth k src x00.
Proof.
  intros Ho Hk. unfold memcpy.
  rewrite <- (firstn_length_le dst Ho) at 1.
  rewrite app_nth2_plus. apply app_nth1. exact Hk.
Qed.

Lemma encode_buttons_range (w : Z) : 0 <= encode_buttons w < 2 ^ 14.
Proof.
  pose proof (encode_decode (encode_buttons w)) as H.
  rewrite decode_encode, encode_buttons_defined in H.
  rewrite H. apply defined_bits_range.
Qed.

Lemma to_int8_byte (x : Z) :
  -128 <= x <= 127 -> C.to_int8 (C.byte_val (C.byte_of x)) = x.
Proof.
  intros Hx. rewrite CFacts.byte_val_byte_of. unfold C.to_int8, C.u8.
  change (2 ^ 8) with 256. change (2 ^ 7) with 128.
  rewrite Z.mod_mod by lia.
  destruct (x mod 256 <? 128) eqn:E;
    [apply Z.ltb_lt in E | apply Z.ltb_ge in E];
    Z.div_mod_to_equations; lia.
Qed.

(** The record packed by [GetControllerInputs] and then applied for the
    same player reaches the emulator as the 14 defined bits of the native
    button word and the two stick values that were read. *)
Lemma apply_of_local_input (api : Input_api) (w : Netplay.World)
    (data last : list byte) (status : Z -> bool * Z)
    (read : Z -> bool * (Z * Z * Z)) (connected native x y : Z) :
  let playerIndex := Netplay.CoreGetNetplayPlayerIndex w in
  GetStatus api = Some status ->
  status (playerIndex + 1) = (true, connected) -> connected <> 0 ->
  ReadController api = Some read ->
  read (playerIndex + 1) = (true, (native, x, y)) ->
  -128 <= x <= 127 -> -128 <= y <= 127 ->
  0 <= playerIndex < 4 -> length data = 128%nat ->
  fst (ApplyControllerInputs api (GetControllerInputs api w (Some data))
         playerIndex last)
  = (if SetButtonState api
     then [Call_SetButtonState (playerIndex + 1) (Z.land native DEFINED_BITS)]
     else [])
    ++ (if SetAxisValue api
        then [Call_SetAxisValue (playerIndex + 1) 0 x;
              Call_SetAxisValue (playerIndex + 1) 1 y]
        else []).
Proof.
  intros idx Hs Hst Hc Hr Hrd Hx Hy Hidx Hlen.
  unfold GetControllerInputs. fold idx.
  rewrite ApplyControllerInputs_calls. cbv zeta.
  assert (Hb : (idx <? 0) || (4 <=? idx) = false).
  { apply orb_false_iff. split; [apply Z.ltb_ge | apply Z.leb_gt]; lia. }
  rewrite Hb.
  assert (Hin : local_input api idx
                = {| buttons := encode_buttons native;
                     stick_x := x; stick_y := y;
                     trigger_r := if Z.land native 0x0100 =? 0 then 0 else 255;
                     trigger_l := if Z.land native 0x0200 =? 0 then 0 else 255;
                     reserved := (0, 0) |}).
  { unfold local_input. rewrite Hs, Hst.
    apply Z.eqb_neq in Hc. rewrite Hc. cbn [negb andb].
    rewrite Hr, Hrd. reflexivity. }
  rewrite Hin.
  set (off := Z.to_nat (idx * ROLLBACK_INPUT_BYTES)).
  assert (Hoff : (off <= length data)%nat).
  { unfold off, ROLLBACK_INPUT_BYTES. rewrite Hlen. lia. }
  unfold C.rd16, C.byte_at.
  rewrite <- (Nat.add_0_r off) at 1.
  rewrite !nth_memcpy by (try exact Hoff; cbn; lia).
  unfold ControllerInput_bytes, C.le16.
  cbn [app nth buttons stick_x stick_y].
  rewrite !to_int8_byte by assumption.
  rewrite !CFacts.byte_val_byte_of, Z.shiftr_div_pow2 by lia.
  pose proof (encode_buttons_range native) as He.
  replace (encode_buttons native mod 256
           + 2 ^ 8 * (encode_buttons native / 2 ^ 8 mod 256))
    with (encode_buttons native)
    by (change (2 ^ 14) with 16384 in He; change (2 ^ 8) with 256;
        Z.div_mod_to_equations; lia).
  rewrite decode_encode. reflexivity.
Qed.

(** C5, as corrected.  The trigger values are derived from the shoulder
    bits by the encoding side: in every record [GetControllerInputs]
    builds, [trigger_l] is [0xFF] when the left-shoulder bit is held and 0
    otherwise, and likewise [trigger_r].  [ApplyControllerInputs] writes
    the button word and the two stick axes only: none of its writes
    carries a trigger, and the writes do not depend on the trigger bytes
    of the record (offsets 4 and 5). *)
Theorem triggers_derived_on_encode
    (api : Input_api) (playerIndex : Z) (data data' last : list byte)
    (Hsame : forall k,
        k <> (Z.to_nat (playerIndex * ROLLBACK_INPUT_BYTES) + 4)%nat ->
        k <> (Z.to_nat (playerIndex * ROLLBACK_INPUT_BYTES) + 5)%nat ->
        nth k data' x00 = nth k data x00) :
  let input := local_input api playerIndex in
  let calls := fst (ApplyControllerInputs api (Some data) playerIndex last) in
  trigger_l input = (if Z.land (buttons input) BTN_SHOULDER_L =? 0 then 0 else 255)
  /\ trigger_r input = (if Z.land (buttons input) BTN_SHOULDER_R =? 0 then 0 else 255)
  /\ existsb writes_trigger calls = false
  /\ fst (ApplyControllerInputs api (Some data') playerIndex last) = calls.
Proof.
  intros input calls. subst input calls.
  destruct (local_input_triggers api playerIndex) as [HL HR].
  split; [exact HL | ]. split; [exact HR | ].
  rewrite !ApplyControllerInputs_calls. cbv zeta.
  set (off := Z.to_nat (playerIndex * ROLLBACK_INPUT_BYTES)) in *.
  split.
  - destruct ((playerIndex <? 0) || (4 <=? playerIndex)); [reflexivity | ].
    destruct (SetButtonState api), (SetAxisValue api); reflexivity.
  - unfold C.rd16, C.byte_at.
    rewrite !Hsame by lia. reflexivity.
Qed.

(** C5, counterexample to the claim as stated.  The record of a player
    who holds both shoulder buttons carries [0xFF] in both trigger bytes;
    applying it makes three writes, the button word and the two stick
    axes, and no write of a trigger. *)
Lemma apply_writes_triggers_cex :
  map C.byte_val (bytes_at Sample.inputs_shoulders 0 sizeof_ControllerInput)
  = [0; 3; 5; 253; 255; 255; 0; 0]
  /\ fst (ApplyControllerInputs Sample.api_full (Some Sample.inputs_shoulders)
            0 (repeat x00 128))
     = [Call_SetButtonState 1 0x0300;
        Call_SetAxisValue 1 0 5;
        Call_SetAxisValue 1 1 (-3)]
  /\ existsb writes_trigger
       (fst (ApplyControllerInputs Sample.api_full (Some Sample.inputs_shoulders)
               0 (repeat x00 128))) = false.
Proof. repeat split; reflexivity. Qed.

(** C5, witness: the same record with both trigger bytes cleared is
    applied with the same writes. *)
Lemma triggers_derived_on_encode_witness :
  fst (ApplyControllerInputs Sample.api_full
         (Some (Sample.bytes [0; 3; 5; 253; 0; 0; 0; 0])) 0 (repeat x00 128))
  = fst (ApplyControllerInputs Sample.api_full
           (Some (Sample.bytes [0; 3; 5; 253; 255; 255; 0; 0])) 0 (repeat x00 128)).
Proof.
  assert (Hsame : forall k,
             k <> (Z.to_nat (0 * ROLLBACK_INPUT_BYTES) + 4)%nat ->
             k <> (Z.to_nat (0 * ROLLBACK_INPUT_BYTES) + 5)%nat ->
             nth k (Sample.bytes [0; 3; 5; 253; 0; 0; 0; 0]) x00
             = nth k (Sample.bytes [0; 3; 5; 253; 255; 255; 0; 0]) x00).
  { intros k H4 H5. change (Z.to_nat (0 * ROLLBACK_INPUT_BYTES)) with 0%nat in H4, H5.
    do 8 (destruct k as [ | k]; [try reflexivity; lia | ]).
    destruct k; reflexivity. }
  exact (proj2 (proj2 (proj2
           (triggers_derived_on_encode Sample.api_full 0 _ _ (repeat x00 128)
              Hsame)))).
Defined.

End InputFacts.

(* ------------------------------------------------------------------ *)
(** ** More on the buffer pool *)

Module PoolMore.

Import Pool PoolRun.

Lemma length_removelast (l : list ptr) :
  l <> [] -> S (length (removelast l)) = length l.
Proof.
  intros Hne. rewrite (app_removelast_last nullptr Hne) at 2.
  rewrite length_app. simpl. lia.
Qed.

Lemma step_resident (p : StateBufferPool) (o : PoolOp) :
  m_bufferSize (step p o) = m_bufferSize p
  /\ m_maxBuffers (step p o) = m_maxBuffers p
  /\ (resident (step p o) = resident p
      \/ (m_freeBuffers p = []
          /\ Z.of_nat (length (m_usedBuffers p)) < m_maxBuffers p
          /\ resident (step p o) = resident p + 1)).
Proof.
  destruct o as [malloc | buffer]; cbn [step].
  - unfold getBuffer, resident.
    destruct (m_freeBuffers p) as [ | x l] eqn:Ef.
    + destruct (Z.of_nat (length (m_usedBuffers p)) <? m_maxBuffers p) eqn:El.
      * destruct (malloc =? nullptr); cbn [snd m_bufferSize m_maxBuffers
          m_freeBuffers m_usedBuffers]; rewrite ?Ef.
        -- repeat split; left; reflexivity.
        -- apply Z.ltb_lt in El. repeat split. right.
           repeat split; [exact El | ].
           rewrite length_app, Nat.add_1_r. simpl. lia.
      * cbn [snd]. rewrite Ef. repeat split; left; reflexivity.
    + cbn [snd m_bufferSize m_maxBuffers m_freeBuffers m_usedBuffers].
      repeat split. left.
      assert (HL : S (length (removelast (x :: l))) = length (x :: l))
        by (apply length_removelast; discriminate).
      rewrite length_app, Nat.add_1_r. lia.
  - unfold releaseBuffer, resident.
    destruct (buffer =? nullptr); [repeat split; left; reflexivity | ].
    destruct (find buffer (m_usedBuffers p)) eqn:Ef;
      [ | repeat split; left; reflexivity].
    cbn [m_bufferSize m_maxBuffers m_freeBuffers m_usedBuffers].
    repeat split. left.
    pose proof (PoolFacts.length_erase buffer (m_usedBuffers p) Ef) as HL.
    rewrite length_app, Nat.add_1_r. lia.
Qed.

(** X1.  Whatever sequence of [getBuffer] and [releaseBuffer] calls is
    made on a pool, and whatever the allocator answers, the buffers it
    holds (free and in use) never number more than [m_maxBuffers], or one
    when [m_maxBuffers] is smaller (the constructor allocates one buffer);
    the buffer size and the maximum never change. *)
Theorem pool_never_exceeds_maximum
    (b0 size maxb : Z) (ops : list PoolOp) :
  let p := run ops (new_StateBufferPool b0 size maxb) in
  resident p <= Z.max 1 maxb
  /\ m_bufferSize p = size
  /\ m_maxBuffers p = maxb.
Proof.
  cbv zeta.
  assert (G : forall ops p,
             resident p <= Z.max 1 (m_maxBuffers p) ->
             resident (run ops p) <= Z.max 1 (m_maxBuffers p)
             /\ m_bufferSize (run ops p) = m_bufferSize p
             /\ m_maxBuffers (run ops p) = m_maxBuffers p).
  { clear. induction ops as [ | o ops' IH]; intros p Hp; [auto | ].
    cbn [run fold_left]. fold (run ops' (step p o)).
    destruct (step_resident p o) as (Hs & Hm & Hr).
    assert (Hp' : resident (step p o) <= Z.max 1 (m_maxBuffers (step p o))).
    { rewrite Hm. destruct Hr as [Hr | (Hf & Hu & Hr)]; [lia | ].
      rewrite Hr. unfold resident. rewrite Hf. simpl length. lia. }
    destruct (IH _ Hp') as (A & B & D).
    rewrite Hm in A. rewrite B, D. auto. }
  apply (G ops (new_StateBufferPool b0 size maxb)).
  unfold resident. simpl. lia.
Qed.

Lemma erase_perm (b : ptr) (l : list ptr) :
  find b l = true -> Permutation l (b :: erase b l).
Proof.
  induction l as [ | x l IH]; cbn [find erase]; [discriminate | ].
  destruct (x =? b) eqn:E.
  - apply Z.eqb_eq in E. subst x. intros _. apply Permutation_refl.
  - cbn [orb]. intros H. apply perm_trans with (x :: b :: erase b l).
    + apply perm_skip, IH, H.
    + apply perm_swap.
Qed.

Lemma erase_notin (b : ptr) (l : list ptr) : ~ In b l -> erase b l = l.
Proof.
  induction l as [ | x l IH]; cbn [erase]; intros Hn; [reflexivity | ].
  destruct (x =? b) eqn:E.
  - apply Z.eqb_eq in E. subst x. exfalso. apply Hn. left. reflexivity.
  - rewrite IH; [reflexivity | ]. intros H. apply Hn. right. exact H.
Qed.

Lemma step_distinct (p : StateBufferPool) (o : PoolOp) :
  distinct p ->
  match o with op_get malloc => fresh malloc p | op_release _ => True end ->
  distinct (step p o).
Proof.
  unfold distinct. intros Hd Hf. destruct o as [malloc | buffer]; cbn [step].
  - unfold getBuffer. destruct (m_freeBuffers p) as [ | x l] eqn:Ef.
    + destruct (Z.of_nat (length (m_usedBuffers p)) <? m_maxBuffers p);
        [ | cbn [snd]; rewrite Ef; exact Hd].
      destruct (malloc =? nullptr) eqn:Em; cbn [snd]; [rewrite Ef; exact Hd | ].
      cbn [m_freeBuffers m_usedBuffers app]. cbn [app] in Hd.
      apply Z.eqb_neq in Em. destruct Hf as [Hf | Hf]; [congruence | ].
      rewrite Ef in Hf. cbn [app] in Hf.
      apply (Permutation_NoDup (l := malloc :: m_usedBuffers p)).
      * apply Permutation_cons_append.
      * constructor; assumption.
    + cbn [snd m_freeBuffers m_usedBuffers].
      assert (Hne : x :: l <> []) by discriminate.
      pose proof (app_removelast_last nullptr Hne) as Hl.
      set (r := removelast (x :: l)) in *.
      set (y := last (x :: l) nullptr) in *.
      rewrite Hl in Hd.
      apply (Permutation_NoDup (l := (r ++ [y]) ++ m_usedBuffers p));
        [ | exact Hd].
      rewrite <- app_assoc. apply Permutation_app_head.
      apply Permutation_app_comm.
  - unfold releaseBuffer. destruct (buffer =? nullptr); [exact Hd | ].
    destruct (find buffer (m_usedBuffers p)) eqn:Ef; [ | exact Hd].
    cbn [m_freeBuffers m_usedBuffers].
    apply (Permutation_NoDup (l := m_freeBuffers p ++ m_usedBuffers p));
      [ | exact Hd].
    rewrite <- app_assoc. apply Permutation_app_head. cbn [app].
    apply erase_perm, Ef.
Qed.

Lemma run_distinct (ops : list PoolOp) (p : StateBufferPool) :
  distinct p -> fresh_run ops p -> distinct (run ops p).
Proof.
  revert p. induction ops as [ | o ops' IH]; intros p Hd Hf; [exact Hd | ].
  cbn [run fold_left]. fold (run ops' (step p o)).
  destruct Hf as [Ho Hf]. apply IH; [ | exact Hf].
  apply step_distinct; assumption.
Qed.

(** X2.  When the allocator only returns pointers the pool does not hold
    yet, every buffer of the pool stays unique over any sequence of calls,
    and [getBuffer] never hands out a buffer that is in use. *)
Theorem buffer_in_use_is_not_handed_out
    (ops : list PoolOp) (p : StateBufferPool) (malloc : ptr)
    (Hd : distinct p) (Hf : fresh_run ops p)
    (Hm : fresh malloc (run ops p)) :
  let q := run ops p in
  distinct q
  /\ distinct (snd (getBuffer malloc q))
  /\ (fst (getBuffer malloc q) <> nullptr ->
      ~ In (fst (getBuffer malloc q)) (m_usedBuffers q)).
Proof.
  cbv zeta. pose proof (run_distinct ops p Hd Hf) as Hq.
  set (q := run ops p) in *.
  split; [exact Hq | ]. split.
  - apply (step_distinct q (op_get malloc) Hq Hm).
  - unfold getBuffer. unfold distinct in Hq.
    destruct (m_freeBuffers q) as [ | x l] eqn:Ef.
    + destruct (Z.of_nat (length (m_usedBuffers q)) <? m_maxBuffers q);
        [ | cbn [fst]; congruence].
      destruct (malloc =? nullptr) eqn:Em; cbn [fst]; [congruence | ].
      intros _ Hin. apply Z.eqb_neq in Em.
      destruct Hm as [Hm | Hm]; [congruence | ].
      apply Hm. apply in_or_app. right. exact Hin.
    + cbn [fst]. intros _ Hin.
      assert (Hl : In (last (x :: l) nullptr) (x :: l))
        by (apply PoolFacts.last_In; discriminate).
      apply NoDup_app_remove_l in Hq as Hu.
      revert Hq Hl Hin. generalize (last (x :: l) nullptr) as y.
      generalize (x :: l) as fr. clear. intros fr y Hq Hl Hin.
      induction fr as [ | a fr IH]; [destruct Hl | ].
      cbn [app] in Hq. inversion Hq as [ | ? ? Hna Hq']. subst.
      destruct Hl as [-> | Hl].
      * apply Hna. apply in_or_app. right. exact Hin.
      * apply IH; assumption.
Qed.

(** X2, witness: the default pool after a hand-out, an allocation and a
    release. *)
Lemma buffer_in_use_is_not_handed_out_witness :
  let q := run [op_get 0; op_get 0x2000; op_release 0x1000]
             (new_StateBufferPool 0x1000 DEFAULT_BUFFER_SIZE 4) in
  fst (getBuffer 0x3000 q) = 0x1000
  /\ ~ In (fst (getBuffer 0x3000 q)) (m_usedBuffers q).
Proof.
  assert (Hd : distinct (new_StateBufferPool 0x1000 DEFAULT_BUFFER_SIZE 4)).
  { unfold distinct. simpl. repeat constructor. simpl. tauto. }
  assert (Hf : fresh_run [op_get 0; op_get 0x2000; op_release 0x1000]
                 (new_StateBufferPool 0x1000 DEFAULT_BUFFER_SIZE 4)).
  { simpl. repeat split; try (left; reflexivity).
    right. simpl. intros [H | H]; [discriminate | exact H]. }
  assert (Hm : fresh 0x3000
                 (run [op_get 0; op_get 0x2000; op_release 0x1000]
                    (new_StateBufferPool 0x1000 DEFAULT_BUFFER_SIZE 4))).
  { right. simpl. intros [H | [H | H]]; [discriminate | discriminate | exact H]. }
  pose proof (buffer_in_use_is_not_handed_out _ _ _ Hd Hf Hm) as (_ & _ & H).
  split; [reflexivity | ]. apply H. simpl. discriminate.
Defined.

Lemma find_false_notin (b : ptr) (l : list ptr) :
  find b l = false <-> ~ In b l.
Proof.
  rewrite <- PoolFacts.find_In. destruct (find b l); split; congruence.
Qed.

Lemma erase_removes_unique (b : ptr) (l : list ptr) :
  NoDup l -> ~ In b (erase b l).
Proof.
  induction l as [ | x l IH]; cbn [erase]; intros Hd; [tauto | ].
  inversion Hd as [ | ? ? Hn Hd']. subst.
  destruct (x =? b) eqn:E.
  - apply Z.eqb_eq in E. subst x. exact Hn.
  - apply Z.eqb_neq in E. intros [H | H]; [congruence | ].
    apply (IH Hd' H).
Qed.

(** X3.  Releasing a pointer the pool did not hand out, or the null
    pointer, changes nothing; and when the buffers in use are distinct,
    releasing the same buffer a second time changes nothing either: the
    second release is silently ignored. *)
Theorem release_unknown_or_twice
    (b : ptr) (p : StateBufferPool) (Hd : NoDup (m_usedBuffers p)) :
  releaseBuffer nullptr p = p
  /\ (~ In b (m_usedBuffers p) -> releaseBuffer b p = p)
  /\ releaseBuffer b (releaseBuffer b p) = releaseBuffer b p.
Proof.
  assert (Hun : forall q, ~ In b (m_usedBuffers q) -> releaseBuffer b q = q).
  { intros q Hn. unfold releaseBuffer. apply find_false_notin in Hn.
    rewrite Hn. destruct (b =? nullptr); reflexivity. }
  split; [reflexivity | ]. split; [apply Hun | ].
  destruct (b =? nullptr) eqn:Eb.
  - unfold releaseBuffer. rewrite Eb. reflexivity.
  - apply Hun. unfold releaseBuffer. rewrite Eb.
    destruct (find b (m_usedBuffers p)) eqn:Ef.
    + cbn [m_usedBuffers]. apply erase_removes_unique, Hd.
    + apply find_false_notin. exact Ef.
Qed.

(** X3, witness: the pool of the sample whose only buffer is held. *)
Lemma release_unknown_or_twice_witness :
  releaseBuffer 0x9000 Sample.pool_held = Sample.pool_held
  /\ releaseBuffer 0x1000 (releaseBuffer 0x1000 Sample.pool_held)
     = releaseBuffer 0x1000 Sample.pool_held.
Proof.
  assert (Hd : NoDup (m_usedBuffers Sample.pool_held)).
  { simpl. repeat constructor. simpl. tauto. }
  pose proof (release_unknown_or_twice 0x9000 _ Hd) as (_ & H1 & _).
  pose proof (release_unknown_or_twice 0x1000 _ Hd) as (_ & _ & H2).
  split; [apply H1; simpl; intros [H | H]; [discriminate | exact H] | exact H2].
Defined.

Lemma last_app_one (l : list ptr) (b d : ptr) : last (l ++ [b]) d = b.
Proof. apply last_last. Qed.

(** X4.  The buffer released last is the one handed out next, without a
    new allocation, whatever became free before it.  And for a pool with
    distinct buffers and a non-empty free list without null pointers,
    handing a buffer out and releasing it again gives back the pool as it
    was. *)
Theorem released_buffer_is_reused
    (b malloc : ptr) (p q : StateBufferPool)
    (Hb : b <> nullptr) (Hin : In b (m_usedBuffers p))
    (Hd : distinct q) (Hq : m_freeBuffers q <> []) (Hn : free_nonnull q) :
  fst (getBuffer malloc (releaseBuffer b p)) = b
  /\ resident (snd (getBuffer malloc (releaseBuffer b p))) = resident p
  /\ releaseBuffer (fst (getBuffer malloc q)) (snd (getBuffer malloc q)) = q.
Proof.
  split; [ | split].
  - unfold releaseBuffer. apply Z.eqb_neq in Hb. rewrite Hb.
    apply PoolFacts.find_In in Hin. rewrite Hin.
    unfold getBuffer. cbn [m_freeBuffers].
    destruct (m_freeBuffers p ++ [b]) eqn:E;
      [destruct (m_freeBuffers p); discriminate | ].
    cbn [fst]. rewrite <- E. apply last_last.
  - pose proof (step_resident p (op_release b)) as (_ & _ & Hr).
    cbn [step] in Hr.
    assert (Hr' : resident (releaseBuffer b p) = resident p).
    { destruct Hr as [Hr | (_ & _ & Hr)]; [exact Hr | ].
      exfalso. revert Hr. unfold releaseBuffer, resident.
      apply Z.eqb_neq in Hb. rewrite Hb.
      apply PoolFacts.find_In in Hin. rewrite Hin.
      cbn [m_freeBuffers m_usedBuffers].
      pose proof (PoolFacts.length_erase b _ Hin).
      rewrite length_app, Nat.add_1_r. lia. }
    rewrite <- Hr'.
    unfold releaseBuffer. apply Z.eqb_neq in Hb. rewrite Hb.
    apply PoolFacts.find_In in Hin. rewrite Hin.
    unfold getBuffer, resident. cbn [m_freeBuffers m_usedBuffers].
    destruct (m_freeBuffers p ++ [b]) eqn:E;
      [destruct (m_freeBuffers p); discriminate | ].
    cbn [snd m_freeBuffers m_usedBuffers]. rewrite <- E.
    rewrite removelast_last, !length_app, !Nat.add_1_r. cbn [length]. lia.
  - unfold getBuffer. destruct (m_freeBuffers q) as [ | x l] eqn:Ef;
      [congruence | ].
    cbn [fst snd].
    assert (Hne : x :: l <> []) by discriminate.
    pose proof (app_removelast_last nullptr Hne) as Hl.
    set (y := last (x :: l) nullptr) in *.
    set (r := removelast (x :: l)) in *.
    assert (Hy : y <> nullptr).
    { intros E. apply Hn. rewrite Ef, <- E. apply PoolFacts.last_In, Hne. }
    assert (Hyu : ~ In y (m_usedBuffers q)).
    { unfold distinct in Hd. rewrite Ef, Hl, <- app_assoc in Hd.
      apply NoDup_app_remove_l in Hd. cbn [app] in Hd.
      inversion Hd. assumption. }
    unfold releaseBuffer. apply Z.eqb_neq in Hy. rewrite Hy.
    cbn [m_usedBuffers m_freeBuffers m_bufferSize m_maxBuffers].
    rewrite PoolFacts.find_app_last, (PoolFacts.erase_app_last y _ Hyu), <- Hl.
    destruct q. cbn in *. subst. reflexivity.
Qed.

(** X4, witness: the default pool with its buffer handed out, and fresh. *)
Lemma released_buffer_is_reused_witness :
  fst (getBuffer 0x2000 (releaseBuffer 0x1000 Sample.pool_held)) = 0x1000
  /\ releaseBuffer
       (fst (getBuffer 0 (new_StateBufferPool 0x1000 DEFAULT_BUFFER_SIZE 4)))
       (snd (getBuffer 0 (new_StateBufferPool 0x1000 DEFAULT_BUFFER_SIZE 4)))
     = new_StateBufferPool 0x1000 DEFAULT_BUFFER_SIZE 4.
Proof.
  assert (Hb : 0x1000 <> nullptr) by discriminate.
  assert (Hin : In 0x1000 (m_usedBuffers Sample.pool_held))
    by (left; reflexivity).
  assert (Hd : distinct (new_StateBufferPool 0x1000 DEFAULT_BUFFER_SIZE 4)).
  { unfold distinct. simpl. repeat constructor. simpl. tauto. }
  assert (Hq : m_freeBuffers (new_StateBufferPool 0x1000 DEFAULT_BUFFER_SIZE 4)
               <> []) by discriminate.
  assert (Hn : free_nonnull (new_StateBufferPool 0x1000 DEFAULT_BUFFER_SIZE 4)).
  { unfold free_nonnull. simpl. intros [H | H]; [discriminate | exact H]. }
  pose proof (released_buffer_is_reused 0x1000 0x2000 _ _ Hb Hin Hd Hq Hn)
    as (H1 & _ & _).
  pose proof (released_buffer_is_reused 0x1000 0 _ _ Hb Hin Hd Hq Hn)
    as (_ & _ & H3).
  split; [exact H1 | exact H3].
Defined.

End PoolMore.

(* ------------------------------------------------------------------ *)
(** ** More on the snapshot store *)

Module StoreMore.

Import Pool Netplay.

(** The four ways [SaveEmulatorState] can go, with what each leaves in the
    pool, the error sink, the command log and the input sequence. *)
Lemma SaveEmulatorState_cases
    (z : Zlib.Codec) (h : Host) (fr : Z) (w : World) :
  let got := getBuffer (malloc h) (g_stateBufferPool w) in
  let max := maxUncompressedSize_of (g_stateBufferPool w) in
  let res := SaveEmulatorState z h fr w in
  g_currentInputSequence (snd res) = g_currentInputSequence w
  /\ l_RollbackNetplay (snd res) = l_RollbackNetplay w
  /\ ((fst got = nullptr
       /\ fst res = None
       /\ g_stateBufferPool (snd res) = snd got
       /\ errors (snd res)
          = errors w ++ ["Failed to obtain state buffer from pool"%string]
       /\ coreCommands (snd res) = coreCommands w)
      \/ (fst got <> nullptr
          /\ state_save h max = None
          /\ fst res = None
          /\ g_stateBufferPool (snd res) = releaseBuffer (fst got) (snd got)
          /\ errors (snd res) = errors w ++ ["Failed to save emulator state"%string]
          /\ coreCommands (snd res) = coreCommands w ++ [M64CMD_STATE_SAVE max])
      \/ (fst got <> nullptr
          /\ (exists temp, state_save h max = Some temp
              /\ CompressData z (payload temp max) RESERVE = None)
          /\ fst res = None
          /\ g_stateBufferPool (snd res) = releaseBuffer (fst got) (snd got)
          /\ errors (snd res) = errors w ++ ["Failed to compress state data"%string]
          /\ coreCommands (snd res) = coreCommands w ++ [M64CMD_STATE_SAVE max])
      \/ (fst got <> nullptr
          /\ (exists temp compressed r,
                state_save h max = Some temp
                /\ CompressData z (payload temp max) RESERVE = Some compressed
                /\ fst res = Some r
                /\ buffer r = fst got
                /\ len r = C.to_int (sizeof_RollbackStateHeader
                                     + Z.of_nat (length compressed))
                /\ envelope r
                   = header_bytes
                       {| magic := ROLLBACK_STATE_MAGIC;
                          version := ROLLBACK_STATE_VERSION;
                          frame := C.u32 fr;
                          uncompressedSize :=
                            C.u32 (actualUncompressedSize temp max);
                          compressedSize := C.u32 (Z.of_nat (length compressed));
                          randState :=
                            match rng_query h with
                            | Some v => C.u32 v
                            | None => C.u32 (fallbackRng w + 1)
                            end;
                          inputSequence := g_currentInputSequence w;
                          reserved := (0, 0) |}
                     ++ compressed)
          /\ g_stateBufferPool (snd res) = snd got
          /\ errors (snd res) = errors w
          /\ coreCommands (snd res)
             = coreCommands w ++ [M64CMD_STATE_SAVE max;
                                  M64CMD_CORE_STATE_QUERY M64CORE_RANDOM_SEED])).
Proof.
  intros got max res. subst got res. unfold SaveEmulatorState.
  rewrite StoreFacts.pool_after_metrics.
  destruct (getBuffer (malloc h) (g_stateBufferPool w)) as [b pool] eqn:Eg.
  assert (Hmax : maxUncompressedSize_of pool = max).
  { change pool with (snd (b, pool)). rewrite <- Eg.
    apply StoreFacts.maxUncompressedSize_after_get. }
  rewrite Hmax. cbn [fst snd].
  destruct (b =? nullptr) eqn:Eb.
  { apply Z.eqb_eq in Eb. cbn. repeat split. left. repeat split. exact Eb. }
  apply Z.eqb_neq in Eb.
  destruct (state_save h max) as [temp | ] eqn:Et.
  2:{ cbn. repeat split. right. left. repeat split. exact Eb. }
  destruct (CompressData z (payload temp max) RESERVE) as [out | ] eqn:Ec.
  2:{ cbn. repeat split. right. right. left. repeat split; [exact Eb | ].
      exists temp. split; [reflexivity | exact Ec]. }
  unfold GetEmulatorRngState.
  destruct (rng_query h) as [v | ] eqn:Er.
  - cbn. repeat split. right. right. right. split; [exact Eb | ].
    split; [ | rewrite <- app_assoc; repeat split].
    eexists temp, out, _. repeat split; assumption.
  - cbn. repeat split. right. right. right. split; [exact Eb | ].
    split; [ | rewrite <- app_assoc; repeat split].
    eexists temp, out, _. repeat split; assumption.
Qed.

Lemma getBuffer_null_unchanged (malloc : ptr) (p : StateBufferPool) :
  free_nonnull p -> fst (getBuffer malloc p) = nullptr ->
  snd (getBuffer malloc p) = p.
Proof.
  unfold free_nonnull, getBuffer. intros Hn.
  destruct (m_freeBuffers p) as [ | x l] eqn:Ef.
  - destruct (Z.of_nat (length (m_usedBuffers p)) <? m_maxBuffers p);
      [ | reflexivity].
    destruct (malloc =? nullptr) eqn:Em; [reflexivity | ].
    cbn [fst]. apply Z.eqb_neq in Em. congruence.
  - cbn [fst]. intros H. exfalso. apply Hn. rewrite <- H.
    apply PoolFacts.last_In. discriminate.
Qed.

(** X5.  A save that fails keeps no buffer: the used list of the pool is
    as long as before, and exactly one message is reported.  A save that
    succeeds reports nothing and keeps exactly the buffer it returns,
    which [FreeEmulatorState] gives back.  (For a pool without null
    pointers on its free list.) *)
Theorem save_keeps_only_the_returned_buffer
    (z : Zlib.Codec) (h : Host) (fr : Z) (w : World)
    (Hn : free_nonnull (g_stateBufferPool w)) :
  let res := SaveEmulatorState z h fr w in
  let used := m_usedBuffers (g_stateBufferPool w) in
  match fst res with
  | Some r =>
      buffer r <> nullptr
      /\ m_usedBuffers (g_stateBufferPool (snd res)) = used ++ [buffer r]
      /\ errors (snd res) = errors w
      /\ length (m_usedBuffers
                   (g_stateBufferPool (FreeEmulatorState (buffer r) (snd res))))
         = length used
      /\ In (buffer r)
           (m_freeBuffers
              (g_stateBufferPool (FreeEmulatorState (buffer r) (snd res))))
  | None =>
      length (m_usedBuffers (g_stateBufferPool (snd res))) = length used
      /\ exists msg, errors (snd res) = errors w ++ [msg]
  end.
Proof.
  intros res used. subst res used.
  destruct (SaveEmulatorState_cases z h fr w)
    as (_ & _ & [C | [C | [C | C]]]).
  - destruct C as (Hb & -> & Hp & He & _). rewrite Hp, He.
    rewrite (getBuffer_null_unchanged _ _ Hn Hb). eauto.
  - destruct C as (Hb & _ & -> & Hp & He & _). rewrite Hp, He.
    destruct (PoolFacts.release_after_get _ _ Hb) as (_ & HL & _). eauto.
  - destruct C as (Hb & _ & -> & Hp & He & _). rewrite Hp, He.
    destruct (PoolFacts.release_after_get _ _ Hb) as (_ & HL & _). eauto.
  - destruct C as (Hb & (temp & out & r & _ & _ & -> & Hr & _) & Hp & He & _).
    unfold FreeEmulatorState. cbn [g_stateBufferPool set_pool].
    rewrite Hp, He, Hr.
    destruct (PoolFacts.release_after_get _ _ Hb) as (Hin & HL & _).
    repeat split; try assumption.
    apply PoolFacts.getBuffer_used, Hb.
Qed.

(** X5, witness: the successful save of the sample. *)
Lemma save_keeps_only_the_returned_buffer_witness :
  m_usedBuffers (g_stateBufferPool (snd Sample.save16)) = [buffer Sample.result16]
  /\ m_usedBuffers
       (g_stateBufferPool
          (FreeEmulatorState (buffer Sample.result16) (snd Sample.save16))) = [].
Proof.
  assert (Hn : free_nonnull (g_stateBufferPool Sample.world16)).
  { unfold free_nonnull. simpl. intros [H | H]; [discriminate | exact H]. }
  pose proof (save_keeps_only_the_returned_buffer Sample.codec
                (Sample.host_saving Sample.saved16) 7 Sample.world16 Hn) as H.
  cbv zeta in H.
  change (SaveEmulatorState Sample.codec (Sample.host_saving Sample.saved16) 7
            Sample.world16) with Sample.save16 in H.
  change (fst Sample.save16) with (Some Sample.result16) in H.
  destruct H as (_ & H2 & _ & H4 & _).
  split; [exact H2 | ].
  destruct (m_usedBuffers
              (g_stateBufferPool
                 (FreeEmulatorState (buffer Sample.result16) (snd Sample.save16))));
    [reflexivity | discriminate H4].
Defined.



Lemma SaveEmulatorState_some
    (z : Zlib.Codec) (h : Host) (fr : Z) (w : World) (r : SaveResult) (w' : World) :
  SaveEmulatorState z h fr w = (Some r, w') ->
  let max := maxUncompressedSize_of (g_stateBufferPool w) in
  exists temp compressed,
    state_save h max = Some temp
    /\ Zlib.deflate z COMPRESSION_LEVEL (payload temp max) = Some compressed
    /\ Z.of_nat (length compressed) <= 1024
    /\ buffer r <> nullptr
    /\ len r = 36 + Z.of_nat (length compressed)
    /\ envelope r
       = header_bytes
           {| magic := ROLLBACK_STATE_MAGIC;
              version := ROLLBACK_STATE_VERSION;
              frame := C.u32 fr;
              uncompressedSize := C.u32 (actualUncompressedSize temp max);
              compressedSize := C.u32 (Z.of_nat (length compressed));
              randState :=
                match rng_query h with
                | Some v => C.u32 v
                | None => C.u32 (fallbackRng w + 1)
                end;
              inputSequence := g_currentInputSequence w;
              reserved := (0, 0) |}
         ++ compressed.
Proof.
  intros Hs max.
  destruct (SaveEmulatorState_cases z h fr w)
    as (_ & _ & [C | [C | [C | C]]]); rewrite Hs in C; cbn [fst snd] in C.
  - destruct C as (_ & C & _). discriminate C.
  - destruct C as (_ & _ & C & _). discriminate C.
  - destruct C as (_ & _ & C & _). discriminate C.
  - destruct C as (Hb & (temp & out & r' & Ht & Hc & Hr & Hbuf & Hlen & He) & _).
    injection Hr as <-. exists temp, out. fold max in Ht, Hc, He.
    unfold CompressData in Hc.
    destruct (Zlib.deflate z COMPRESSION_LEVEL (payload temp max))
      as [out' | ] eqn:Ed; [ | discriminate].
    destruct (Z.of_nat (length out') <=? RESERVE) eqn:El; [ | discriminate].
    injection Hc as ->. apply Z.leb_le in El. unfold RESERVE in El.
    repeat split; try assumption.
    + rewrite Hbuf. exact Hb.
    + rewrite Hlen. unfold C.to_int, sizeof_RollbackStateHeader.
      rewrite CFacts.u32_small by (change (2 ^ 32) with 4294967296; lia).
      destruct (36 + Z.of_nat (length out) <? 2 ^ 31) eqn:E; [reflexivity | ].
      apply Z.ltb_ge in E. change (2 ^ 31) with 2147483648 in E. lia.
Qed.

Lemma length_header_bytes (hd : RollbackStateHeader) :
  length (header_bytes hd) = 36%nat.
Proof. reflexivity. Qed.

(** X8.  The envelope of a successful save is never longer than 1060
    bytes (36 of header and at most 1024 of payload), [len] is its length,
    and its header describes it: magic and version as defined, the frame
    the caller gave, the payload size, zero reserved words, the input
    sequence at the time of the save, and as random state the seed the
    core reported or else the incremented fallback counter. *)
Theorem saved_envelope_shape
    (z : Zlib.Codec) (h : Host) (fr : Z) (w : World) (r : SaveResult) (w' : World)
    (Hs : SaveEmulatorState z h fr w = (Some r, w')) :
  let hd := header_at (envelope r) in
  len r = Z.of_nat (length (envelope r))
  /\ 36 <= len r <= 1060
  /\ magic hd = 0x52424B53
  /\ version hd = 1
  /\ frame hd = C.u32 fr
  /\ compressedSize hd = len r - 36
  /\ reserved hd = (0, 0)
  /\ inputSequence hd = C.u32 (g_currentInputSequence w)
  /\ randState hd = match rng_query h with
                    | Some v => C.u32 v
                    | None => C.u32 (fallbackRng w + 1)
                    end.
Proof.
  destruct (SaveEmulatorState_some z h fr w r w' Hs)
    as (temp & out & _ & _ & Hl & _ & Hlen & He).
  cbv zeta. rewrite He, StoreFacts.header_at_envelope, Hlen.
  cbn [magic version frame compressedSize reserved inputSequence randState
       fst snd].
  rewrite length_app, length_header_bytes, Nat2Z.inj_add.
  change (Z.of_nat 36) with 36.
  rewrite !CFacts.u32_idem.
  rewrite (CFacts.u32_small (Z.of_nat (length out)))
    by (change (2 ^ 32) with 4294967296; lia).
  repeat split; try lia.
  destruct (rng_query h); apply CFacts.u32_idem.
Qed.

(** X8, witness: the envelope of the sample save has 57 bytes. *)
Lemma saved_envelope_shape_witness :
  len Sample.result16 = 57
  /\ compressedSize (header_at (envelope Sample.result16)) = 21.
Proof.
  assert (Hs : SaveEmulatorState Sample.codec (Sample.host_saving Sample.saved16)
                 7 Sample.world16 = (Some Sample.result16, snd Sample.save16))
    by (vm_compute; reflexivity).
  pose proof (saved_envelope_shape _ _ _ _ _ _ Hs) as (H1 & _ & _ & _ & _ & H6 & _).
  split; [rewrite H1; reflexivity | rewrite H6, H1; reflexivity].
Defined.

(** X9.  Writing a header into memory and reading it back through the
    pointer cast gives the same header, for fields that fit 32 bits; the
    header takes 36 bytes and the payload follows it. *)
Theorem header_round_trip
    (hd : RollbackStateHeader) (rest : list byte)
    (Hmagic : C.fits32 (magic hd)) (Hversion : C.fits32 (version hd))
    (Hframe : C.fits32 (frame hd))
    (Husize : C.fits32 (uncompressedSize hd))
    (Hcsize : C.fits32 (compressedSize hd))
    (Hrand : C.fits32 (randState hd)) (Hseq : C.fits32 (inputSequence hd))
    (Hres0 : C.fits32 (fst (reserved hd)))
    (Hres1 : C.fits32 (snd (reserved hd))) :
  header_at (header_bytes hd ++ rest) = hd
  /\ length (header_bytes hd) = 36%nat
  /\ skipn 36 (header_bytes hd ++ rest) = rest.
Proof.
  split; [ | split; reflexivity].
  rewrite StoreFacts.header_at_envelope.
  unfold C.fits32 in *.
  rewrite !CFacts.u32_small by assumption.
  destruct hd as [? ? ? ? ? ? ? [? ?]]. reflexivity.
Qed.

(** X9, witness: the header of the sample save. *)
Lemma header_round_trip_witness :
  header_at (header_bytes (header_at (envelope Sample.result16)) ++ [x00])
  = header_at (envelope Sample.result16).
Proof.
  apply (header_round_trip (header_at (envelope Sample.result16)) [x00]);
    apply CFacts.rd32_range.
Defined.

(** X7.  A saved snapshot loads again, in any later state of the store:
    when the decompressor gives back the payload, a pool buffer can be had
    and the core accepts the state, [LoadEmulatorState] on the buffer,
    length and bytes a save returned succeeds, hands the core exactly the
    payload that was saved with the recorded size, sets the input sequence
    back to its value at the time of the save, and returns its pool
    buffer. *)
Theorem save_load_round_trip
    (z : Zlib.Codec) (h h' : Host) (fr : Z) (w w1 w2 : World) (r : SaveResult)
    (temp : list byte)
    (Hs : SaveEmulatorState z h fr w = (Some r, w1))
    (Ht : state_save h (maxUncompressedSize_of (g_stateBufferPool w)) = Some temp)
    (Hseq : 0 <= g_currentInputSequence w < 2 ^ 32)
    (Hne : skipn 36 (envelope r) <> [])
    (Hinf : Zlib.inflate z (skipn 36 (envelope r))
            = Some (payload temp (maxUncompressedSize_of (g_stateBufferPool w))))
    (Hbuf : fst (getBuffer (malloc h') (g_stateBufferPool w2)) <> nullptr)
    (Hload : state_load h' (uncompressedSize (header_at (envelope r)))
               (payload temp (maxUncompressedSize_of (g_stateBufferPool w)))
             = true) :
  let P := payload temp (maxUncompressedSize_of (g_stateBufferPool w)) in
  let res := LoadEmulatorState z h' (buffer r) (envelope r) (len r) w2 in
  fst res = true
  /\ coreCommands (snd res)
     = coreCommands w2
       ++ [M64CMD_STATE_LOAD (uncompressedSize (header_at (envelope r))) P]
  /\ g_currentInputSequence (snd res) = g_currentInputSequence w
  /\ length (m_usedBuffers (g_stateBufferPool (snd res)))
     = length (m_usedBuffers (g_stateBufferPool w2)).
Proof.
  intros P res. subst P res.
  destruct (SaveEmulatorState_some z h fr w r w1 Hs)
    as (temp' & compressed & Ht' & Hd & Hl & Hb & Hlen & He).
  cbv zeta in Ht', Hd, He. rewrite Ht in Ht'. injection Ht' as <-.
  set (max := maxUncompressedSize_of (g_stateBufferPool w)) in *.
  rewrite He, StoreFacts.skipn_header_envelope in Hne, Hinf.
  assert (Hn : 0 < Z.of_nat (length compressed) <= 1024).
  { destruct compressed; [congruence | ]. cbn [length] in *. lia. }
  assert (Hcs : C.u32 (C.u32 (Z.of_nat (length compressed)))
                = Z.of_nat (length compressed)).
  { rewrite CFacts.u32_idem. apply CFacts.u32_small.
    change (2 ^ 32) with 4294967296. lia. }
  pose proof (PoolFacts.release_after_get (malloc h') (g_stateBufferPool w2) Hbuf)
    as (_ & HL & _).
  unfold LoadEmulatorState.
  apply Z.eqb_neq in Hb. rewrite Hb.
  rewrite Hlen, (StoreFacts.size_t_small (36 + Z.of_nat (length compressed)))
    by (change (2 ^ 33) with 8589934592; lia).
  assert (E0 : (36 + Z.of_nat (length compressed) <=? sizeof_RollbackStateHeader)
               = false)
    by (apply Z.leb_gt; unfold sizeof_RollbackStateHeader; lia).
  rewrite E0. cbn [orb].
  rewrite He in Hload |- *.
  rewrite StoreFacts.header_at_envelope in Hload |- *.
  cbn [magic version compressedSize uncompressedSize inputSequence] in Hload |- *.
  rewrite Hcs.
  change (C.u32 ROLLBACK_STATE_MAGIC =? ROLLBACK_STATE_MAGIC) with true.
  change (C.u32 ROLLBACK_STATE_VERSION =? ROLLBACK_STATE_VERSION) with true.
  cbn [negb].
  rewrite (StoreFacts.size_t_small
             (Z.of_nat (length compressed) + sizeof_RollbackStateHeader))
    by (unfold sizeof_RollbackStateHeader; change (2 ^ 33) with 8589934592; lia).
  assert (E1 : (36 + Z.of_nat (length compressed)
                <? Z.of_nat (length compressed) + sizeof_RollbackStateHeader)
               = false)
    by (apply Z.ltb_ge; unfold sizeof_RollbackStateHeader; lia).
  rewrite E1. rewrite StoreFacts.pool_after_metrics.
  destruct (getBuffer (malloc h') (g_stateBufferPool w2)) as [b pool] eqn:Eg.
  cbn [fst snd] in Hbuf, HL. apply Z.eqb_neq in Hbuf. rewrite Hbuf.
  change (Z.to_nat sizeof_RollbackStateHeader) with 36%nat.
  rewrite StoreFacts.skipn_header_envelope, Nat2Z.id, firstn_all.
  unfold DecompressData. rewrite Hinf.
  assert (E2 : (Z.of_nat (length (payload temp max))
                <=? C.u32 (C.u32 (actualUncompressedSize temp max))) = true).
  { apply Z.leb_le. rewrite CFacts.u32_idem. unfold payload.
    rewrite length_firstn.
    assert (0 <= C.u32 (actualUncompressedSize temp max))
      by (unfold C.u32; apply Z.mod_pos_bound; lia).
    lia. }
  rewrite E2, Hload. cbn [negb fst snd].
  cbn [coreCommands g_currentInputSequence g_stateBufferPool set_pool
       set_inputSequence DoCommand set_stateMetrics].
  repeat split; [apply CFacts.u32_small; exact Hseq | exact HL].
Qed.

(** X7, witness: the sample save, loaded in a fresh state of the store. *)
Lemma save_load_round_trip_witness :
  let res := LoadEmulatorState Sample.codec (Sample.host_saving Sample.saved16)
               (buffer Sample.result16) (envelope Sample.result16)
               (len Sample.result16) Sample.world1100 in
  fst res = true
  /\ coreCommands (snd res)
     = [M64CMD_STATE_LOAD 10 (firstn 10 Sample.saved16)].
Proof.
  assert (Hs : SaveEmulatorState Sample.codec (Sample.host_saving Sample.saved16)
                 7 Sample.world16 = (Some Sample.result16, snd Sample.save16))
    by (vm_compute; reflexivity).
  assert (Ht : state_save (Sample.host_saving Sample.saved16)
                 (maxUncompressedSize_of (g_stateBufferPool Sample.world16))
               = Some Sample.saved16) by reflexivity.
  assert (Hseq : 0 <= g_currentInputSequence Sample.world16 < 2 ^ 32)
    by (vm_compute; split; [discriminate | reflexivity]).
  assert (Hne : skipn 36 (envelope Sample.result16) <> [])
    by (vm_compute; discriminate).
  assert (Hinf : Zlib.inflate Sample.codec (skipn 36 (envelope Sample.result16))
                 = Some (payload Sample.saved16
                           (maxUncompressedSize_of
                              (g_stateBufferPool Sample.world16))))
    by (vm_compute; reflexivity).
  assert (Hbuf : fst (getBuffer (malloc (Sample.host_saving Sample.saved16))
                        (g_stateBufferPool Sample.world1100)) <> nullptr)
    by (vm_compute; discriminate).
  assert (Hload : state_load (Sample.host_saving Sample.saved16)
                    (uncompressedSize (header_at (envelope Sample.result16)))
                    (payload Sample.saved16
                       (maxUncompressedSize_of
                          (g_stateBufferPool Sample.world16))) = true)
    by reflexivity.
  pose proof (save_load_round_trip _ _ _ _ _ _ Sample.world1100 _ _
                Hs Ht Hseq Hne Hinf Hbuf Hload) as (H1 & H2 & _).
  split; [exact H1 | exact H2].
Defined.

End StoreMore.

(* ------------------------------------------------------------------ *)
(** ** More on the session *)

Module SessionMore.

Import Rollback.

(** The loop that adds the players touches the two handle fields only. *)
Lemma add_players_frame (g : GGPO) (n : nat) (i : Z) (s : RollbackNetplayImpl) :
  let s' := snd (add_players g n i s) in
  ggpoSession s' = ggpoSession s
  /\ localPlayer s' = localPlayer s
  /\ maxPlayers s' = maxPlayers s
  /\ initialized s' = initialized s
  /\ currentFrame s' = currentFrame s
  /\ currentInputSequence s' = currentInputSequence s
  /\ lastSavedFrameInputSequence s' = lastSavedFrameInputSequence s
  /\ rollbackJustOccurred s' = rollbackJustOccurred s
  /\ metrics s' = metrics s
  /\ saveStateFn s' = saveStateFn s
  /\ loadStateFn s' = loadStateFn s
  /\ freeStateFn s' = freeStateFn s
  /\ advanceFrameFn s' = advanceFrameFn s.
Proof.
  revert i s. induction n as [ | n IH]; intros i s; cbn [add_players].
  - cbn [snd]. repeat split.
  - destruct (ggpo_add_player g (ggpoSession s) (i + 1) (i + 1 =? localPlayer s))
      as [result handle].
    set (s1 := if i + 1 =? localPlayer s then set_local_handle handle s
               else set_remote_handle i handle s).
    assert (H1 : ggpoSession s1 = ggpoSession s
                 /\ localPlayer s1 = localPlayer s
                 /\ maxPlayers s1 = maxPlayers s
                 /\ initialized s1 = initialized s
                 /\ currentFrame s1 = currentFrame s
                 /\ currentInputSequence s1 = currentInputSequence s
                 /\ lastSavedFrameInputSequence s1 = lastSavedFrameInputSequence s
                 /\ rollbackJustOccurred s1 = rollbackJustOccurred s
                 /\ metrics s1 = metrics s
                 /\ saveStateFn s1 = saveStateFn s
                 /\ loadStateFn s1 = loadStateFn s
                 /\ freeStateFn s1 = freeStateFn s
                 /\ advanceFrameFn s1 = advanceFrameFn s).
    { unfold s1. destruct (i + 1 =? localPlayer s); repeat split. }
    destruct (result =? GGPO_OK).
    + specialize (IH (i + 1) s1). cbv zeta in IH.
      destruct H1 as (A1 & A2 & A3 & A4 & A5 & A6 & A7 & A8 & A9 & A10 & A11 & A12 & A13).
      destruct IH as (B1 & B2 & B3 & B4 & B5 & B6 & B7 & B8 & B9 & B10 & B11 & B12 & B13).
      repeat split; congruence.
    + cbn [snd]. exact H1.
Qed.

(** The loop succeeds exactly when GGPO accepts each of the [n] players
    after index [i]; a player is added as local when its number is
    [localPlayer]. *)
Lemma add_players_ok (g : GGPO) (n : nat) (i : Z) (s : RollbackNetplayImpl) :
  fst (add_players g n i s) = None <->
  (forall k, i < k <= i + Z.of_nat n ->
     fst (ggpo_add_player g (ggpoSession s) k (k =? localPlayer s)) = GGPO_OK).
Proof.
  revert i s. induction n as [ | n IH]; intros i s; cbn [add_players].
  - split; [intros _ k Hk; lia | reflexivity].
  - destruct (ggpo_add_player g (ggpoSession s) (i + 1) (i + 1 =? localPlayer s))
      as [result handle] eqn:Ea.
    set (s1 := if i + 1 =? localPlayer s then set_local_handle handle s
               else set_remote_handle i handle s).
    assert (H1 : ggpoSession s1 = ggpoSession s /\ localPlayer s1 = localPlayer s)
      by (unfold s1; destruct (i + 1 =? localPlayer s); split; reflexivity).
    destruct H1 as [Hs Hl].
    destruct (result =? GGPO_OK) eqn:Er.
    + rewrite (IH (i + 1) s1), Hs, Hl. apply Z.eqb_eq in Er.
      split; intros H k Hk.
      * destruct (Z.eq_dec k (i + 1)) as [-> | Hne].
        -- rewrite Ea. exact Er.
        -- apply H. lia.
      * apply H. lia.
    + cbn [fst]. split; [discriminate | ].
      intros H. specialize (H (i + 1)). rewrite Ea in H. cbn [fst] in H.
      apply Z.eqb_neq in Er. exfalso. apply Er, H. lia.
Qed.

(** The local handle after the loop. *)
Lemma add_players_local_handle (g : GGPO) (n : nat) (i : Z)
    (s : RollbackNetplayImpl) :
  fst (add_players g n i s) = None ->
  localPlayerHandle (snd (add_players g n i s))
  = if (i <? localPlayer s) && (localPlayer s <=? i + Z.of_nat n)
    then snd (ggpo_add_player g (ggpoSession s) (localPlayer s) true)
    else localPlayerHandle s.
Proof.
  revert i s. induction n as [ | n IH]; intros i s; cbn [add_players].
  - intros _. cbn [snd].
    destruct ((i <? localPlayer s) && (localPlayer s <=? i + Z.of_nat 0)) eqn:E;
      [ | reflexivity].
    apply andb_true_iff in E as [E1 E2].
    apply Z.ltb_lt in E1. apply Z.leb_le in E2. lia.
  - destruct (ggpo_add_player g (ggpoSession s) (i + 1) (i + 1 =? localPlayer s))
      as [result handle] eqn:Ea.
    destruct (result =? GGPO_OK) eqn:Er; [ | discriminate].
    destruct (i + 1 =? localPlayer s) eqn:El.
    + apply Z.eqb_eq in El. intros H.
      rewrite (IH (i + 1) (set_local_handle handle s) H).
      cbn [localPlayer ggpoSession localPlayerHandle set_local_handle].
      rewrite <- El in *. rewrite Ea. cbn [snd].
      replace (i + 1 <? i + 1) with false by (symmetry; apply Z.ltb_ge; lia).
      replace (i <? i + 1) with true by (symmetry; apply Z.ltb_lt; lia).
      replace (i + 1 <=? i + Z.of_nat (S n)) with true
        by (symmetry; apply Z.leb_le; lia).
      reflexivity.
    + apply Z.eqb_neq in El. intros H.
      rewrite (IH (i + 1) (set_remote_handle i handle s) H).
      cbn [localPlayer ggpoSession localPlayerHandle set_remote_handle].
      destruct (i <? localPlayer s) eqn:E1, (i + 1 <? localPlayer s) eqn:E2,
        (localPlayer s <=? i + 1 + Z.of_nat n) eqn:E3,
        (localPlayer s <=? i + Z.of_nat (S n)) eqn:E4; try reflexivity;
        exfalso;
        repeat match goal with
               | H : (_ <? _) = true |- _ => apply Z.ltb_lt in H
               | H : (_ <? _) = false |- _ => apply Z.ltb_ge in H
               | H : (_ <=? _) = true |- _ => apply Z.leb_le in H
               | H : (_ <=? _) = false |- _ => apply Z.leb_gt in H
               end; lia.
Qed.

Lemma Initialize_fresh
    (g : GGPO) (this : ptr) (s : RollbackNetplayImpl)
    (port player numPlayers frameDelay : Z)
    (Hi : initialized s = false) :
  let res := Initialize g this s nullptr port player numPlayers frameDelay in
  let ok := fst (fst (fst res)) in
  let s' := snd (fst (fst res)) in
  let start := ggpo_start_session g numPlayers ROLLBACK_INPUT_BYTES port in
  let handle := if (0 <? player) && (player <=? numPlayers)
                then snd (ggpo_add_player g (snd start) player true)
                else localPlayerHandle s in
  (ok = true <->
   fst start = GGPO_OK
   /\ (forall k, 0 < k <= numPlayers ->
       fst (ggpo_add_player g (snd start) k (k =? player)) = GGPO_OK)
   /\ ggpo_set_frame_delay g (snd start) handle frameDelay = GGPO_OK)
  /\ (if ok
      then initialized s' = true /\ snd (fst res) = this /\ snd res = []
           /\ currentFrame s' = 0 /\ ggpoSession s' = snd start
           /\ localPlayerHandle s' = handle
      else initialized s' = false /\ snd (fst res) = nullptr
           /\ exists msg, snd res = [msg])
  /\ currentInputSequence s' = currentInputSequence s
  /\ metrics s' = metrics s
  /\ localPlayer s' = player
  /\ maxPlayers s' = numPlayers.
Proof.
  intros res ok s' start handle. subst res ok s'.
  unfold Initialize. rewrite Hi. cbn [negb].
  change (nullptr =? nullptr) with true. cbn [negb].
  cbn [maxPlayers set_players]. fold start.
  destruct start as [result session] eqn:Es. cbn [fst snd] in *.
  destruct (result =? GGPO_OK) eqn:Er; cbn [negb].
  2:{ cbn. apply Z.eqb_neq in Er.
      split; [split; [discriminate | intros [H _]; contradiction] | ].
      repeat split; eauto. }
  apply Z.eqb_eq in Er.
  set (s0 := set_session session (set_players player numPlayers s)).
  pose proof (add_players_frame g (Z.to_nat numPlayers) 0 s0) as F.
  pose proof (add_players_ok g (Z.to_nat numPlayers) 0 s0) as Hok.
  pose proof (add_players_local_handle g (Z.to_nat numPlayers) 0 s0) as Hh.
  cbv zeta in F.
  destruct F as (F1 & F2 & F3 & F4 & F5 & F6 & F7 & F8 & F9 & _).
  change (ggpoSession s0) with session in *.
  change (localPlayer s0) with player in *.
  change (localPlayerHandle s0) with (localPlayerHandle s) in *.
  change (initialized s0) with (initialized s) in *.
  change (currentInputSequence s0) with (currentInputSequence s) in *.
  change (metrics s0) with (metrics s) in *.
  change (maxPlayers s0) with numPlayers in *.
  assert (Hrange : forall k, (0 < k <= 0 + Z.of_nat (Z.to_nat numPlayers))
                             <-> 0 < k <= numPlayers) by (intros k; lia).
  assert (Hcond : ((0 <? player)
                   && (player <=? 0 + Z.of_nat (Z.to_nat numPlayers)))
                  = ((0 <? player) && (player <=? numPlayers))).
  { destruct (0 <? player) eqn:E; [ | reflexivity]. apply Z.ltb_lt in E.
    cbn [andb]. destruct (player <=? numPlayers) eqn:E2;
      [apply Z.leb_le in E2; apply Z.leb_le | apply Z.leb_gt in E2; apply Z.leb_gt];
      lia. }
  rewrite Hcond in Hh.
  destruct (add_players g (Z.to_nat numPlayers) 0 s0) as [[i | ] s1] eqn:Ea;
    cbn [fst snd] in *.
  - cbn. split; [split | repeat split; eauto; congruence].
    + discriminate.
    + intros (_ & H & _). destruct Hok as [_ Hok].
      assert (@Some Z i = None) by (apply Hok; intros k Hk; apply H, Hrange, Hk).
      discriminate.
  - specialize (Hh eq_refl). rewrite F1, Hh. fold handle.
    destruct Hok as [Hok _]. specialize (Hok eq_refl).
    destruct (ggpo_set_frame_delay g session handle frameDelay =? GGPO_OK) eqn:Ed;
      cbn [negb].
    + apply Z.eqb_eq in Ed. cbn.
      split; [split | repeat split; eauto; congruence].
      * intros _. repeat split; [exact Er | | exact Ed].
        intros k Hk. apply Hok, Hrange, Hk.
      * reflexivity.
    + apply Z.eqb_neq in Ed. cbn.
      split; [split | repeat split; eauto; congruence].
      * discriminate.
      * intros (_ & _ & H). contradiction.
Qed.



(** X11.  After [Shutdown] the object refuses input: a second [Shutdown]
    changes nothing, [AddLocalInput] and [GetSynchronizedInputs] return
    [false] without reaching GGPO, and the input sequence and the metrics
    are those from before the shutdown.  The static pointer is cleared
    only when it pointed to this object. *)
Theorem Shutdown_closes
    (this : ptr) (s : RollbackNetplayImpl) (instancePtr : ptr)
    (submit : RollbackNetplayImpl -> GGPOErrorCode) (sync : GGPOErrorCode) :
  let s' := fst (Shutdown this s instancePtr) in
  let inst' := snd (Shutdown this s instancePtr) in
  Shutdown this s' inst' = (s', inst')
  /\ AddLocalInput submit s' = (false, s')
  /\ GetSynchronizedInputs sync s' = false
  /\ currentInputSequence s' = currentInputSequence s
  /\ metrics s' = metrics s
  /\ (inst' = instancePtr \/ (inst' = nullptr /\ instancePtr = this)).
Proof.
  cbv zeta. unfold Shutdown.
  destruct (initialized s) eqn:Ei; cbn [andb].
  - destruct (ggpoSession s =? nullptr) eqn:Es; cbn [negb fst snd].
    + rewrite Ei, Es. cbn [andb negb].
      unfold AddLocalInput, GetSynchronizedInputs. rewrite Ei, Es. cbn.
      repeat split; auto.
    + cbn. unfold AddLocalInput, GetSynchronizedInputs. cbn.
      repeat split; auto.
      destruct (instancePtr =? this) eqn:E; [right | left; reflexivity].
      apply Z.eqb_eq in E. split; [reflexivity | exact E].
  - cbn [fst snd]. rewrite Ei. cbn [andb].
    unfold AddLocalInput, GetSynchronizedInputs. rewrite Ei. cbn.
    repeat split; auto.
Qed.

Lemma errors_fold (msgs : list string) (w : Netplay.World) :
  Netplay.errors (fold_left (fun w msg => Netplay.CoreSetError msg w) msgs w)
  = Netplay.errors w ++ msgs.
Proof.
  revert w. induction msgs as [ | m msgs IH]; intros w; cbn [fold_left].
  - symmetry. apply app_nil_r.
  - rewrite IH. cbn. rewrite <- app_assoc. reflexivity.
Qed.

Lemma statics_fold (msgs : list string) (w : Netplay.World) :
  let w' := fold_left (fun w msg => Netplay.CoreSetError msg w) msgs w in
  Netplay.l_HasInitNetplay w' = Netplay.l_HasInitNetplay w
  /\ Netplay.l_HasInitRollbackNetplay w' = Netplay.l_HasInitRollbackNetplay w
  /\ Netplay.l_RollbackNetplay w' = Netplay.l_RollbackNetplay w
  /\ Netplay.l_RollbackLocalPlayer w' = Netplay.l_RollbackLocalPlayer w
  /\ Netplay.l_RollbackMaxPlayers w' = Netplay.l_RollbackMaxPlayers w
  /\ Netplay.instancePtr w' = Netplay.instancePtr w
  /\ Netplay.g_currentInputSequence w' = Netplay.g_currentInputSequence w
  /\ Netplay.g_stateMetrics w' = Netplay.g_stateMetrics w
  /\ Netplay.g_stateBufferPool w' = Netplay.g_stateBufferPool w
  /\ Netplay.fallbackRng w' = Netplay.fallbackRng w
  /\ Netplay.coreCommands w' = Netplay.coreCommands w.
Proof.
  revert w. induction msgs as [ | m msgs IH]; intros w; cbn [fold_left].
  - cbv zeta. repeat split.
  - specialize (IH (Netplay.CoreSetError m w)). cbv zeta in IH |- *.
    destruct IH as (A & B & C0 & D & E & F & G & H & I & J & K).
    rewrite A, B, C0, D, E, F, G, H, I, J, K. cbn. repeat split.
Qed.

(** X12.  [CoreInitRollbackNetplay] never fails silently and never sets
    the flag on a failure: when it returns [false] the flag
    [l_HasInitRollbackNetplay] is as before, at least one message was
    handed to [CoreSetError] and the last of them is one of the three
    texts of this function; when it returns [true] the flag is set and no
    message was reported.  Neither outcome touches standard netplay, the
    buffer pool, the input sequence or the commands sent to the core. *)
Theorem CoreInitRollbackNetplay_reports
    (h : Netplay.Host) (port player maxPlayers : Z) (w : Netplay.World) :
  let res := Netplay.CoreInitRollbackNetplay h port player maxPlayers w in
  let w' := snd res in
  (if fst res
   then Netplay.l_HasInitRollbackNetplay w' = true
        /\ Netplay.errors w' = Netplay.errors w
   else Netplay.l_HasInitRollbackNetplay w' = Netplay.l_HasInitRollbackNetplay w
        /\ exists msgs last,
             Netplay.errors w' = Netplay.errors w ++ msgs ++ [last]
             /\ In last
                  ["Cannot initialize rollback netplay when standard netplay is active";
                   "Invalid player number or max players for rollback netplay";
                   "Failed to initialize rollback netplay"]%string)
  /\ Netplay.l_HasInitNetplay w' = Netplay.l_HasInitNetplay w
  /\ Netplay.g_stateBufferPool w' = Netplay.g_stateBufferPool w
  /\ Netplay.g_currentInputSequence w' = Netplay.g_currentInputSequence w
  /\ Netplay.coreCommands w' = Netplay.coreCommands w.
Proof.
  cbv zeta. unfold Netplay.CoreInitRollbackNetplay.
  destruct (Netplay.l_HasInitNetplay w) eqn:En.
  { cbn. rewrite En. repeat split; auto.
    exists [], "Cannot initialize rollback netplay when standard netplay is active"%string.
    split; [reflexivity | left; reflexivity]. }
  destruct (Netplay.l_HasInitRollbackNetplay w) eqn:Er.
  { cbn. rewrite En, Er. repeat split; auto. }
  destruct ((player <? 1) || (4 <? player) || (maxPlayers <? 2) || (4 <? maxPlayers)).
  { cbn. rewrite En, Er. repeat split; auto.
    exists [], "Invalid player number or max players for rollback netplay"%string.
    split; [reflexivity | right; left; reflexivity]. }
  set (w1 := Netplay.set_playerInfo player maxPlayers w).
  set (obj := match Netplay.l_RollbackNetplay w1 with
              | Some obj => obj
              | None => (Netplay.new_object h, new_RollbackNetplayImpl)
              end).
  destruct obj as [this s0].
  destruct (Initialize (Netplay.ggpo h) this (SetCallbacks true true true true s0)
              (Netplay.instancePtr w1) port player maxPlayers
              (Netplay.Netplay_RollbackFrameDelay h))
    as [[[ok s1] inst] msgs] eqn:EI.
  pose proof (statics_fold msgs w1) as F. cbv zeta in F.
  pose proof (errors_fold msgs w1) as Fe.
  destruct F as (A & B & C0 & D & E & F & G & H & I & J & K).
  destruct ok; cbn [negb fst snd].
  - (* success: [Initialize] reports nothing when it returns true *)
    assert (Hm : msgs = []).
    { unfold Initialize in EI.
      destruct (initialized (SetCallbacks true true true true s0));
        [apply (f_equal snd) in EI; symmetry; exact EI | ].
      destruct (negb (Netplay.instancePtr w1 =? nullptr)); [discriminate EI | ].
      destruct (ggpo_start_session _ _ _ _) as [r sess].
      destruct (negb (r =? GGPO_OK)); [discriminate EI | ].
      destruct (add_players _ _ _ _) as [[i | ] s2]; [discriminate EI | ].
      destruct (negb (_ =? GGPO_OK)); [discriminate EI | ].
      apply (f_equal snd) in EI. symmetry. exact EI. }
    subst msgs. cbn in *. rewrite En. repeat split; auto.
  - cbn. rewrite A, B, G, I, K, Fe. cbn. rewrite En, Er.
    repeat split; auto.
    exists msgs, "Failed to initialize rollback netplay"%string.
    split; [symmetry; apply app_assoc | right; right; left; reflexivity].
Qed.

(** X13.  A session started from scratch and shut down again leaves the
    statics as they were, except for the player numbers: after
    [CoreShutdownRollbackNetplay] the flag is clear, the object is gone
    and the static instance pointer is null, while
    [CoreGetNetplayPlayerIndex] goes on answering the index of the player
    the session was started for.  Stated for a session pointer from GGPO
    that is not null. *)
Theorem init_shutdown_cycle
    (h : Netplay.Host) (port player maxPlayers : Z) (w : Netplay.World)
    (Hn : Netplay.l_HasInitNetplay w = false)
    (Hr : Netplay.l_HasInitRollbackNetplay w = false)
    (Ho : Netplay.l_RollbackNetplay w = None)
    (Hp : Netplay.instancePtr w = nullptr)
    (Hs : snd (ggpo_start_session (Netplay.ggpo h) maxPlayers
                 ROLLBACK_INPUT_BYTES port) <> nullptr)
    (Hok : fst (Netplay.CoreInitRollbackNetplay h port player maxPlayers w) = true) :
  let w1 := snd (Netplay.CoreInitRollbackNetplay h port player maxPlayers w) in
  let w2 := snd (Netplay.CoreShutdownRollbackNetplay w1) in
  w2 = Netplay.set_playerInfo player maxPlayers w
  /\ Netplay.CoreHasInitRollbackNetplay w2 = false
  /\ Netplay.CoreGetNetplayPlayerIndex w2 = player - 1
  /\ 1 <= player <= 4.
Proof.
  cbv zeta. unfold Netplay.CoreInitRollbackNetplay in *.
  rewrite Hn, Hr in *.
  destruct ((player <? 1) || (4 <? player) || (maxPlayers <? 2) || (4 <? maxPlayers))
    eqn:Ev; [discriminate Hok | ].
  assert (Hrange : 1 <= player <= 4).
  { apply orb_false_iff in Ev as [Ev _]. apply orb_false_iff in Ev as [Ev _].
    apply orb_false_iff in Ev as [E1 E2].
    apply Z.ltb_ge in E1. apply Z.ltb_ge in E2. lia. }
  cbn [Netplay.l_RollbackNetplay Netplay.set_playerInfo Netplay.instancePtr] in *.
  rewrite Ho, Hp in *.
  set (s0 := SetCallbacks true true true true new_RollbackNetplayImpl) in *.
  pose proof (Initialize_fresh (Netplay.ggpo h) (Netplay.new_object h) s0
                port player maxPlayers (Netplay.Netplay_RollbackFrameDelay h)
                eq_refl) as O.
  cbv zeta in O.
  destruct (Initialize (Netplay.ggpo h) (Netplay.new_object h) s0 nullptr port
              player maxPlayers (Netplay.Netplay_RollbackFrameDelay h))
    as [[[ok s1] inst] msgs] eqn:EI.
  cbn [fst snd] in O.
  destruct ok; cbn [negb fst snd] in *; [ | discriminate Hok].
  destruct O as (_ & (Oi & Ot & Om & _ & Os & _) & _).
  subst msgs inst. cbn [fold_left].
  unfold Netplay.CoreShutdownRollbackNetplay.
  cbn [Netplay.l_RollbackNetplay Netplay.set_session
       Netplay.l_HasInitRollbackNetplay negb Netplay.instancePtr].
  unfold Netplay.delete_RollbackNetplay, Shutdown.
  rewrite Oi, Os. apply Z.eqb_neq in Hs. rewrite Hs.
  cbn [andb negb fst snd]. rewrite Z.eqb_refl.
  cbn [initialized set_running andb fst snd].
  split; [ | split; [reflexivity | split; [ | exact Hrange]]].
  - clear EI Hok Ev Hs. destruct w.
    cbn in Hn, Hr, Ho, Hp |- *. subst. rewrite Z.eqb_refl. reflexivity.
  - unfold Netplay.CoreGetNetplayPlayerIndex. cbn.
    destruct (0 <? player) eqn:E; [reflexivity | apply Z.ltb_ge in E; lia].
Qed.

(** X13, witness: the sample host, player 1 of 2. *)
Lemma init_shutdown_cycle_witness :
  snd (Netplay.CoreShutdownRollbackNetplay Sample.world_running)
  = Netplay.set_playerInfo 1 2 (Netplay.initial_World 0x1000).
Proof.
  assert (Hs : snd (ggpo_start_session
                      (Netplay.ggpo (Sample.host_saving Sample.saved16)) 2
                      ROLLBACK_INPUT_BYTES 7000) <> nullptr)
    by (vm_compute; discriminate).
  assert (Hok : fst (Netplay.CoreInitRollbackNetplay
                       (Sample.host_saving Sample.saved16) 7000 1 2
                       (Netplay.initial_World 0x1000)) = true)
    by reflexivity.
  exact (proj1 (init_shutdown_cycle (Sample.host_saving Sample.saved16)
                  7000 1 2 (Netplay.initial_World 0x1000)
                  eq_refl eq_refl eq_refl eq_refl Hs Hok)).
Defined.

Lemma UpdateMetrics_counters (stats : option NetworkStats) (event : GGPOEvent)
    (m : RollbackMetrics) :
  let m' := UpdateMetrics stats event m in
  (resets_metrics event = true
   /\ rollbackFrames m' = 0 /\ totalRollbacks m' = 0
   /\ maxRollbackFrames m' = 0 /\ avgRollbackFrames m' = (0, 1))
  \/ (rollbackFrames m' = rollbackFrames m
      /\ totalRollbacks m' = totalRollbacks m
      /\ maxRollbackFrames m' = maxRollbackFrames m
      /\ avgRollbackFrames m' = avgRollbackFrames m).
Proof.
  cbv zeta. unfold UpdateMetrics.
  destruct event, stats; cbn; auto 10.
Qed.

Lemma int_add_some (a b c : Z) : C.int_add a b = Some c -> c = a + b.
Proof.
  unfold C.int_add. destruct (C.in_int (a + b)); [ | discriminate].
  intros H. injection H as <-. reflexivity.
Qed.

Lemma OnEvent_consistent (stats : option NetworkStats) (event : GGPOEvent)
    (s s' : RollbackNetplayImpl) :
  SessionInv.consistent (metrics s) ->
  OnEvent stats event s = Some s' ->
  SessionInv.consistent (metrics s').
Proof.
  intros Hc H. unfold OnEvent in H.
  pose proof (UpdateMetrics_counters stats event (metrics s)) as U.
  cbv zeta in U.
  set (m := UpdateMetrics stats event (metrics s)) in *.
  assert (Hm : SessionInv.consistent m).
  { unfold SessionInv.consistent in *.
    destruct U as [(_ & A & B & C0 & D) | (A & B & C0 & D)];
      rewrite A, B, C0, D; [cbn; repeat split; lia | exact Hc]. }
  clear U Hc.
  assert (Hkeep : forall flag, SessionInv.consistent (metrics (set_metrics flag m s)))
    by (intros flag; exact Hm).
  destruct event as [ | | | | | fa | | ];
    try (injection H as <-; apply Hkeep).
  destruct (0 <? fa) eqn:Ef; [ | injection H as <-; apply Hkeep].
  apply Z.ltb_lt in Ef.
  destruct (C.int_add (rollbackFrames m) fa) as [sum | ] eqn:E1; [ | discriminate].
  destruct (C.int_add (totalRollbacks m) 1) as [count | ] eqn:E2; [ | discriminate].
  injection H as <-. apply int_add_some in E1, E2. subst sum count.
  unfold SessionInv.consistent in *. cbn.
  destruct Hm as ((A1 & A2) & (B1 & B2) & C0 & D).
  assert (Hz : (totalRollbacks m + 1 =? 0) = false) by (apply Z.eqb_neq; lia).
  rewrite Hz.
  destruct (maxRollbackFrames m <? fa) eqn:Em;
    [apply Z.ltb_lt in Em | apply Z.ltb_ge in Em];
    repeat split; try lia; nia.
Qed.

(** X14.  The rollback counters stay consistent over every run of events:
    starting from consistent metrics (those of a new object are), after
    any sequence of events the number of rollbacks is at most the number
    of frames rolled back, the maximum is at most that number too, the
    frames rolled back are at most maximum times count, and the average
    is the pair (frames, count) as soon as one rollback was counted and is
    0 before. *)
Theorem metrics_stay_consistent
    (evs : list (GGPOEvent * option NetworkStats)) (s s' : RollbackNetplayImpl)
    (Hc : SessionInv.consistent (metrics s))
    (Hrun : process_events evs s = Some s') :
  SessionInv.consistent (metrics s')
  /\ SessionInv.consistent (metrics new_RollbackNetplayImpl).
Proof.
  split; [ | cbn; unfold SessionInv.consistent; cbn; repeat split; lia].
  revert s Hc Hrun. induction evs as [ | [event stats] evs IH]; intros s Hc Hrun.
  - injection Hrun as <-. exact Hc.
  - cbn [process_events OnEvent_Callback] in Hrun.
    destruct (OnEvent stats event s) as [s1 | ] eqn:E; [ | discriminate].
    apply (IH s1); [ | exact Hrun].
    exact (OnEvent_consistent stats event s s1 Hc E).
Qed.

(** X14, witness: the three sample events on a new object; two rollbacks
    of 3 and 2 frames. *)
Lemma metrics_stay_consistent_witness :
  SessionInv.consistent (metrics Sample.after_events3)
  /\ rollbackFrames (metrics Sample.after_events3) = 5
  /\ totalRollbacks (metrics Sample.after_events3) = 2.
Proof.
  assert (Hc : SessionInv.consistent (metrics new_RollbackNetplayImpl))
    by (unfold SessionInv.consistent; cbn; repeat split; lia).
  assert (Hrun : process_events Sample.events3 new_RollbackNetplayImpl
                 = Some Sample.after_events3) by reflexivity.
  split; [ | split; reflexivity].
  exact (proj1 (metrics_stay_consistent Sample.events3 new_RollbackNetplayImpl
                  Sample.after_events3 Hc Hrun)).
Defined.

(** X15.  The flag [rollbackJustOccurred] is raised by a time-sync event
    with a positive [frames_ahead] and by nothing else, stays up until it
    is read, and is read once: [RollbackJustOccurred] returns it and
    clears it, so a second read returns [false]; reading changes no
    metric. *)
Theorem rollback_flag_read_once
    (stats : option NetworkStats) (event : GGPOEvent)
    (s s' : RollbackNetplayImpl)
    (H : OnEvent stats event s = Some s') :
  fst (RollbackJustOccurred s')
  = (SessionInv.signals_rollback event || rollbackJustOccurred s)
  /\ fst (RollbackJustOccurred (snd (RollbackJustOccurred s'))) = false
  /\ metrics (snd (RollbackJustOccurred s')) = metrics s'
  /\ currentInputSequence (snd (RollbackJustOccurred s')) = currentInputSequence s'.
Proof.
  unfold OnEvent in H.
  destruct event as [ | | | | | fa | | ];
    try (injection H as <-; cbn; auto).
  cbn [SessionInv.signals_rollback].
  destruct (0 <? fa) eqn:Ef; [ | injection H as <-; cbn; auto].
  destruct (C.int_add _ fa); [ | discriminate].
  destruct (C.int_add _ 1); [ | discriminate].
  injection H as <-. cbn. auto.
Qed.

(** X15, witness: a time-sync event three frames ahead on a new object. *)
Lemma rollback_flag_read_once_witness :
  exists s',
    OnEvent None (GGPO_EVENTCODE_TIMESYNC 3) new_RollbackNetplayImpl = Some s'
    /\ fst (RollbackJustOccurred s') = true
    /\ fst (RollbackJustOccurred (snd (RollbackJustOccurred s'))) = false.
Proof.
  eexists. split; [reflexivity | ].
  split.
  - exact (proj1 (rollback_flag_read_once None (GGPO_EVENTCODE_TIMESYNC 3)
                    new_RollbackNetplayImpl _ eq_refl)).
  - reflexivity.
Defined.

End SessionMore.

(* ------------------------------------------------------------------ *)
(** ** More facts about the controller records *)

Module InputMore.

Import Emulation.

Lemma length_memcpy (dst src : list byte) (off : nat) :
  (off + length src <= length dst)%nat ->
  length (memcpy dst off src) = length dst.
Proof.
  intros H. unfold memcpy.
  rewrite !length_app, length_firstn, length_skipn. lia.
Qed.

Lemma nth_memcpy_outside (dst src : list byte) (off k : nat) :
  (off + length src <= length dst)%nat ->
  (k < off \/ off + length src <= k)%nat ->
  nth k (memcpy dst off src) x00 = nth k dst x00.
Proof.
  intros H Hk. unfold memcpy.
  assert (Hf : length (firstn off dst) = off) by (rewrite length_firstn; lia).
  destruct Hk as [Hk | Hk].
  - rewrite app_nth1 by lia. rewrite nth_firstn.
    apply Nat.ltb_lt in Hk. rewrite Hk. reflexivity.
  - rewrite app_nth2 by lia. rewrite Hf.
    rewrite app_nth2 by lia. rewrite nth_skipn. f_equal. lia.
Qed.

Lemma bytes_at_memcpy (dst src : list byte) (off : nat) :
  (off <= length dst)%nat ->
  bytes_at (memcpy dst off src) off (length src) = src.
Proof.
  intros H. unfold bytes_at.
  apply (nth_ext _ _ x00 x00).
  - rewrite length_map, length_seq. reflexivity.
  - intros k Hk. rewrite length_map, length_seq in Hk.
    rewrite (nth_indep _ x00 (nth (off + 0) (memcpy dst off src) x00))
      by (rewrite length_map, length_seq; exact Hk).
    rewrite (map_nth (fun k => nth (off + k) (memcpy dst off src) x00)).
    rewrite seq_nth by exact Hk. cbn [Nat.add].
    apply InputFacts.nth_memcpy; assumption.
Qed.

Lemma length_ControllerInput_bytes (i : ControllerInput) :
  length (ControllerInput_bytes i) = 8%nat.
Proof. reflexivity. Qed.

Lemma byte_small (x : Z) : 0 <= x < 256 -> C.byte_val (C.byte_of x) = x.
Proof.
  intros H. rewrite CFacts.byte_val_byte_of. apply Z.mod_small. exact H.
Qed.

Lemma ControllerInput_at_bytes (i : ControllerInput) (dst : list byte)
    (off : nat) :
  0 <= buttons i < 2 ^ 16 ->
  -128 <= stick_x i <= 127 -> -128 <= stick_y i <= 127 ->
  0 <= trigger_r i < 256 -> 0 <= trigger_l i < 256 ->
  0 <= fst (reserved i) < 256 -> 0 <= snd (reserved i) < 256 ->
  (off <= length dst)%nat ->
  ControllerInput_at (memcpy dst off (ControllerInput_bytes i)) off = i.
Proof.
  intros Hb Hx Hy Hr Hl H6 H7 Hoff.
  unfold ControllerInput_at, C.rd16, C.byte_at.
  rewrite <- (Nat.add_0_r off) at 1.
  rewrite !InputFacts.nth_memcpy by (try exact Hoff; cbn; lia).
  unfold ControllerInput_bytes, C.le16. cbn [app nth].
  rewrite !InputFacts.to_int8_byte by assumption.
  rewrite (byte_small (trigger_r i)), (byte_small (trigger_l i)),
    (byte_small (fst (reserved i))), (byte_small (snd (reserved i)))
    by assumption.
  rewrite !CFacts.byte_val_byte_of, Z.shiftr_div_pow2 by lia.
  replace (buttons i mod 256 + 2 ^ 8 * (buttons i / 2 ^ 8 mod 256))
    with (buttons i)
    by (change (2 ^ 16) with 65536 in Hb; change (2 ^ 8) with 256;
        Z.div_mod_to_equations; lia).
  destruct i as [b x y r l [r6 r7]]. reflexivity.
Qed.

(** X16.  Packing a controller record into a buffer and reading it back
    gives the record again, for every record whose fields fit their C
    types (16-bit buttons, signed 8-bit stick axes, unsigned 8-bit
    triggers and reserved bytes); the copy writes the eight bytes of the
    slot and no other byte of the buffer. *)
Theorem record_round_trip (i : ControllerInput) (dst : list byte) (off : nat)
    (Hb : 0 <= buttons i < 2 ^ 16)
    (Hx : -128 <= stick_x i <= 127) (Hy : -128 <= stick_y i <= 127)
    (Hr : 0 <= trigger_r i < 256) (Hl : 0 <= trigger_l i < 256)
    (H6 : 0 <= fst (reserved i) < 256) (H7 : 0 <= snd (reserved i) < 256)
    (Hoff : (off + 8 <= length dst)%nat) :
  ControllerInput_at (memcpy dst off (ControllerInput_bytes i)) off = i
  /\ length (memcpy dst off (ControllerInput_bytes i)) = length dst
  /\ (forall k, (k < off \/ off + 8 <= k)%nat ->
      nth k (memcpy dst off (ControllerInput_bytes i)) x00 = nth k dst x00).
Proof.
  split; [apply ControllerInput_at_bytes; try assumption; lia | ].
  split; [apply length_memcpy; cbn; lia | ].
  intros k Hk. apply nth_memcpy_outside; cbn; lia.
Qed.

(** X16, witness: the record of the sample controller in the slot of
    player 2. *)
Lemma record_round_trip_witness :
  ControllerInput_at
    (memcpy (repeat x00 128) 32
       (ControllerInput_bytes (local_input Sample.api_full 0))) 32
  = local_input Sample.api_full 0.
Proof.
  assert (Hb : 0 <= buttons (local_input Sample.api_full 0) < 2 ^ 16)
    by (vm_compute; split; [discriminate | reflexivity]).
  assert (Hx : -128 <= stick_x (local_input Sample.api_full 0) <= 127)
    by (vm_compute; split; discriminate).
  assert (Hy : -128 <= stick_y (local_input Sample.api_full 0) <= 127)
    by (vm_compute; split; discriminate).
  assert (Hr : 0 <= trigger_r (local_input Sample.api_full 0) < 256)
    by (vm_compute; split; [discriminate | reflexivity]).
  assert (Hl : 0 <= trigger_l (local_input Sample.api_full 0) < 256)
    by (vm_compute; split; [discriminate | reflexivity]).
  assert (H6 : 0 <= fst (reserved (local_input Sample.api_full 0)) < 256)
    by (vm_compute; split; [discriminate | reflexivity]).
  assert (H7 : 0 <= snd (reserved (local_input Sample.api_full 0)) < 256)
    by (vm_compute; split; [discriminate | reflexivity]).
  assert (Hoff : (32 + 8 <= length (repeat x00 128))%nat)
    by (vm_compute; repeat constructor).
  exact (proj1 (record_round_trip _ _ 32%nat Hb Hx Hy Hr Hl H6 H7 Hoff)).
Defined.

Lemma player_index_range (w : Netplay.World) :
  Netplay.l_RollbackLocalPlayer w <= 4 ->
  0 <= Netplay.CoreGetNetplayPlayerIndex w < 4.
Proof.
  intros H. unfold Netplay.CoreGetNetplayPlayerIndex.
  destruct (0 <? Netplay.l_RollbackLocalPlayer w) eqn:E;
    [apply Z.ltb_lt in E | apply Z.ltb_ge in E]; lia.
Qed.

(** X17.  [GetControllerInputs] writes the eight bytes of the local
    player's slot, at offset 32 times the player index, and nothing else:
    the buffer keeps its length, the slot holds the packed record of the
    controller read, every byte outside the slot is as it was found, and
    with the function table as this file defines it (no [GetStatus]) the
    slot is all zero. *)
Theorem GetControllerInputs_fills_one_slot
    (api : Input_api) (w : Netplay.World) (data : list byte)
    (Hlen : length data = 128%nat)
    (Hp : Netplay.l_RollbackLocalPlayer w <= 4) :
  let p := Netplay.CoreGetNetplayPlayerIndex w in
  let off := Z.to_nat (p * ROLLBACK_INPUT_BYTES) in
  exists data',
    GetControllerInputs api w (Some data) = Some data'
    /\ length data' = 128%nat
    /\ bytes_at data' off 8 = ControllerInput_bytes (local_input api p)
    /\ (forall k, (k < off \/ off + 8 <= k)%nat ->
        nth k data' x00 = nth k data x00)
    /\ (GetStatus api = None -> bytes_at data' off 8 = repeat x00 8).
Proof.
  intros p off. pose proof (player_index_range w Hp) as Hr. fold p in Hr.
  assert (Hoff : (off + 8 <= length data)%nat).
  { unfold off, ROLLBACK_INPUT_BYTES. rewrite Hlen. lia. }
  eexists. split; [reflexivity | ]. fold p. fold off.
  split; [rewrite length_memcpy; [exact Hlen | cbn; lia] | ].
  assert (Hslot : bytes_at (memcpy data off (ControllerInput_bytes (local_input api p)))
                    off 8 = ControllerInput_bytes (local_input api p)).
  { change 8%nat with (length (ControllerInput_bytes (local_input api p))).
    apply bytes_at_memcpy. lia. }
  split; [exact Hslot | ].
  split; [intros k Hk; apply nth_memcpy_outside; cbn; lia | ].
  intros Hn. rewrite Hslot. unfold local_input. rewrite Hn. reflexivity.
Qed.

(** X17, witness: the running sample session is for player 1, whose slot
    is at offset 0. *)
Lemma GetControllerInputs_fills_one_slot_witness :
  exists data',
    GetControllerInputs Sample.api_full Sample.world_running
      (Some (repeat x00 128)) = Some data'
    /\ length data' = 128%nat
    /\ bytes_at data' 0 8
       = ControllerInput_bytes (local_input Sample.api_full 0).
Proof.
  assert (Hlen : length (repeat x00 128) = 128%nat) by reflexivity.
  assert (Hp : Netplay.l_RollbackLocalPlayer Sample.world_running <= 4)
    by (vm_compute; discriminate).
  destruct (GetControllerInputs_fills_one_slot Sample.api_full
              Sample.world_running (repeat x00 128) Hlen Hp)
    as (data' & H1 & H2 & H3 & _).
  exists data'. split; [exact H1 | split; [exact H2 | exact H3]].
Defined.

(** X18.  [ApplyControllerInputs] for player index [p] touches controller
    [p + 1] only and the slot of that player in [g_lastInputs] only: an
    index outside 0..3 does nothing at all; otherwise every write to the
    emulator names controller [p + 1], [g_lastInputs] keeps its length,
    its slot at offset 32 p becomes a copy of the eight bytes of the
    record applied, and its other bytes stay. *)
Theorem ApplyControllerInputs_one_controller
    (api : Input_api) (data : list byte) (p : Z) (last : list byte)
    (Hlast : length last = 128%nat) :
  let res := ApplyControllerInputs api (Some data) p last in
  let off := Z.to_nat (p * ROLLBACK_INPUT_BYTES) in
  (p < 0 \/ 4 <= p -> res = ([], last))
  /\ (forall c, In c (fst res) ->
      (exists b, c = Call_SetButtonState (p + 1) b)
      \/ (exists axis v, c = Call_SetAxisValue (p + 1) axis v))
  /\ length (snd res) = 128%nat
  /\ (0 <= p < 4 ->
      bytes_at (snd res) off 8 = bytes_at data off 8
      /\ forall k, (k < off \/ off + 8 <= k)%nat ->
         nth k (snd res) x00 = nth k last x00).
Proof.
  intros res off. subst res. unfold ApplyControllerInputs.
  destruct ((p <? 0) || (4 <=? p)) eqn:E.
  - cbn [fst snd]. split; [reflexivity | ].
    split; [intros c [] | ]. split; [exact Hlast | ].
    intros Hp. apply orb_true_iff in E as [E | E];
      [apply Z.ltb_lt in E | apply Z.leb_le in E]; lia.
  - apply orb_false_iff in E as [E1 E2].
    apply Z.ltb_ge in E1. apply Z.leb_gt in E2.
    cbn [fst snd]. fold off.
    assert (Hoff : (off + 8 <= length last)%nat).
    { unfold off, ROLLBACK_INPUT_BYTES. rewrite Hlast. lia. }
    assert (Hl8 : length (bytes_at data off sizeof_ControllerInput) = 8%nat)
      by (unfold bytes_at; rewrite length_map, length_seq; reflexivity).
    split; [intros [H | H]; lia | ].
    split.
    { intros c Hc. apply in_app_or in Hc as [Hc | Hc].
      - destruct (SetButtonState api); [ | destruct Hc].
        destruct Hc as [<- | []]. left. eexists. reflexivity.
      - destruct (SetAxisValue api); [ | destruct Hc].
        destruct Hc as [<- | [<- | []]]; right; eexists; eexists; reflexivity. }
    split; [rewrite length_memcpy; [exact Hlast | rewrite Hl8; exact Hoff] | ].
    intros _. split.
    + rewrite <- Hl8 at 2. apply bytes_at_memcpy. lia.
    + intros k Hk. apply nth_memcpy_outside; rewrite Hl8; lia.
Qed.

(** X18, witness: the sample buffer applied for player 1 and for an index
    out of range. *)
Lemma ApplyControllerInputs_one_controller_witness :
  ApplyControllerInputs Sample.api_full (Some Sample.inputs_shoulders) 4
    (repeat x00 128) = ([], repeat x00 128)
  /\ length (snd (ApplyControllerInputs Sample.api_full
                    (Some Sample.inputs_shoulders) 0 (repeat x00 128)))
     = 128%nat.
Proof.
  assert (Hlast : length (repeat x00 128) = 128%nat) by reflexivity.
  split.
  - apply (proj1 (ApplyControllerInputs_one_controller Sample.api_full
                    Sample.inputs_shoulders 4 (repeat x00 128) Hlast)).
    right. lia.
  - exact (proj1 (proj2 (proj2 (ApplyControllerInputs_one_controller
                    Sample.api_full Sample.inputs_shoulders 0
                    (repeat x00 128) Hlast)))).
Defined.

End InputMore.
(* ------------------------------------------------------------------ *)
(** ** Facts about the GGPO callbacks *)

Module CallbackMore.

Import Pool Netplay Session.

Lemma SaveEmulatorState_statics (z : Zlib.Codec) (h : Host) (frame : Z)
    (w : World) :
  let w' := snd (SaveEmulatorState z h frame w) in
  l_HasInitNetplay w' = l_HasInitNetplay w
  /\ l_HasInitRollbackNetplay w' = l_HasInitRollbackNetplay w
  /\ l_RollbackNetplay w' = l_RollbackNetplay w
  /\ l_RollbackLocalPlayer w' = l_RollbackLocalPlayer w
  /\ l_RollbackMaxPlayers w' = l_RollbackMaxPlayers w
  /\ instancePtr w' = instancePtr w
  /\ g_currentInputSequence w' = g_currentInputSequence w.
Proof.
  cbv zeta. unfold SaveEmulatorState.
  cbn [g_stateBufferPool set_stateMetrics].
  destruct (getBuffer (malloc h) (g_stateBufferPool w)) as [b pool].
  destruct (b =? nullptr); [cbn; repeat split | ].
  destruct (state_save h (maxUncompressedSize_of pool)) as [tmp | ];
    [ | cbn; repeat split].
  destruct (CompressData z _ RESERVE) as [out | ]; [ | cbn; repeat split].
  unfold GetEmulatorRngState.
  destruct (rng_query h); cbn; repeat split.
Qed.

Lemma LoadEmulatorState_statics (z : Zlib.Codec) (h : Host)
    (buffer : ptr) (mem : list byte) (len : Z) (w : World) :
  let w' := snd (LoadEmulatorState z h buffer mem len w) in
  l_HasInitNetplay w' = l_HasInitNetplay w
  /\ l_HasInitRollbackNetplay w' = l_HasInitRollbackNetplay w
  /\ l_RollbackNetplay w' = l_RollbackNetplay w
  /\ l_RollbackLocalPlayer w' = l_RollbackLocalPlayer w
  /\ l_RollbackMaxPlayers w' = l_RollbackMaxPlayers w
  /\ instancePtr w' = instancePtr w.
Proof.
  cbv zeta. unfold LoadEmulatorState.
  destruct ((buffer =? nullptr) || (C.size_t len <=? sizeof_RollbackStateHeader));
    [cbn; repeat split | ].
  destruct (negb (magic (header_at mem) =? ROLLBACK_STATE_MAGIC));
    [cbn; repeat split | ].
  destruct (negb (version (header_at mem) =? ROLLBACK_STATE_VERSION));
    [cbn; repeat split | ].
  destruct (C.size_t len <? _); [cbn; repeat split | ].
  cbn [g_stateBufferPool set_stateMetrics].
  destruct (getBuffer (malloc h) (g_stateBufferPool w)) as [b pool].
  destruct (b =? nullptr); [cbn; repeat split | ].
  destruct (DecompressData z _ _) as [data | ]; [ | cbn; repeat split].
  destruct (negb (state_load h _ data)); cbn; repeat split.
Qed.

Lemma same_session_refl (w : World) : same_session w w.
Proof.
  unfold same_session. repeat split.
  destruct (l_RollbackNetplay w) as [[this s] | ]; repeat split.
Qed.

Lemma same_session_trans (w1 w2 w3 : World) :
  same_session w1 w2 -> same_session w2 w3 -> same_session w1 w3.
Proof.
  unfold same_session.
  intros (A1 & A2 & A3 & A4 & A5 & A6) (B1 & B2 & B3 & B4 & B5 & B6).
  repeat split; try congruence.
  destruct (l_RollbackNetplay w1) as [[t1 s1] | ],
           (l_RollbackNetplay w2) as [[t2 s2] | ],
           (l_RollbackNetplay w3) as [[t3 s3] | ];
    try contradiction; try exact I.
  destruct A6 as (a0 & a1 & a2 & a3 & a4 & a5 & a6 & a7 & a8 & a9 & a10).
  destruct B6 as (b0 & b1 & b2 & b3 & b4 & b5 & b6 & b7 & b8 & b9 & b10).
  repeat split; congruence.
Qed.

(** Worlds that agree on the session statics. *)
Lemma same_session_statics (w w' : World) :
  l_HasInitNetplay w' = l_HasInitNetplay w ->
  l_HasInitRollbackNetplay w' = l_HasInitRollbackNetplay w ->
  l_RollbackNetplay w' = l_RollbackNetplay w ->
  l_RollbackLocalPlayer w' = l_RollbackLocalPlayer w ->
  l_RollbackMaxPlayers w' = l_RollbackMaxPlayers w ->
  instancePtr w' = instancePtr w ->
  same_session w w'.
Proof.
  intros A B C0 D E F. unfold same_session. rewrite A, B, C0, D, E, F.
  repeat split.
  destruct (l_RollbackNetplay w) as [[this s] | ]; repeat split.
Qed.

Lemma GetInstance_some (w : World) (this : ptr)
    (s : Rollback.RollbackNetplayImpl) :
  GetInstance w = Some (Some (this, s)) -> l_RollbackNetplay w = Some (this, s).
Proof.
  unfold GetInstance. destruct (instancePtr w =? nullptr); [discriminate | ].
  destruct (l_RollbackNetplay w) as [[t s0] | ]; [ | discriminate].
  destruct (instancePtr w =? t); [ | discriminate].
  intros H. injection H as -> ->. reflexivity.
Qed.

Lemma put_instance_same (w : World) (this : ptr)
    (s s' : Rollback.RollbackNetplayImpl) :
  l_RollbackNetplay w = Some (this, s) ->
  Rollback.ggpoSession s' = Rollback.ggpoSession s ->
  Rollback.initialized s' = Rollback.initialized s ->
  Rollback.localPlayer s' = Rollback.localPlayer s ->
  Rollback.maxPlayers s' = Rollback.maxPlayers s ->
  Rollback.localPlayerHandle s' = Rollback.localPlayerHandle s ->
  Rollback.currentInputSequence s' = Rollback.currentInputSequence s ->
  Rollback.saveStateFn s' = Rollback.saveStateFn s ->
  Rollback.loadStateFn s' = Rollback.loadStateFn s ->
  Rollback.freeStateFn s' = Rollback.freeStateFn s ->
  Rollback.advanceFrameFn s' = Rollback.advanceFrameFn s ->
  same_session w (put_instance this s' w)
  /\ g_currentInputSequence (put_instance this s' w) = g_currentInputSequence w.
Proof.
  intros Ho. intros. unfold same_session, put_instance. cbn. rewrite Ho.
  repeat split; assumption.
Qed.

Lemma OnEvent_same (stats : option Rollback.NetworkStats)
    (event : Rollback.GGPOEvent) (s s' : Rollback.RollbackNetplayImpl) :
  Rollback.OnEvent stats event s = Some s' ->
  exists flag m, s' = Rollback.set_metrics flag m s.
Proof.
  unfold Rollback.OnEvent. intros H.
  destruct event as [ | | | | | fa | | ];
    try (injection H as <-; eexists; eexists; reflexivity).
  destruct (0 <? fa); [ | injection H as <-; eexists; eexists; reflexivity].
  destruct (C.int_add _ fa); [ | discriminate].
  destruct (C.int_add _ 1); [ | discriminate].
  injection H as <-. eexists; eexists; reflexivity.
Qed.

Lemma run_callback_same (z : Zlib.Codec) (h : Host) (c : GGPOCallback)
    (w w' : World) :
  run_callback z h c w = Some w' ->
  same_session w w'
  /\ (is_load c = false -> g_currentInputSequence w' = g_currentInputSequence w).
Proof.
  destruct c as [ | frame | buffer mem len | buffer | | event stats];
    cbn [run_callback is_load].
  - intros H. injection H as <-. split; [apply same_session_refl | reflexivity].
  - unfold SaveGameState_Callback.
    destruct (GetInstance w) as [[[this s] | ] | ] eqn:EG; [ | | discriminate].
    + apply GetInstance_some in EG.
      destruct (negb (Rollback.saveStateFn s)).
      * intros H. injection H as <-.
        split; [apply same_session_refl | reflexivity].
      * cbn [option_map]. intros H. injection H as <-.
        set (s1 := Rollback.set_sequence _ _ s).
        pose proof (put_instance_same w this s s1 EG eq_refl eq_refl eq_refl
                      eq_refl eq_refl eq_refl eq_refl eq_refl eq_refl eq_refl)
          as [P1 P2].
        pose proof (SaveEmulatorState_statics z h frame (put_instance this s1 w))
          as S. cbv zeta in S. destruct S as (A & B & C0 & D & E & F & G).
        split.
        -- eapply same_session_trans; [exact P1 | ].
           apply same_session_statics; assumption.
        -- intros _. rewrite G. exact P2.
    + intros H. injection H as <-.
      split; [apply same_session_refl | reflexivity].
  - unfold LoadGameState_Callback.
    destruct (GetInstance w) as [[[this s] | ] | ] eqn:EG; [ | | discriminate].
    + destruct (negb (Rollback.loadStateFn s)).
      * intros H. injection H as <-.
        split; [apply same_session_refl | reflexivity].
      * cbn [option_map]. intros H. injection H as <-.
        pose proof (LoadEmulatorState_statics z h buffer mem len w) as S.
        cbv zeta in S. destruct S as (A & B & C0 & D & E & F).
        split; [apply same_session_statics; assumption | discriminate].
    + intros H. injection H as <-.
      split; [apply same_session_refl | reflexivity].
  - unfold FreeBuffer_Callback.
    destruct (GetInstance w) as [[[this s] | ] | ] eqn:EG; [ | | discriminate].
    + destruct (Rollback.freeStateFn s); intros H; injection H as <-.
      * split; [apply same_session_statics; reflexivity | reflexivity].
      * split; [apply same_session_refl | reflexivity].
    + intros H. injection H as <-.
      split; [apply same_session_refl | reflexivity].
  - unfold AdvanceFrame_Callback.
    destruct (GetInstance w) as [[[this s] | ] | ] eqn:EG; [ | | discriminate].
    + apply GetInstance_some in EG.
      destruct (negb (Rollback.advanceFrameFn s)).
      * intros H. injection H as <-.
        split; [apply same_session_refl | reflexivity].
      * destruct (C.int_add (Rollback.currentFrame s) 1) as [f | ];
          [ | discriminate].
        cbn [option_map]. intros H. injection H as <-.
        pose proof (put_instance_same w this s
                      (Rollback.set_running (Rollback.initialized s) f s) EG
                      eq_refl eq_refl eq_refl eq_refl eq_refl eq_refl eq_refl
                      eq_refl eq_refl eq_refl) as [P1 P2].
        split; [exact P1 | intros _; exact P2].
    + intros H. injection H as <-.
      split; [apply same_session_refl | reflexivity].
  - unfold OnEvent_Callback.
    destruct (GetInstance w) as [[[this s] | ] | ] eqn:EG; [ | | discriminate].
    + apply GetInstance_some in EG.
      unfold Rollback.OnEvent_Callback.
      destruct (Rollback.OnEvent stats event s) as [s1 | ] eqn:EO;
        [ | discriminate].
      cbn [option_map]. intros H. injection H as <-.
      apply OnEvent_same in EO as (flag & m & ->).
      pose proof (put_instance_same w this s (Rollback.set_metrics flag m s) EG
                    eq_refl eq_refl eq_refl eq_refl eq_refl eq_refl eq_refl
                    eq_refl eq_refl eq_refl) as [P1 P2].
      split; [exact P1 | intros _; exact P2].
    + intros H. injection H as <-.
      split; [apply same_session_refl | reflexivity].
Qed.

Lemma run_callbacks_same (z : Zlib.Codec) (h : Host) (cs : list GGPOCallback)
    (w w' : World) :
  run_callbacks z h cs w = Some w' ->
  same_session w w'
  /\ (forallb (fun c => negb (is_load c)) cs = true ->
      g_currentInputSequence w' = g_currentInputSequence w).
Proof.
  revert w. induction cs as [ | c cs IH]; intros w; cbn [run_callbacks forallb].
  - intros H. injection H as <-. split; [apply same_session_refl | reflexivity].
  - destruct (run_callback z h c w) as [w1 | ] eqn:E; [ | discriminate].
    intros H. apply run_callback_same in E as [E1 E2].
    apply IH in H as [H1 H2]. split.
    + eapply same_session_trans; eassumption.
    + intros Hl. apply andb_true_iff in Hl as [Hc Hcs].
      rewrite H2 by exact Hcs. apply E2.
      destruct (is_load c); [discriminate Hc | reflexivity].
Qed.

Lemma same_session_object (w w' : World) :
  same_session w w' ->
  Rollback.currentInputSequence (Frame.session_of w')
  = Rollback.currentInputSequence (Frame.session_of w)
  /\ Rollback.maxPlayers (Frame.session_of w')
     = Rollback.maxPlayers (Frame.session_of w)
  /\ Frame.session_live w' = Frame.session_live w
  /\ CoreHasInitRollbackNetplay w' = CoreHasInitRollbackNetplay w
  /\ (forall sync,
      CoreRollbackNetplayGetSynchronizedInputs sync w'
      = CoreRollbackNetplayGetSynchronizedInputs sync w).
Proof.
  intros (_ & B & _ & _ & _ & H1).
  unfold Frame.session_of, Frame.session_live, CoreHasInitRollbackNetplay,
    CoreRollbackNetplayGetSynchronizedInputs, Rollback.GetSynchronizedInputs.
  rewrite B.
  destruct (l_RollbackNetplay w) as [[t s] | ],
           (l_RollbackNetplay w') as [[t' s'] | ];
    try contradiction; [ | repeat split].
  destruct H1 as (_ & A1 & A2 & _ & A4 & _ & A6 & _).
  rewrite A1, A2, A4, A6. repeat split.
Qed.

(** X19.  Whatever callbacks GGPO makes, and in whatever order, they leave
    the session as it is: the two flags, the player numbers, the static
    instance pointer, and of the session object its address, GGPO session,
    initialised flag, players, local handle, registered functions and
    input sequence.  They write only the frame counter, the sequence of
    the last saved frame, the rollback flag, the metrics and the snapshot
    store; and the global input sequence changes only through a
    load-state callback. *)
Theorem callbacks_keep_session
    (z : Zlib.Codec) (h : Host) (cs : list GGPOCallback) (w w' : World)
    (H : run_callbacks z h cs w = Some w') :
  same_session w w'
  /\ Rollback.currentInputSequence (Frame.session_of w')
     = Rollback.currentInputSequence (Frame.session_of w)
  /\ Frame.session_live w' = Frame.session_live w
  /\ (forallb (fun c => negb (is_load c)) cs = true ->
      g_currentInputSequence w' = g_currentInputSequence w).
Proof.
  apply run_callbacks_same in H as [H1 H2].
  destruct (same_session_object w w' H1) as (A & _ & B & _).
  split; [exact H1 | split; [exact A | split; [exact B | exact H2]]].
Qed.

(** X19, witness: a save, a frame advance, a time-sync event and a
    release on the running sample session with a small pool. *)
Lemma callbacks_keep_session_witness :
  match
    run_callbacks Sample.codec (Sample.host_saving Sample.saved16)
      [save_game_state 7; advance_frame;
       on_event (Rollback.GGPO_EVENTCODE_TIMESYNC 3) None; free_buffer 0x1000]
      (set_pool (new_StateBufferPool 0x1000 (36 + 1024 + 16) 4)
         Sample.world_running)
  with
  | Some w' =>
      Rollback.currentInputSequence (Frame.session_of w')
      = Rollback.currentInputSequence (Frame.session_of Sample.world_running)
      /\ Rollback.currentFrame (Frame.session_of w') = 1
      /\ Frame.session_live w' = true
  | None => False
  end.
Proof.
  destruct (run_callbacks Sample.codec (Sample.host_saving Sample.saved16)
              [save_game_state 7; advance_frame;
               on_event (Rollback.GGPO_EVENTCODE_TIMESYNC 3) None;
               free_buffer 0x1000]
              (set_pool (new_StateBufferPool 0x1000 (36 + 1024 + 16) 4)
                 Sample.world_running)) as [w' | ] eqn:E.
  - pose proof (callbacks_keep_session Sample.codec
                  (Sample.host_saving Sample.saved16) _ _ w' E)
      as (_ & A & B & _).
    split; [exact A | ]. split; [ | rewrite B; reflexivity].
    vm_compute in E. injection E as <-. reflexivity.
  - vm_compute in E. discriminate E.
Defined.

(** X20.  Without a registered instance every callback is inert: with the
    static instance pointer null (as before a session and after
    [Shutdown]) the save, load and advance callbacks return [false], the
    event callback returns [true], the free callback returns, and none of
    them changes anything; in particular a buffer GGPO releases then is
    not returned to the pool and no save or load is counted. *)
Theorem callbacks_without_instance
    (z : Zlib.Codec) (h : Host) (w : World)
    (Hnull : instancePtr w = nullptr) :
  (forall frame, SaveGameState_Callback z h frame w = Some (None, w))
  /\ (forall buffer mem len,
      LoadGameState_Callback z h buffer mem len w = Some (false, w))
  /\ (forall buffer, FreeBuffer_Callback buffer w = Some w)
  /\ AdvanceFrame_Callback w = Some (false, w)
  /\ (forall stats event, OnEvent_Callback stats event w = Some (true, w))
  /\ (forall cs, run_callbacks z h cs w = Some w).
Proof.
  assert (HG : GetInstance w = Some None)
    by (unfold GetInstance; rewrite Hnull; reflexivity).
  assert (H1 : forall frame, SaveGameState_Callback z h frame w = Some (None, w))
    by (intros; unfold SaveGameState_Callback; rewrite HG; reflexivity).
  assert (H2 : forall buffer mem len,
             LoadGameState_Callback z h buffer mem len w = Some (false, w))
    by (intros; unfold LoadGameState_Callback; rewrite HG; reflexivity).
  assert (H3 : forall buffer, FreeBuffer_Callback buffer w = Some w)
    by (intros; unfold FreeBuffer_Callback; rewrite HG; reflexivity).
  assert (H4 : AdvanceFrame_Callback w = Some (false, w))
    by (unfold AdvanceFrame_Callback; rewrite HG; reflexivity).
  assert (H5 : forall stats event, OnEvent_Callback stats event w = Some (true, w))
    by (intros; unfold OnEvent_Callback; rewrite HG; reflexivity).
  repeat split; try assumption.
  intros cs. induction cs as [ | c cs IH]; [reflexivity | ].
  cbn [run_callbacks].
  assert (Hc : run_callback z h c w = Some w).
  { destruct c; cbn [run_callback];
      rewrite ?H1, ?H2, ?H3, ?H4, ?H5; reflexivity. }
  rewrite Hc. exact IH.
Qed.

(** X20, witness: the statics before any session; a released buffer
    stays in use. *)
Lemma callbacks_without_instance_witness :
  FreeBuffer_Callback 0x1000
    (set_pool Sample.pool_held (initial_World 0x1000))
  = Some (set_pool Sample.pool_held (initial_World 0x1000))
  /\ m_usedBuffers Sample.pool_held = [0x1000].
Proof.
  split; [ | reflexivity].
  exact (proj1 (proj2 (proj2 (callbacks_without_instance Sample.codec
                  (Sample.host_saving Sample.saved16)
                  (set_pool Sample.pool_held (initial_World 0x1000)) eq_refl)))
           0x1000).
Defined.

End CallbackMore.

(* ------------------------------------------------------------------ *)
(** ** Facts about the entry points that apply inputs *)

Module FrameMore.

Import Pool Netplay Session Emulation.

Lemma byte_at_skipn (mem : list byte) (n k : nat) :
  C.byte_at (skipn n mem) k = C.byte_at mem (n + k).
Proof. unfold C.byte_at. rewrite nth_skipn. reflexivity. Qed.

(** The writes [ApplyControllerInputs] makes for player index [i] from the
    record found at byte [off] of [data]. *)
Lemma calls_at_offset (api : Input_api) (mem : list byte) (n : nat) (i : Z)
    (last : list byte) :
  0 <= i < 4 ->
  let off := (n + Z.to_nat (i * ROLLBACK_INPUT_BYTES))%nat in
  fst (ApplyControllerInputs api (Some (skipn n mem)) i last)
  = (if SetButtonState api
     then [Call_SetButtonState (i + 1) (decode_buttons (C.rd16 mem off))]
     else [])
    ++ (if SetAxisValue api
        then [Call_SetAxisValue (i + 1) 0 (C.to_int8 (C.byte_at mem (off + 2)));
              Call_SetAxisValue (i + 1) 1 (C.to_int8 (C.byte_at mem (off + 3)))]
        else []).
Proof.
  intros Hi off. rewrite InputFacts.ApplyControllerInputs_calls. cbv zeta.
  assert (Hb : (i <? 0) || (4 <=? i) = false).
  { apply orb_false_iff. split; [apply Z.ltb_ge | apply Z.leb_gt]; lia. }
  rewrite Hb. unfold C.rd16. rewrite !byte_at_skipn.
  subst off. rewrite <- !Nat.add_assoc. reflexivity.
Qed.

(** X21.  [CoreRollbackNetplayApplyInputs] offsets the buffer twice: it
    hands [ApplyControllerInputs] the address of player [i]'s slot and the
    index [i] again, so the record applied to controller [i + 1] is read
    at byte 64 i of the synchronised inputs.  In a session of two players
    controller 1 gets the record at byte 0 and controller 2 the record at
    byte 64, and the bytes 32..63 are not read; with three or four players
    the read for the third lies outside the array of 128 bytes, where the
    language defines no result. *)
Theorem ApplyInputs_offsets_twice
    (api : Input_api) (synced last : list byte) (w : World)
    (this : ptr) (s : Rollback.RollbackNetplayImpl)
    (Hobj : l_RollbackNetplay w = Some (this, s))
    (Hflag : l_HasInitRollbackNetplay w = true)
    (Hinit : Rollback.initialized s = true)
    (Hsess : Rollback.ggpoSession s <> Rollback.nullptr)
    (Hlen : length synced = 128%nat) :
  (l_RollbackMaxPlayers w = 2 ->
   exists last',
     CoreRollbackNetplayApplyInputs api Rollback.GGPO_OK synced w last
     = Some (true,
             ((if SetButtonState api
               then [Call_SetButtonState 1 (decode_buttons (C.rd16 synced 0))]
               else [])
              ++ (if SetAxisValue api
                  then [Call_SetAxisValue 1 0 (C.to_int8 (C.byte_at synced 2));
                        Call_SetAxisValue 1 1 (C.to_int8 (C.byte_at synced 3))]
                  else []))
             ++ ((if SetButtonState api
                  then [Call_SetButtonState 2 (decode_buttons (C.rd16 synced 64))]
                  else [])
                 ++ (if SetAxisValue api
                     then [Call_SetAxisValue 2 0 (C.to_int8 (C.byte_at synced 66));
                           Call_SetAxisValue 2 1 (C.to_int8 (C.byte_at synced 67))]
                     else [])),
             last'))
  /\ (3 <= l_RollbackMaxPlayers w ->
      CoreRollbackNetplayApplyInputs api Rollback.GGPO_OK synced w last = None).
Proof.
  assert (Hsync : Rollback.GetSynchronizedInputs Rollback.GGPO_OK s = true).
  { unfold Rollback.GetSynchronizedInputs. rewrite Hinit.
    apply Z.eqb_neq in Hsess. rewrite Hsess. reflexivity. }
  unfold CoreRollbackNetplayApplyInputs. rewrite Hobj, Hflag, Hsync.
  cbn [negb].
  (* the first two rounds of the loop *)
  assert (Hstep : forall n,
             apply_each api synced (S (S n)) 0 [] last
             = let r0 := ApplyControllerInputs api (Some (skipn 0 synced)) 0 last in
               let r1 := ApplyControllerInputs api (Some (skipn 32 synced)) 1
                           (snd r0) in
               apply_each api synced n 2 (([] ++ fst r0) ++ fst r1) (snd r1)).
  { intros n. cbn [apply_each]. unfold ROLLBACK_INPUT_BYTES.
    rewrite Hlen. change (Z.of_nat 128 <? 0 * 32) with false. cbn iota.
    change (Z.to_nat (0 * 32)) with 0%nat.
    change (skipn 0 synced) with synced. rewrite Hlen.
    change ((0 <? 4) && (Z.of_nat 128 <? 0 * 32 + Z.of_nat sizeof_ControllerInput))
      with false. cbn iota.
    destruct (ApplyControllerInputs api (Some synced) 0 last) as [c0 l0].
    change (0 + 1) with 1. change (Z.of_nat 128 <? 1 * 32) with false. cbn iota.
    change (Z.to_nat (1 * 32)) with 32%nat.
    rewrite length_skipn, Hlen.
    change ((1 <? 4)
            && (Z.of_nat (128 - 32) <? 1 * 32 + Z.of_nat sizeof_ControllerInput))
      with false. cbn iota.
    cbn [fst snd].
    destruct (ApplyControllerInputs api (Some (skipn 32 synced)) 1 l0) as [c1 l1].
    reflexivity. }
  split.
  - intros Hm. rewrite Hm. change (Z.to_nat 2) with 2%nat.
    rewrite Hstep. cbv zeta. cbn [apply_each app].
    eexists. f_equal. f_equal. f_equal.
    rewrite (calls_at_offset api synced 0 0) by lia.
    rewrite (calls_at_offset api synced 32 1) by lia.
    reflexivity.
  - intros Hm.
    destruct (Z.to_nat (l_RollbackMaxPlayers w)) as [ | [ | [ | n]]] eqn:En;
      try lia.
    rewrite Hstep. cbv zeta. cbn [apply_each]. unfold ROLLBACK_INPUT_BYTES.
    rewrite Hlen. change (Z.of_nat 128 <? 2 * 32) with false. cbn iota.
    change (Z.to_nat (2 * 32)) with 64%nat.
    rewrite length_skipn, Hlen.
    change ((2 <? 4)
            && (Z.of_nat (128 - 64) <? 2 * 32 + Z.of_nat sizeof_ControllerInput))
      with true. reflexivity.
Qed.

(** X21, witness: the running sample session of two players and a buffer
    whose bytes 64 and 65 hold the buttons 0x0003; controller 2 is given
    the native buttons 0x00C0. *)
Lemma ApplyInputs_offsets_twice_witness :
  exists last',
    CoreRollbackNetplayApplyInputs Sample.api_full Rollback.GGPO_OK
      (repeat x00 64 ++ Sample.bytes [3; 0; 0; 0] ++ repeat x00 60)
      Sample.world_running (repeat x00 128)
    = Some (true,
            [Call_SetButtonState 1 0; Call_SetAxisValue 1 0 0;
             Call_SetAxisValue 1 1 0;
             Call_SetButtonState 2 0xC0; Call_SetAxisValue 2 0 0;
             Call_SetAxisValue 2 1 0],
            last').
Proof.
  assert (Hobj : l_RollbackNetplay Sample.world_running
                 = Some (fst Sample.session_running, snd Sample.session_running))
    by reflexivity.
  assert (Hs : Rollback.ggpoSession (snd Sample.session_running)
               <> Rollback.nullptr)
    by (vm_compute; discriminate).
  assert (Hlen : length (repeat x00 64 ++ Sample.bytes [3; 0; 0; 0]
                         ++ repeat x00 60) = 128%nat) by reflexivity.
  destruct (proj1 (ApplyInputs_offsets_twice Sample.api_full _ (repeat x00 128)
                     Sample.world_running _ _ Hobj eq_refl eq_refl Hs Hlen)
              eq_refl) as [last' H].
  exists last'. rewrite H. reflexivity.
Defined.

Lemma submitted_later_slot (data rec : list byte) (off : nat) :
  (32 <= off)%nat -> (32 <= length data)%nat ->
  Frame.submitted (memcpy data off rec) = Frame.submitted data.
Proof.
  intros Ho Hl. unfold Frame.submitted, memcpy, ROLLBACK_INPUT_BYTES.
  change (Z.to_nat 32) with 32%nat.
  rewrite firstn_app, length_firstn.
  replace (32 - Nat.min off (length data))%nat with 0%nat by lia.
  rewrite firstn_O, app_nil_r, firstn_firstn.
  replace (Nat.min 32 off) with 32%nat by lia. reflexivity.
Qed.

Lemma submitted_first_slot (data rec : list byte) :
  length rec = 8%nat ->
  Frame.submitted (memcpy data 0 rec) = rec ++ firstn 24 (skipn 8 data).
Proof.
  intros Hr. unfold Frame.submitted, memcpy, ROLLBACK_INPUT_BYTES.
  change (Z.to_nat 32) with 32%nat.
  change (firstn 0 data) with (@nil byte). cbn [app Nat.add].
  rewrite firstn_app, Hr. rewrite firstn_all2 by lia. reflexivity.
Qed.

(** X22.  The frame callback hands GGPO the first 32 bytes of its local
    buffer, while [GetControllerInputs] stores the record of the local
    player in the slot of that player.  For player 1 (or no player
    number) GGPO is given the packed record followed by 24 bytes of the
    buffer that were never written; for the players 2 to 4 it is given 32
    bytes that were never written, and the record of the controller is
    not among them. *)
Theorem frame_submission
    (api : Input_api) (w : World) (inputData0 : list byte)
    (Hlen : length inputData0 = 128%nat)
    (Hp : l_RollbackLocalPlayer w <= 4) :
  exists inputData,
    GetControllerInputs api w (Some inputData0) = Some inputData
    /\ (l_RollbackLocalPlayer w <= 1 ->
        Frame.submitted inputData
        = ControllerInput_bytes (local_input api 0)
          ++ firstn 24 (skipn 8 inputData0))
    /\ (2 <= l_RollbackLocalPlayer w ->
        Frame.submitted inputData = Frame.submitted inputData0).
Proof.
  eexists. split; [reflexivity | ].
  unfold CoreGetNetplayPlayerIndex, ROLLBACK_INPUT_BYTES. split.
  - intros H1.
    assert (E : (if 0 <? l_RollbackLocalPlayer w
                 then l_RollbackLocalPlayer w - 1 else 0) = 0).
    { destruct (0 <? l_RollbackLocalPlayer w) eqn:E;
        [apply Z.ltb_lt in E; lia | reflexivity]. }
    rewrite E. change (Z.to_nat (0 * 32)) with 0%nat.
    apply submitted_first_slot. reflexivity.
  - intros H2.
    assert (E : (0 <? l_RollbackLocalPlayer w) = true) by (apply Z.ltb_lt; lia).
    rewrite E. apply submitted_later_slot; [lia | rewrite Hlen; lia].
Qed.

(** X22, witness: the running sample session is for player 1. *)
Lemma frame_submission_witness :
  exists inputData,
    GetControllerInputs Sample.api_full Sample.world_running
      (Some (repeat x01 128)) = Some inputData
    /\ Frame.submitted inputData
       = ControllerInput_bytes (local_input Sample.api_full 0)
         ++ repeat x01 24.
Proof.
  assert (Hlen : length (repeat x01 128) = 128%nat) by reflexivity.
  assert (Hp : l_RollbackLocalPlayer Sample.world_running <= 4)
    by (vm_compute; discriminate).
  destruct (frame_submission Sample.api_full Sample.world_running
              (repeat x01 128) Hlen Hp) as (d & H1 & H2 & _).
  exists d. split; [exact H1 | ].
  rewrite H2; [reflexivity | vm_compute; discriminate].
Defined.

(** X23.  For a local player numbered 2, 3 or 4 a frame of the callback
    does not depend on the local controller: with any two function tables
    that agree on whether [SetButtonState] and [SetAxisValue] exist,
    whatever [GetStatus] and [ReadController] answer, the callback gives
    GGPO the same bytes and ends with the same statics, the same
    [g_lastInputs] and the same writes to the emulator. *)
Theorem frame_ignores_controller_of_later_players
    (api1 api2 : Input_api) (z : Zlib.Codec) (h : Host) (g : Frame.FrameGGPO)
    (inputData0 allInputs0 : list byte) (w : World) (last : list byte)
    (Hlen : length inputData0 = 128%nat)
    (Hp : 2 <= l_RollbackLocalPlayer w <= 4)
    (Hb : SetButtonState api1 = SetButtonState api2)
    (Ha : SetAxisValue api1 = SetAxisValue api2) :
  Frame.EmulationFrameCallback api1 z h g inputData0 allInputs0 w last
  = Frame.EmulationFrameCallback api2 z h g inputData0 allInputs0 w last.
Proof.
  destruct api1 as [gs1 rc1 sb1 sa1], api2 as [gs2 rc2 sb2 sa2].
  cbn in Hb, Ha. subst sb2 sa2.
  unfold Frame.EmulationFrameCallback.
  destruct (negb (CoreHasInitRollbackNetplay w)); [reflexivity | ].
  unfold GetControllerInputs.
  assert (E : forall api,
             Frame.submitted
               (memcpy inputData0
                  (Z.to_nat (CoreGetNetplayPlayerIndex w * ROLLBACK_INPUT_BYTES))
                  (ControllerInput_bytes
                     (local_input api (CoreGetNetplayPlayerIndex w))))
             = Frame.submitted inputData0).
  { intros api. apply submitted_later_slot; [ | rewrite Hlen; lia].
    unfold CoreGetNetplayPlayerIndex, ROLLBACK_INPUT_BYTES.
    assert (E : (0 <? l_RollbackLocalPlayer w) = true) by (apply Z.ltb_lt; lia).
    rewrite E. lia. }
  rewrite !E. reflexivity.
Qed.

(** X23, witness: the sample session turned into one for player 2, with
    the sample controller against no controller at all. *)
Lemma frame_ignores_controller_of_later_players_witness :
  Frame.EmulationFrameCallback Sample.api_full Sample.codec
    (Sample.host_saving Sample.saved16)
    {| Frame.ggpo_add_local_input := fun _ _ => (Rollback.GGPO_OK, []);
       Frame.ggpo_advance_frame := (Rollback.GGPO_OK, []);
       Frame.ggpo_synchronize_input :=
         fun _ => (Rollback.GGPO_OK, repeat x00 64, []) |}
    (repeat x01 128) (repeat x01 128)
    (set_playerInfo 2 2 Sample.world_running) (repeat x00 128)
  = Frame.EmulationFrameCallback
      {| GetStatus := None; ReadController := None;
         SetButtonState := true; SetAxisValue := true |}
      Sample.codec (Sample.host_saving Sample.saved16)
      {| Frame.ggpo_add_local_input := fun _ _ => (Rollback.GGPO_OK, []);
         Frame.ggpo_advance_frame := (Rollback.GGPO_OK, []);
         Frame.ggpo_synchronize_input :=
           fun _ => (Rollback.GGPO_OK, repeat x00 64, []) |}
      (repeat x01 128) (repeat x01 128)
      (set_playerInfo 2 2 Sample.world_running) (repeat x00 128).
Proof.
  apply frame_ignores_controller_of_later_players;
    [reflexivity | vm_compute; split; discriminate | reflexivity | reflexivity].
Defined.

Lemma AddLocalInput_world
    (submit : Rollback.RollbackNetplayImpl -> Rollback.GGPOErrorCode)
    (w : World) :
  let w2 := snd (CoreRollbackNetplayAddLocalInput submit w) in
  g_currentInputSequence w2 = g_currentInputSequence w
  /\ Frame.session_live w2 = Frame.session_live w
  /\ Rollback.maxPlayers (Frame.session_of w2)
     = Rollback.maxPlayers (Frame.session_of w)
  /\ Rollback.currentInputSequence (Frame.session_of w2)
     = (if Frame.session_live w
        then C.u32 (Rollback.currentInputSequence (Frame.session_of w) + 1)
        else Rollback.currentInputSequence (Frame.session_of w))
  /\ (forall sync,
      CoreRollbackNetplayGetSynchronizedInputs sync w2
      = CoreRollbackNetplayGetSynchronizedInputs sync w).
Proof.
  cbv zeta.
  unfold CoreRollbackNetplayAddLocalInput, Frame.session_live, Frame.session_of,
    CoreRollbackNetplayGetSynchronizedInputs, Rollback.GetSynchronizedInputs.
  change Pool.nullptr with Rollback.nullptr.
  destruct (l_RollbackNetplay w) as [[this s] | ] eqn:Eo;
    [ | cbn; rewrite Eo; repeat split].
  destruct (l_HasInitRollbackNetplay w) eqn:Ef; cbn [negb andb];
    [ | cbn; rewrite Eo, Ef; repeat split].
  unfold Rollback.AddLocalInput.
  destruct (Rollback.initialized s) eqn:Ei; cbn [negb orb andb];
    [ | cbn; rewrite Ei; repeat split].
  destruct (Rollback.ggpoSession s =? Rollback.nullptr) eqn:Es;
    cbn; rewrite ?Ei, ?Es; repeat split.
Qed.

Lemma live_flag (w : World) :
  Frame.session_live w = true -> l_HasInitRollbackNetplay w = true.
Proof.
  unfold Frame.session_live.
  destruct (l_RollbackNetplay w) as [[this s] | ]; [ | discriminate].
  destruct (l_HasInitRollbackNetplay w); [reflexivity | discriminate].
Qed.

(** X24.  One frame of the callback and the two input counters.  While no
    rollback session is initialised the callback does nothing.  Otherwise
    the session's own counter goes up by one exactly when the call
    reaches GGPO (the object is initialised and holds a session), and no
    callback GGPO makes during the frame, not even a state load, brings
    it back; the global [g_currentInputSequence] goes up by one in every
    such frame in which GGPO asks for no state load. *)
Theorem frame_sequences
    (api : Input_api) (z : Zlib.Codec) (h : Host) (g : Frame.FrameGGPO)
    (inputData0 allInputs0 : list byte) (w w' : World)
    (last last' : list byte) (calls : list InputCall)
    (Hres : Frame.EmulationFrameCallback api z h g inputData0 allInputs0 w last
            = Some (w', last', calls)) :
  (l_HasInitRollbackNetplay w = false -> w' = w /\ last' = last /\ calls = [])
  /\ (l_HasInitRollbackNetplay w = true ->
      Rollback.currentInputSequence (Frame.session_of w')
      = (if Frame.session_live w
         then C.u32 (Rollback.currentInputSequence (Frame.session_of w) + 1)
         else Rollback.currentInputSequence (Frame.session_of w))
      /\ Frame.session_live w' = Frame.session_live w
      /\ ((forall s input,
           forallb (fun c => negb (is_load c))
             (snd (Frame.ggpo_add_local_input g s input)) = true) ->
          forallb (fun c => negb (is_load c))
            (snd (Frame.ggpo_advance_frame g)) = true ->
          (forall size,
           forallb (fun c => negb (is_load c))
             (snd (Frame.ggpo_synchronize_input g size)) = true) ->
          g_currentInputSequence w'
          = C.u32 (g_currentInputSequence w + 1))).
Proof.
  unfold Frame.EmulationFrameCallback, CoreHasInitRollbackNetplay in Hres.
  destruct (l_HasInitRollbackNetplay w) eqn:Ef; cbn [negb] in Hres.
  2:{ injection Hres as <- <- <-. split; [auto | discriminate]. }
  split; [discriminate | intros _].
  unfold GetControllerInputs in Hres.
  set (inputData := memcpy inputData0 _ _) in Hres.
  set (w1 := set_inputSequence (C.u32 (g_currentInputSequence w + 1)) w) in Hres.
  assert (L1 : Frame.session_live w1 = Frame.session_live w) by reflexivity.
  assert (S1 : Frame.session_of w1 = Frame.session_of w) by reflexivity.
  assert (G1 : g_currentInputSequence w1 = C.u32 (g_currentInputSequence w + 1))
    by reflexivity.
  pose proof (AddLocalInput_world
                (fun s => fst (Frame.ggpo_add_local_input g s
                                 (Frame.submitted inputData))) w1) as A.
  cbv zeta in A.
  destruct (CoreRollbackNetplayAddLocalInput _ w1) as [r w2].
  cbn [snd] in A. destruct A as (A1 & A2 & _ & A4 & _).
  set (made1 := if Frame.session_live w1 then _ else []) in Hres.
  destruct (run_callbacks z h made1 w2) as [w3 | ] eqn:E1; [ | discriminate].
  apply CallbackMore.run_callbacks_same in E1 as [B1 B2].
  destruct (CallbackMore.same_session_object w2 w3 B1) as (C1 & _ & C3 & _).
  set (made2 := if Frame.session_live w3 then _ else []) in Hres.
  destruct (run_callbacks z h made2 w3) as [w4 | ] eqn:E2; [ | discriminate].
  apply CallbackMore.run_callbacks_same in E2 as [D1 D2].
  destruct (CallbackMore.same_session_object w3 w4 D1) as (F1 & _ & F3 & _).
  destruct (Frame.ggpo_synchronize_input g
              (Rollback.maxPlayers (Frame.session_of w4)
               * Rollback.ROLLBACK_INPUT_BYTES)) as [[sync stored] made3] eqn:Eg.
  assert (Hseq4 : Rollback.currentInputSequence (Frame.session_of w4)
                  = (if Frame.session_live w
                     then C.u32 (Rollback.currentInputSequence
                                   (Frame.session_of w) + 1)
                     else Rollback.currentInputSequence (Frame.session_of w))).
  { rewrite F1, C1, A4, L1, S1. reflexivity. }
  assert (Hlive4 : Frame.session_live w4 = Frame.session_live w)
    by (rewrite F3, C3, A2, L1; reflexivity).
  assert (Hg4 : forallb (fun c => negb (is_load c)) made1 = true ->
                forallb (fun c => negb (is_load c)) made2 = true ->
                g_currentInputSequence w4 = C.u32 (g_currentInputSequence w + 1)).
  { intros M1 M2. rewrite D2, B2, A1 by assumption. exact G1. }
  assert (Hm1 : (forall s input,
                  forallb (fun c => negb (is_load c))
                    (snd (Frame.ggpo_add_local_input g s input)) = true) ->
                forallb (fun c => negb (is_load c)) made1 = true).
  { intros N. subst made1. destruct (Frame.session_live w1); [apply N | reflexivity]. }
  assert (Hm2 : forallb (fun c => negb (is_load c))
                  (snd (Frame.ggpo_advance_frame g)) = true ->
                forallb (fun c => negb (is_load c)) made2 = true).
  { intros N. subst made2. destruct (Frame.session_live w3); [exact N | reflexivity]. }
  destruct (Frame.session_live w4) eqn:E4.
  - destruct (run_callbacks z h made3 w4) as [w5 | ] eqn:E3; [ | discriminate].
    apply CallbackMore.run_callbacks_same in E3 as [H1 H2].
    destruct (CallbackMore.same_session_object w4 w5 H1) as (I1 & _ & I3 & _).
    assert (Hw : w' = w5).
    { destruct (CoreRollbackNetplayGetSynchronizedInputs sync w4);
        [destruct (Frame.apply_all _ _ _ _ _ _) | ];
        injection Hres as <- _ _; reflexivity. }
    subst w'. split; [rewrite I1; exact Hseq4 | ].
    split; [rewrite I3, E4; exact Hlive4 | ].
    intros N1 N2 N3. rewrite H2.
    + apply Hg4; [apply Hm1, N1 | apply Hm2, N2].
    + specialize (N3 (Rollback.maxPlayers (Frame.session_of w4)
                      * Rollback.ROLLBACK_INPUT_BYTES)).
      rewrite Eg in N3. exact N3.
  - injection Hres as <- _ _.
    split; [exact Hseq4 | ]. split; [rewrite E4; exact Hlive4 | ].
    intros N1 N2 _. apply Hg4; [apply Hm1, N1 | apply Hm2, N2].
Qed.

(** X24, witness: a frame of the running sample session in which GGPO
    advances a frame and reports a time-sync event; both counters go from
    0 to 1. *)
Lemma frame_sequences_witness :
  match
    Frame.EmulationFrameCallback Sample.api_full Sample.codec
      (Sample.host_saving Sample.saved16)
      {| Frame.ggpo_add_local_input := fun _ _ => (Rollback.GGPO_OK, []);
         Frame.ggpo_advance_frame :=
           (Rollback.GGPO_OK,
            [advance_frame; on_event (Rollback.GGPO_EVENTCODE_TIMESYNC 2) None]);
         Frame.ggpo_synchronize_input :=
           fun _ => (Rollback.GGPO_OK, repeat x00 64, []) |}
      (repeat x01 128) (repeat x01 128) Sample.world_running (repeat x00 128)
  with
  | Some (w', _, _) =>
      Rollback.currentInputSequence (Frame.session_of w') = 1
      /\ g_currentInputSequence w' = 1
  | None => False
  end.
Proof.
  destruct (Frame.EmulationFrameCallback _ _ _ _ _ _ _ _)
    as [[[w' l] c] | ] eqn:E.
  - destruct (frame_sequences _ _ _ _ _ _ _ _ _ _ _ E) as (_ & H).
    destruct (H eq_refl) as (A & _ & C0).
    split; [rewrite A; reflexivity | ].
    rewrite C0; [reflexivity | | | ]; intros; reflexivity.
  - vm_compute in E. discriminate E.
Defined.

Lemma live_sync (sync : Rollback.GGPOErrorCode) (w : World) :
  Frame.session_live w = true ->
  CoreRollbackNetplayGetSynchronizedInputs sync w = (sync =? Rollback.GGPO_OK).
Proof.
  unfold Frame.session_live, CoreRollbackNetplayGetSynchronizedInputs,
    Rollback.GetSynchronizedInputs.
  change Pool.nullptr with Rollback.nullptr.
  destruct (l_RollbackNetplay w) as [[this s] | ]; [ | discriminate].
  destruct (l_HasInitRollbackNetplay w); [ | discriminate].
  destruct (Rollback.initialized s); [ | discriminate].
  destruct (Rollback.ggpoSession s =? Rollback.nullptr); [discriminate | ].
  reflexivity.
Qed.

Lemma calls_any_last (api : Input_api) (data : list byte) (i : Z)
    (l l' : list byte) :
  fst (ApplyControllerInputs api (Some data) i l)
  = fst (ApplyControllerInputs api (Some data) i l').
Proof. rewrite !InputFacts.ApplyControllerInputs_calls. reflexivity. Qed.

Lemma apply_all_four (api : Input_api) (allInputs l : list byte) :
  fst (Frame.apply_all api allInputs 4 0 [] l)
  = flat_map (fun i => fst (ApplyControllerInputs api (Some allInputs) i []))
      [0; 1; 2; 3].
Proof.
  cbn [Frame.apply_all flat_map].
  destruct (ApplyControllerInputs api (Some allInputs) 0 l) as [c0 l0] eqn:E0.
  change (0 + 1) with 1.
  destruct (ApplyControllerInputs api (Some allInputs) 1 l0) as [c1 l1] eqn:E1.
  change (1 + 1) with 2.
  destruct (ApplyControllerInputs api (Some allInputs) 2 l1) as [c2 l2] eqn:E2.
  change (2 + 1) with 3.
  destruct (ApplyControllerInputs api (Some allInputs) 3 l2) as [c3 l3] eqn:E3.
  apply (f_equal fst) in E0, E1, E2, E3. cbn [fst] in *.
  rewrite (calls_any_last api allInputs 0 [] l), E0.
  rewrite (calls_any_last api allInputs 1 [] l0), E1.
  rewrite (calls_any_last api allInputs 2 [] l1), E2.
  rewrite (calls_any_last api allInputs 3 [] l2), E3.
  cbn [app]. rewrite app_nil_r, <- !app_assoc. reflexivity.
Qed.

Lemma calls_same_slot (api : Input_api) (a b : list byte) (i : Z) :
  0 <= i < 4 ->
  (forall k, (Z.to_nat (i * ROLLBACK_INPUT_BYTES) <= k)%nat ->
             nth k a x00 = nth k b x00) ->
  fst (ApplyControllerInputs api (Some a) i [])
  = fst (ApplyControllerInputs api (Some b) i []).
Proof.
  intros Hi H.
  pose proof (calls_at_offset api a 0 i [] Hi) as Ea.
  pose proof (calls_at_offset api b 0 i [] Hi) as Eb.
  cbv zeta in Ea, Eb. change (skipn 0 a) with a in Ea.
  change (skipn 0 b) with b in Eb. rewrite Ea, Eb.
  unfold C.rd16, C.byte_at. cbn [Nat.add].
  rewrite !H by lia. reflexivity.
Qed.

(** X25.  When GGPO has synchronised the inputs the frame callback
    applies four controllers, whatever the number of players of the
    session: the writes to the emulator are those of
    [ApplyControllerInputs] for the indices 0, 1, 2, 3 in this order, each
    read from its own slot of the local array; when GGPO refuses, nothing
    is written.  GGPO stores [maxPlayers] slots into that array, so in a
    session of two players the records applied to controllers 3 and 4 are
    the bytes the array held before, which the callback never
    initialised. *)
Theorem frame_applies_four_controllers
    (api : Input_api) (z : Zlib.Codec) (h : Host) (g : Frame.FrameGGPO)
    (inputData0 allInputs0 : list byte) (w w' : World)
    (last last' : list byte) (calls : list InputCall)
    (Hlive : Frame.session_live w = true)
    (Hres : Frame.EmulationFrameCallback api z h g inputData0 allInputs0 w last
            = Some (w', last', calls)) :
  let size := Rollback.maxPlayers (Frame.session_of w)
              * Rollback.ROLLBACK_INPUT_BYTES in
  let sync := fst (fst (Frame.ggpo_synchronize_input g size)) in
  let stored := snd (fst (Frame.ggpo_synchronize_input g size)) in
  let allInputs := memcpy allInputs0 0 (firstn (Z.to_nat size) stored) in
  calls = (if sync =? Rollback.GGPO_OK
           then flat_map
                  (fun i => fst (ApplyControllerInputs api (Some allInputs) i []))
                  [0; 1; 2; 3]
           else [])
  /\ (Rollback.maxPlayers (Frame.session_of w) = 2 ->
      length allInputs0 = 128%nat ->
      forall i, 2 <= i < 4 ->
      fst (ApplyControllerInputs api (Some allInputs) i [])
      = fst (ApplyControllerInputs api (Some allInputs0) i [])).
Proof.
  cbv zeta. split.
  - pose proof (live_flag w Hlive) as Ef.
    unfold Frame.EmulationFrameCallback, CoreHasInitRollbackNetplay in Hres.
    rewrite Ef in Hres. cbn [negb] in Hres.
    unfold GetControllerInputs in Hres.
    set (inputData := memcpy inputData0 _ _) in Hres.
    set (w1 := set_inputSequence (C.u32 (g_currentInputSequence w + 1)) w) in Hres.
    assert (L1 : Frame.session_live w1 = Frame.session_live w) by reflexivity.
    assert (S1 : Frame.session_of w1 = Frame.session_of w) by reflexivity.
    pose proof (AddLocalInput_world
                  (fun s => fst (Frame.ggpo_add_local_input g s
                                   (Frame.submitted inputData))) w1) as A.
    cbv zeta in A.
    destruct (CoreRollbackNetplayAddLocalInput _ w1) as [r w2].
    cbn [snd] in A. destruct A as (_ & A2 & A3 & _).
    set (made1 := if Frame.session_live w1 then _ else []) in Hres.
    destruct (run_callbacks z h made1 w2) as [w3 | ] eqn:E1; [ | discriminate].
    apply CallbackMore.run_callbacks_same in E1 as [B1 _].
    destruct (CallbackMore.same_session_object w2 w3 B1) as (_ & C2 & C3 & _).
    set (made2 := if Frame.session_live w3 then _ else []) in Hres.
    destruct (run_callbacks z h made2 w3) as [w4 | ] eqn:E2; [ | discriminate].
    apply CallbackMore.run_callbacks_same in E2 as [D1 _].
    destruct (CallbackMore.same_session_object w3 w4 D1) as (_ & F2 & F3 & _).
    assert (Hm : Rollback.maxPlayers (Frame.session_of w4)
                 = Rollback.maxPlayers (Frame.session_of w))
      by (rewrite F2, C2, A3, S1; reflexivity).
    assert (Hl : Frame.session_live w4 = true)
      by (rewrite F3, C3, A2, L1; exact Hlive).
    rewrite Hm, Hl in Hres.
    destruct (Frame.ggpo_synchronize_input g _) as [[sync stored] made3].
    cbn [fst snd].
    destruct (run_callbacks z h made3 w4) as [w5 | ]; [ | discriminate].
    rewrite (live_sync sync w4 Hl) in Hres.
    destruct (sync =? Rollback.GGPO_OK).
    + destruct (Frame.apply_all _ _ _ _ _ _) as [cs l] eqn:EA.
      injection Hres as _ _ <-.
      apply (f_equal fst) in EA. cbn [fst] in EA. rewrite <- EA.
      apply apply_all_four.
    + injection Hres as _ _ <-. reflexivity.
  - intros Hm Hlen i Hi. apply calls_same_slot; [lia | ].
    intros k Hk. rewrite Hm.
    unfold ROLLBACK_INPUT_BYTES, Rollback.ROLLBACK_INPUT_BYTES in *.
    change (Z.to_nat (2 * 32)) with 64%nat.
    set (src := firstn 64 _).
    assert (Hs : (length src <= 64)%nat) by apply firstn_le_length.
    apply InputMore.nth_memcpy_outside; [lia | right; lia].
Qed.

(** X25, witness: a frame of the running sample session of two players;
    GGPO stores 64 zero bytes and the array held the byte 1 everywhere, so
    controllers 3 and 4 are given the buttons decoded from 0x0101. *)
Lemma frame_applies_four_controllers_witness :
  match
    Frame.EmulationFrameCallback Sample.api_full Sample.codec
      (Sample.host_saving Sample.saved16)
      {| Frame.ggpo_add_local_input := fun _ _ => (Rollback.GGPO_OK, []);
         Frame.ggpo_advance_frame := (Rollback.GGPO_OK, []);
         Frame.ggpo_synchronize_input :=
           fun _ => (Rollback.GGPO_OK, repeat x00 64, []) |}
      (repeat x01 128) (repeat x01 128) Sample.world_running (repeat x00 128)
  with
  | Some (_, _, calls) =>
      calls
      = [Call_SetButtonState 1 0; Call_SetAxisValue 1 0 0; Call_SetAxisValue 1 1 0;
         Call_SetButtonState 2 0; Call_SetAxisValue 2 0 0; Call_SetAxisValue 2 1 0;
         Call_SetButtonState 3 (decode_buttons 0x0101);
         Call_SetAxisValue 3 0 1; Call_SetAxisValue 3 1 1;
         Call_SetButtonState 4 (decode_buttons 0x0101);
         Call_SetAxisValue 4 0 1; Call_SetAxisValue 4 1 1]
  | None => False
  end.
Proof.
  destruct (Frame.EmulationFrameCallback _ _ _ _ _ _ _ _)
    as [[[w' l] c] | ] eqn:E.
  - assert (Hlive : Frame.session_live Sample.world_running = true)
      by reflexivity.
    rewrite (proj1 (frame_applies_four_controllers _ _ _ _ _ _ _ _ _ _ _
                      Hlive E)).
    vm_compute. reflexivity.
  - vm_compute in E. discriminate E.
Defined.

End FrameMore.

(* ------------------------------------------------------------------ *)
(** ** Facts about standard netplay *)

Module StandardMore.

Import Pool Netplay Standard.

Lemma mask_disjoint (p : Z) : 0 <= p <= 7 -> Z.land 4294967288 p = 0.
Proof.
  intros H.
  assert (C0 : p = 0 \/ p = 1 \/ p = 2 \/ p = 3 \/ p = 4 \/ p = 5 \/ p = 6 \/ p = 7)
    by lia.
  destruct C0 as [-> | [-> | [-> | [-> | [-> | [-> | [-> | ->]]]]]]]; reflexivity.
Qed.

Lemma land_mask (u : Z) :
  0 <= u < 2 ^ 32 -> Z.land u 4294967288 = 8 * (u / 8).
Proof.
  intros Hu.
  assert (H7 : Z.land u 7 = u mod 8)
    by (change 7 with (Z.ones 3); rewrite Z.land_ones by lia; reflexivity).
  assert (Hall : Z.lor (Z.land u 4294967288) (Z.land u 7) = u).
  { rewrite <- Z.land_lor_distr_r. change (Z.lor 4294967288 7) with (Z.ones 32).
    rewrite Z.land_ones by lia. apply Z.mod_small. exact Hu. }
  assert (Hdis : Z.land (Z.land u 4294967288) (Z.land u 7) = 0).
  { rewrite H7. rewrite <- Z.land_assoc.
    rewrite mask_disjoint; [apply Z.land_0_r | ].
    Z.div_mod_to_equations; lia. }
  pose proof (Z.add_nocarry_lxor _ _ Hdis) as Hadd.
  rewrite (Z.lxor_lor _ _ Hdis), Hall, H7 in Hadd.
  Z.div_mod_to_equations; lia.
Qed.

Lemma id_of_value (draw player : Z) :
  0 <= player <= 7 ->
  id_of draw player = 8 * (C.u32 draw / 8) + player.
Proof.
  intros Hp. unfold id_of.
  assert (Hu : 0 <= C.u32 draw < 2 ^ 32)
    by (unfold C.u32; apply Z.mod_pos_bound; reflexivity).
  change (C.u32 (Z.lnot 7)) with 4294967288.
  assert (Hpl : C.u32 player = player).
  { unfold C.u32. apply Z.mod_small. change (2 ^ 32) with 4294967296. lia. }
  rewrite Hpl, land_mask by exact Hu.
  assert (Hdis : Z.land (8 * (C.u32 draw / 8)) player = 0).
  { rewrite <- land_mask by exact Hu. rewrite <- Z.land_assoc.
    rewrite mask_disjoint by exact Hp. apply Z.land_0_r. }
  rewrite <- (Z.lxor_lor _ _ Hdis), <- (Z.add_nocarry_lxor _ _ Hdis).
  unfold C.u32 at 1. apply Z.mod_small.
  change (2 ^ 32) with 4294967296 in *. Z.div_mod_to_equations; lia.
Qed.

(** X26.  The identifier [CoreInitNetplay] registers the player with is
    the number the generator gave with its three low bits replaced by the
    player number: for a player number from 0 to 7 one round of the loop
    gives 8 * (draw / 8) + player (the draw taken as a 32-bit unsigned
    number).  For the players 1 to 7 the first draw is therefore used, the
    identifier is not 0 and its remainder modulo 8 is the player; for
    player 0 the loop draws again as long as the draw is below 8. *)
Theorem random_id_carries_player (draw : Z) (draws : list Z) (player : Z)
    (Hp : 0 <= player <= 7) :
  let id := id_of draw player in
  id = 8 * (C.u32 draw / 8) + player
  /\ id mod 8 = player
  /\ id / 8 = C.u32 draw / 8
  /\ 0 <= id < 2 ^ 32
  /\ random_id (draw :: draws) player
     = (if (player =? 0) && (C.u32 draw <? 8)
        then random_id draws player
        else Some id)
  /\ (1 <= player -> random_id (draw :: draws) player = Some id /\ id <> 0).
Proof.
  cbv zeta. pose proof (id_of_value draw player Hp) as E.
  assert (Hu : 0 <= C.u32 draw < 2 ^ 32)
    by (unfold C.u32; apply Z.mod_pos_bound; reflexivity).
  change (2 ^ 32) with 4294967296 in *.
  assert (Hz : (id_of draw player =? 0) = ((player =? 0) && (C.u32 draw <? 8))).
  { rewrite E.
    destruct (player =? 0) eqn:E0;
      [apply Z.eqb_eq in E0 | apply Z.eqb_neq in E0]; cbn [andb].
    - destruct (C.u32 draw <? 8) eqn:E8;
        [apply Z.ltb_lt in E8; apply Z.eqb_eq
        | apply Z.ltb_ge in E8; apply Z.eqb_neq];
        Z.div_mod_to_equations; lia.
    - apply Z.eqb_neq. Z.div_mod_to_equations; lia. }
  split; [exact E | ].
  split; [rewrite E; Z.div_mod_to_equations; lia | ].
  split; [rewrite E; Z.div_mod_to_equations; lia | ].
  split; [rewrite E; Z.div_mod_to_equations; lia | ].
  cbn [random_id]. rewrite Hz. split; [reflexivity | ].
  intros H1.
  assert (E0 : (player =? 0) = false) by (apply Z.eqb_neq; lia).
  rewrite E0. cbn [andb]. split; [reflexivity | ].
  rewrite E. Z.div_mod_to_equations; lia.
Qed.

(** X26, witness: the draw 0x12345 for player 2 gives 0x12342. *)
Lemma random_id_carries_player_witness :
  random_id [0x12345] 2 = Some 0x12342.
Proof.
  assert (Hp : 0 <= 2 <= 7) by lia.
  destruct (random_id_carries_player 0x12345 [] 2 Hp) as (_ & _ & _ & _ & _ & H).
  destruct (H ltac:(lia)) as [H1 _]. rewrite H1. reflexivity.
Defined.

Lemma random_id_prefix (draw : Z) (draws : list Z) (player : Z) :
  1 <= player <= 7 ->
  random_id (draw :: draws) player = Some (id_of draw player)
  /\ id_of draw player <> 0.
Proof.
  intros Hp. pose proof (id_of_value draw player ltac:(lia)) as E.
  assert (Hu : 0 <= C.u32 draw < 2 ^ 32)
    by (unfold C.u32; apply Z.mod_pos_bound; reflexivity).
  assert (Hn : id_of draw player <> 0)
    by (rewrite E; Z.div_mod_to_equations; lia).
  split; [ | exact Hn]. cbn [random_id].
  apply Z.eqb_neq in Hn. rewrite Hn. reflexivity.
Qed.

(** X27.  [CoreInitNetplay] for a player from 1 to 7 returns [true]
    exactly when the core accepts the three commands GET_VERSION, INIT
    and CONTROL_PLAYER, sent in this order; then [l_HasInitNetplay] is set
    and nothing is reported.  Each refusal ends the function with one
    message; a refused CONTROL_PLAYER also sends NETPLAY_CLOSE, and if the
    core accepts that, [l_HasInitNetplay] is cleared.  The function never
    looks at rollback netplay and leaves its statics alone, while
    [CoreInitRollbackNetplay] refuses, with a message, as long as standard
    netplay is initialised. *)
Theorem CoreInitNetplay_outcome
    (core : NetplayCore) (draw : Z) (draws : list Z) (address : string)
    (port player : Z) (w : World)
    (Hp : 1 <= player <= 7) :
  exists ok w' sent,
    CoreInitNetplay core (draw :: draws) address port player w
    = Some (ok, w', sent)
    /\ (ok = true <->
        get_version core = None /\ netplay_init core = None
        /\ control_player core = None)
    /\ (ok = true ->
        l_HasInitNetplay w' = true /\ errors w' = errors w
        /\ sent = [M64CMD_NETPLAY_GET_VERSION 0x010001;
                   M64CMD_NETPLAY_INIT port address;
                   M64CMD_NETPLAY_CONTROL_PLAYER player (id_of draw player)]
        /\ forall h port' player' maxPlayers,
             fst (CoreInitRollbackNetplay h port' player' maxPlayers w') = false)
    /\ (ok = false ->
        (length (errors w) < length (errors w'))%nat
        /\ (get_version core = None -> netplay_init core = None ->
            In M64CMD_NETPLAY_CLOSE sent
            /\ l_HasInitNetplay w'
               = match netplay_close core with
                 | None => false
                 | Some _ => l_HasInitNetplay w
                 end)
        /\ (get_version core <> None \/ netplay_init core <> None ->
            ~ In M64CMD_NETPLAY_CLOSE sent
            /\ l_HasInitNetplay w' = l_HasInitNetplay w))
    /\ l_HasInitRollbackNetplay w' = l_HasInitRollbackNetplay w
    /\ l_RollbackNetplay w' = l_RollbackNetplay w
    /\ instancePtr w' = instancePtr w.
Proof.
  assert (Hp' : 0 <= player <= 7) by lia.
  destruct (random_id_prefix draw draws player Hp) as [Hid _].
  unfold CoreInitNetplay. rewrite Hid.
  assert (Hlen : forall msg w0, length (errors (CoreSetError msg w0))
                                = S (length (errors w0)))
    by (intros; cbn; rewrite length_app; cbn; lia).
  destruct (get_version core) as [m1 | ].
  { eexists; eexists; eexists. split; [reflexivity | ].
    split; [split; [discriminate | intros (H & _); discriminate] | ].
    split; [discriminate | ].
    split; [ | repeat split].
    intros _. split; [rewrite Hlen; lia | ].
    split; [intros H; discriminate | ].
    intros _. split; [ | reflexivity].
    cbn. intros [H | []]. discriminate. }
  destruct (netplay_init core) as [m2 | ].
  { eexists; eexists; eexists. split; [reflexivity | ].
    split; [split; [discriminate | intros (_ & H & _); discriminate] | ].
    split; [discriminate | ].
    split; [ | repeat split].
    intros _. split; [rewrite Hlen; lia | ].
    split; [intros _ H; discriminate | ].
    intros _. split; [ | reflexivity].
    cbn. intros [H | [H | []]]; discriminate. }
  destruct (control_player core) as [m3 | ].
  { unfold CoreShutdownNetplay.
    destruct (netplay_close core) as [m4 | ].
    - eexists; eexists; eexists. split; [reflexivity | ].
      split; [split; [discriminate | intros (_ & _ & H); discriminate] | ].
      split; [discriminate | ].
      split; [ | repeat split].
      intros _. split; [rewrite !Hlen; lia | ].
      split; [intros _ _; split; [cbn; auto 10 | reflexivity] | ].
      intros [H | H]; contradiction.
    - eexists; eexists; eexists. split; [reflexivity | ].
      split; [split; [discriminate | intros (_ & _ & H); discriminate] | ].
      split; [discriminate | ].
      split; [ | repeat split].
      intros _. split; [cbn [set_HasInitNetplay errors]; rewrite Hlen; lia | ].
      split; [intros _ _; split; [cbn; auto 10 | reflexivity] | ].
      intros [H | H]; contradiction. }
  eexists; eexists; eexists. split; [reflexivity | ].
  split; [split; [intros _; repeat split | reflexivity] | ].
  split; [ | split; [discriminate | repeat split]].
  intros _. split; [reflexivity | ]. split; [reflexivity | ].
  split; [reflexivity | ].
  intros h port' player' maxPlayers. reflexivity.
Qed.

(** X27, witness: a core that accepts everything, then rollback netplay
    is refused. *)
Lemma CoreInitNetplay_outcome_witness :
  exists w' sent,
    CoreInitNetplay
      {| get_version := None; netplay_init := None;
         control_player := None; netplay_close := None |}
      [0x12345] "10.0.0.2" 45000 2 (initial_World 0x1000)
    = Some (true, w', sent)
    /\ l_HasInitNetplay w' = true
    /\ fst (CoreInitRollbackNetplay (Sample.host_saving Sample.saved16)
              7000 1 2 w') = false.
Proof.
  assert (Hp : 1 <= 2 <= 7) by lia.
  destruct (CoreInitNetplay_outcome
              {| get_version := None; netplay_init := None;
                 control_player := None; netplay_close := None |}
              0x12345 [] "10.0.0.2" 45000 2 (initial_World 0x1000) Hp)
    as (ok & w' & sent & H1 & H2 & H3 & _).
  assert (Hok : ok = true) by (apply H2; repeat split).
  subst ok. destruct (H3 eq_refl) as (A & _ & _ & B).
  exists w', sent. split; [exact H1 | split; [exact A | apply B]].
Defined.

End StandardMore.

(* ------------------------------------------------------------------ *)
(** ** Facts about the save and load counters *)

Module MetricsMore.

Import Pool Netplay.

Lemma count_save_cycle (m : StateMetrics) :
  0 <= saveCount m < 100 ->
  saveCount (count_save m) = (saveCount m + 1) mod 100
  /\ (saveCount m = 99 -> count_save m = reset)
  /\ (saveCount m < 99 ->
      loadCount (count_save m) = loadCount m
      /\ totalUncompressedSize (count_save m) = totalUncompressedSize m
      /\ totalCompressedSize (count_save m) = totalCompressedSize m).
Proof.
  intros H. unfold count_save. cbn [saveCount].
  assert (Hu : C.u32 (saveCount m + 1) = saveCount m + 1).
  { unfold C.u32. apply Z.mod_small. change (2 ^ 32) with 4294967296. lia. }
  rewrite Hu.
  destruct ((saveCount m + 1) mod 100 =? 0) eqn:E;
    [apply Z.eqb_eq in E | apply Z.eqb_neq in E].
  - split; [rewrite E; reflexivity | ].
    split; [reflexivity | ].
    intros Hlt. exfalso. Z.div_mod_to_equations; lia.
  - cbn. split; [symmetry; apply Z.mod_small; Z.div_mod_to_equations; lia | ].
    split; [ | auto].
    intros H99. exfalso. apply E. rewrite H99. reflexivity.
Qed.

Lemma SaveEmulatorState_metrics (z : Zlib.Codec) (h : Host) (fr : Z)
    (w : World) :
  exists a b,
    g_stateMetrics (snd (SaveEmulatorState z h fr w))
    = add_sizes a b (count_save (g_stateMetrics w))
    \/ g_stateMetrics (snd (SaveEmulatorState z h fr w))
       = add_sizes 0 b (add_sizes a 0 (count_save (g_stateMetrics w)))
    \/ g_stateMetrics (snd (SaveEmulatorState z h fr w))
       = count_save (g_stateMetrics w).
Proof.
  unfold SaveEmulatorState.
  cbn [g_stateBufferPool set_stateMetrics].
  destruct (getBuffer (malloc h) (g_stateBufferPool w)) as [b pool].
  destruct (b =? nullptr); [exists 0, 0; right; right; reflexivity | ].
  destruct (state_save h (maxUncompressedSize_of pool)) as [tmp | ];
    [ | exists 0, 0; right; right; reflexivity].
  destruct (CompressData z _ RESERVE) as [out | ].
  - unfold GetEmulatorRngState.
    eexists; eexists; right; left.
    destruct (rng_query h); cbn; reflexivity.
  - eexists; exists 0; left. cbn. reflexivity.
Qed.

Lemma LoadEmulatorState_metrics (z : Zlib.Codec) (h : Host)
    (buf : ptr) (mem : list byte) (n : Z) (w : World) :
  g_stateMetrics (snd (LoadEmulatorState z h buf mem n w))
  = count_load (g_stateMetrics w).
Proof.
  unfold LoadEmulatorState.
  destruct ((buf =? nullptr) || (C.size_t n <=? sizeof_RollbackStateHeader));
    [reflexivity | ].
  destruct (negb (magic (header_at mem) =? ROLLBACK_STATE_MAGIC));
    [reflexivity | ].
  destruct (negb (version (header_at mem) =? ROLLBACK_STATE_VERSION));
    [reflexivity | ].
  destruct (C.size_t n <? _); [reflexivity | ].
  cbn [g_stateBufferPool set_stateMetrics].
  destruct (getBuffer (malloc h) (g_stateBufferPool w)) as [b pool].
  destruct (b =? nullptr); [reflexivity | ].
  destruct (DecompressData z _ _) as [data | ]; [ | reflexivity].
  destruct (negb (state_load h _ data)); reflexivity.
Qed.

(** X28.  The save counter runs in cycles of 100: every call of
    [SaveEmulatorState], successful or not, takes [saveCount] from n to
    (n + 1) mod 100, so it never reaches 100; the call that makes it a
    multiple of 100 resets the whole structure, the load counter
    included, before the sizes of that save are added; any other save
    leaves the load counter alone.  [LoadEmulatorState] counts every call,
    successful or not, in [loadCount] and never changes [saveCount]. *)
Theorem save_counter_cycles
    (z : Zlib.Codec) (h : Host) (fr : Z) (w : World)
    (Hc : 0 <= saveCount (g_stateMetrics w) < 100) :
  let m := g_stateMetrics w in
  let m' := g_stateMetrics (snd (SaveEmulatorState z h fr w)) in
  saveCount m' = (saveCount m + 1) mod 100
  /\ 0 <= saveCount m' < 100
  /\ loadCount m' = (if saveCount m =? 99 then 0 else loadCount m)
  /\ (forall buf mem n,
      let m2 := g_stateMetrics (snd (LoadEmulatorState z h buf mem n w)) in
      saveCount m2 = saveCount m
      /\ loadCount m2 = C.u32 (loadCount m + 1)).
Proof.
  cbv zeta. destruct (count_save_cycle (g_stateMetrics w) Hc) as (A & B & C0).
  assert (Hs : saveCount (g_stateMetrics (snd (SaveEmulatorState z h fr w)))
               = saveCount (count_save (g_stateMetrics w))
               /\ loadCount (g_stateMetrics (snd (SaveEmulatorState z h fr w)))
                  = loadCount (count_save (g_stateMetrics w))).
  { destruct (SaveEmulatorState_metrics z h fr w) as (a & b & [E | [E | E]]);
      rewrite E; split; reflexivity. }
  destruct Hs as [Hs Hl]. rewrite Hs, Hl, A.
  split; [reflexivity | ].
  split; [apply Z.mod_pos_bound; lia | ].
  split.
  - destruct (saveCount (g_stateMetrics w) =? 99) eqn:E;
      [apply Z.eqb_eq in E | apply Z.eqb_neq in E].
    + rewrite (B E). reflexivity.
    + apply C0. lia.
  - intros buf mem n. rewrite LoadEmulatorState_metrics. split; reflexivity.
Qed.

(** X28, witness: the first save of the sample world. *)
Lemma save_counter_cycles_witness :
  saveCount (g_stateMetrics (snd Sample.save16)) = 1.
Proof.
  assert (Hc : 0 <= saveCount (g_stateMetrics Sample.world16) < 100)
    by (vm_compute; split; [discriminate | reflexivity]).
  exact (proj1 (save_counter_cycles Sample.codec
                  (Sample.host_saving Sample.saved16) 7 Sample.world16 Hc)).
Defined.

End MetricsMore.

(* ------------------------------------------------------------------ *)
(** ** Facts about the entry points of a session *)

Module EntryMore.

Import Pool Netplay Session.

Lemma shutdown_guard (w : World) :
  let w' := snd (CoreShutdownRollbackNetplay w) in
  l_HasInitRollbackNetplay w' = false \/ l_RollbackNetplay w' = None.
Proof.
  cbv zeta. unfold CoreShutdownRollbackNetplay.
  destruct (l_RollbackNetplay w) as [[this s] | ] eqn:Eo;
    [ | right; exact Eo].
  destruct (l_HasInitRollbackNetplay w) eqn:Ef; cbn [negb];
    [ | left; exact Ef].
  destruct (Rollback.Shutdown this s (instancePtr w)) as [s1 inst].
  left. reflexivity.
Qed.

(** X29.  After [CoreShutdownRollbackNetplay], which always returns
    [true], no entry point of the session does anything: a second
    shutdown changes nothing, and advancing a frame, adding local input,
    fetching and applying synchronised inputs, reading the metrics, asking
    for rollbacks and reading the rollback flag all return [false] and
    leave the statics, [g_lastInputs] and the emulator's controllers as
    they are, whatever GGPO would have answered. *)
Theorem entry_points_refuse_after_shutdown
    (w : World) (api : Emulation.Input_api)
    (advance sync : Rollback.GGPOErrorCode)
    (submit : Rollback.RollbackNetplayImpl -> Rollback.GGPOErrorCode)
    (synced g_lastInputs : list byte) :
  let w' := snd (CoreShutdownRollbackNetplay w) in
  fst (CoreShutdownRollbackNetplay w) = true
  /\ CoreShutdownRollbackNetplay w' = (true, w')
  /\ CoreRollbackNetplayAdvanceFrame advance w' = false
  /\ CoreRollbackNetplayAddLocalInput submit w' = (false, w')
  /\ CoreRollbackNetplayGetSynchronizedInputs sync w' = false
  /\ CoreRollbackNetplayApplyInputs api sync synced w' g_lastInputs
     = Some (false, [], g_lastInputs)
  /\ CoreRollbackNetplayGetMetrics w' = (false, None)
  /\ CoreRollbackNetplayHasRollbacks w' = false
  /\ CoreRollbackNetplayJustOccurred w' = (false, w').
Proof.
  cbv zeta. split.
  { unfold CoreShutdownRollbackNetplay.
    destruct (l_RollbackNetplay w) as [[this s] | ]; [ | reflexivity].
    destruct (negb (l_HasInitRollbackNetplay w)); [reflexivity | ].
    destruct (Rollback.Shutdown this s (instancePtr w)). reflexivity. }
  pose proof (shutdown_guard w) as G. cbv zeta in G.
  set (w' := snd (CoreShutdownRollbackNetplay w)) in *.
  unfold CoreShutdownRollbackNetplay, CoreRollbackNetplayAdvanceFrame,
    CoreRollbackNetplayAddLocalInput, CoreRollbackNetplayGetSynchronizedInputs,
    CoreRollbackNetplayApplyInputs, CoreRollbackNetplayGetMetrics,
    CoreRollbackNetplayHasRollbacks, CoreRollbackNetplayJustOccurred.
  destruct G as [G | G]; rewrite G.
  - destruct (l_RollbackNetplay w') as [[this s] | ]; cbn [negb];
      repeat split; reflexivity.
  - repeat split; reflexivity.
Qed.

(** X30.  In a running session whose metrics are consistent the three
    signs of a rollback agree: [CoreRollbackNetplayHasRollbacks] answers
    [true] exactly when the metrics [CoreRollbackNetplayGetMetrics] copies
    show frames rolled back, and exactly when they show a positive maximum
    rollback distance; both entry points leave the statics as they
    are. *)
Theorem rollback_signs_agree
    (w : World) (this : ptr) (s : Rollback.RollbackNetplayImpl)
    (Hobj : l_RollbackNetplay w = Some (this, s))
    (Hflag : l_HasInitRollbackNetplay w = true)
    (Hc : SessionInv.consistent (Rollback.metrics s)) :
  CoreRollbackNetplayGetMetrics w = (true, Some (Rollback.metrics s))
  /\ CoreRollbackNetplayHasRollbacks w
     = (0 <? Rollback.rollbackFrames (Rollback.metrics s))
  /\ CoreRollbackNetplayHasRollbacks w
     = (0 <? Rollback.maxRollbackFrames (Rollback.metrics s)).
Proof.
  unfold CoreRollbackNetplayGetMetrics, CoreRollbackNetplayHasRollbacks,
    Rollback.GetMetrics.
  rewrite Hobj, Hflag. cbn [negb].
  destruct Hc as ((A1 & A2) & (B1 & B2) & C0 & _).
  split; [reflexivity | ].
  destruct (0 <? Rollback.totalRollbacks (Rollback.metrics s)) eqn:E;
    [apply Z.ltb_lt in E | apply Z.ltb_ge in E].
  - split; symmetry; apply Z.ltb_lt; [lia | nia].
  - split; symmetry; apply Z.ltb_ge; nia.
Qed.

(** X30, witness: the running sample session after the three sample
    events. *)
Lemma rollback_signs_agree_witness :
  CoreRollbackNetplayHasRollbacks
    (set_session true (Some (0x5000, Sample.after_events3)) 0x5000
       Sample.world_running) = true.
Proof.
  assert (Hc : SessionInv.consistent (Rollback.metrics Sample.after_events3)).
  { unfold SessionInv.consistent. vm_compute.
    repeat split; try discriminate; reflexivity. }
  rewrite (proj1 (proj2 (rollback_signs_agree
                    (set_session true (Some (0x5000, Sample.after_events3))
                       0x5000 Sample.world_running)
                    0x5000 Sample.after_events3 eq_refl eq_refl Hc))).
  reflexivity.
Defined.

End EntryMore.
